(** * silx.io.nxdata: the NXdata validator and the NXdata view

    A shallow embedding of [src/silx/io/nxdata.py].  The h5py-like group is
    a tree of attributes and members; Python exceptions are values of
    [exn]; [is_valid_NXdata] is a function of the group; the methods of the
    [NXdata] class are computations over the state of the instance, which
    includes the wrapped group: the instance keeps a reference to it, so
    what a method writes through that reference is seen by every later
    read, and stays written when an exception ends the call. *)

From stdpp Require Import gmap strings list fin_maps.
From Stdlib Require Import ZArith Lia.

Local Open Scope string_scope.
Local Open Scope Z_scope.
Local Open Scope list_scope.

(** ** Exceptions and results *)

Inductive exn :=
  | TypeError | KeyError | AttributeError | AssertionError
  | IndexError | ValueError.

Inductive result (A : Type) :=
  | Ok (a : A)
  | Raise (e : exn).
Arguments Ok {A} a.
Arguments Raise {A} e.

Definition rbind {A B} (r : result A) (k : A -> result B) : result B :=
  match r with
  | Ok a => k a
  | Raise e => Raise e
  end.

Notation "'try!' x := r 'in' k" := (rbind r (fun x => k))
  (at level 10, x pattern, r at level 100, k at level 200).

(** ** The store: attributes, datasets, groups *)

(** An attribute value: a string, an integer scalar, or a Python list whose
    items are strings or [None]. *)
Inductive attr :=
  | AStr (s : string)
  | AInt (z : Z)
  | AList (l : list (option string)).

Record h5dataset := mkDataset {
  shape : list Z;
  dattrs : gmap string attr;
  values : list Z   (* the content, flattened in row-major order *)
}.

(** A child of the group is a dataset or a sub-group; of a sub-group the
    module only ever reads the attributes and the number of members. *)
Inductive node :=
  | Dset (d : h5dataset)
  | Grp (a : gmap string attr) (members : nat).

(** The children are kept in the store's iteration order.  [by_reference]
    tells the two kinds of store apart: an in-memory group keeps its
    attributes in a dict, [attrs.get] hands out the stored list object
    itself and an integer is a Python [int]; a group of an HDF5 file builds
    a new numpy array at every read, and an integer read from it is a
    [numpy.int64]. *)
Record h5group := mkGroup {
  attrs : gmap string attr;
  children : list (string * node);
  by_reference : bool
}.

Definition is_dataset (n : node) : bool :=
  match n with Dset _ => true | Grp _ _ => false end.

Definition node_attrs (n : node) : gmap string attr :=
  match n with Dset d => dattrs d | Grp a _ => a end.

Fixpoint lookup_child (cs : list (string * node)) (k : string) : option node :=
  match cs with
  | [] => None
  | (k', n) :: cs' => if String.eqb k' k then Some n else lookup_child cs' k
  end.

(** [name in group] and [group[name]], for a name that is a string or
    [None]; [None] is never a member, and a missing member is a KeyError. *)
Definition contains (g : h5group) (name : option string) : bool :=
  match name with
  | Some k => match lookup_child (children g) k with Some _ => true | None => false end
  | None => false
  end.

Definition getitem (g : h5group) (name : option string) : result node :=
  match name with
  | Some k => match lookup_child (children g) k with Some n => Ok n | None => Raise KeyError end
  | None => Raise KeyError
  end.

(** [node.shape]: a group has no such attribute. *)
Definition node_shape (n : node) : result (list Z) :=
  match n with
  | Dset d => Ok (shape d)
  | Grp _ _ => Raise AttributeError
  end.

(** [len(node)]: the first dimension of a dataset (a scalar dataset has no
    length), the number of members of a group. *)
Definition node_len (n : node) : result Z :=
  match n with
  | Dset d => match shape d with [] => Raise TypeError | n0 :: _ => Ok n0 end
  | Grp _ m => Ok (Z.of_nat m)
  end.

(** [size = 1; for dim in shape: size *= dim] *)
Definition prod_shape (sh : list Z) : Z := fold_left Z.mul sh 1.

Definition is_dot (name : option string) : bool :=
  match name with Some s => String.eqb s "." | None => false end.

(** ** INTERPDIM *)

Definition INTERPDIM (s : string) : option nat :=
  if String.eqb s "scalar" then Some 0%nat
  else if String.eqb s "spectrum" then Some 1%nat
  else if String.eqb s "image" then Some 2%nat
  else if String.eqb s "vertex" then Some 1%nat
  else None.

(** ** is_valid_NXdata *)

(** The reasons for which the validator answers [False]; all but the first
    are logged as a warning. *)
Inductive warning :=
  | NotNXdata
  | NoSignalAttr
  | SignalNotFound
  | MoreAxesThanDims
  | NoInterpretation
  | UnrecognizedInterpretation
  | WrongNumberOfAxes
  | UncertaintiesLength
  | AxisNotFound (name : option string)
  | AxisNotOneD (name : option string)
  | AxisLengthMismatch (name : option string)
  | AxisBreaksScatter (name : option string)
  | AxisErrorsShape (name : option string)
  | SignalErrorsShape.

Inductive verdict :=
  | Valid
  | Invalid (w : warning).

Definition verdict_bool (v : verdict) : bool :=
  match v with Valid => true | Invalid _ => false end.

(** [isinstance(x, str)] normalisation followed by a use as a sequence:
    [len()] or [enumerate()] of an integer is a TypeError. *)
Definition as_names (a : attr) : result (list (option string)) :=
  match a with
  | AStr s => Ok [Some s]
  | AList l => Ok l
  | AInt _ => Raise TypeError
  end.

(** An attribute used as an integer in arithmetic. *)
Definition as_int (a : attr) : result Z :=
  match a with
  | AInt z => Ok z
  | _ => Raise TypeError
  end.

(** [attrs.get(key, default)] used as an integer. *)
Definition get_int (m : gmap string attr) (key : string) (default : Z) : result Z :=
  match m !! key with
  | None => Ok default
  | Some a => as_int a
  end.

Definition Z_in (z : Z) (l : list Z) : bool := existsb (Z.eqb z) l.

Definition name_in (n : option string) (l : list (option string)) : bool :=
  bool_decide (n ∈ l).

Definition has_key (m : gmap string attr) (key : string) : bool :=
  match m !! key with Some _ => true | None => false end.

(** Arithmetic on [numpy.int64] wraps around (numpy only warns). *)
Definition wrap_int64 (z : Z) : Z := (z + 2 ^ 63) mod 2 ^ 64 - 2 ^ 63.

(** [a + b] and [a - b] where one operand at least is a [numpy.int64]
    when [np] holds, and both are Python integers otherwise. *)
Definition int_add (np : bool) (a b : Z) : Z := if np then wrap_int64 (a + b) else a + b.
Definition int_sub (np : bool) (a b : Z) : Z := if np then wrap_int64 (a - b) else a - b.

(** The attribute [key] of a dataset of [g], used as an integer, is a
    [numpy.int64]: it is present and the group is read from a file. *)
Definition numpy_int (g : h5group) (m : gmap string attr) (key : string) : bool :=
  negb (by_reference g) && has_key m key.

(** The length the validator attributes to an axis dataset: the total size
    for an axis that is not 1-D, [last_good + 1 - first_good] otherwise,
    the defaults being Python integers. *)
Definition axis_length (g : h5group) (d : h5dataset) : result Z :=
  if negb (Nat.eqb (length (shape d)) 1) then Ok (prod_shape (shape d))
  else
    try! len_axis := node_len (Dset d) in
    try! fg_idx := get_int (dattrs d) "first_good" 0 in
    try! lg_idx := get_int (dattrs d) "last_good" (len_axis - 1) in
    let np_fg := numpy_int g (dattrs d) "first_good" in
    let np_lg := numpy_int g (dattrs d) "last_good" in
    Ok (int_sub (np_lg || np_fg) (int_add np_lg lg_idx 1) fg_idx).

(** The state of the loop over the axes. *)
Record loop_state := mkLoop {
  ls_is_scatter : bool;
  ls_polynomial : list (option string)
}.

(** The test of the uncertainties of one axis, lines 184-193. *)
Definition check_axis_errors (g : h5group) (uncertainties_names : option (list (option string)))
    (polynomial_axes_names : list (option string))
    (i : nat) (axis_name : string) (axis : h5dataset) : result (option warning) :=
  let errors_name := Some (String.append axis_name "_errors") in
  match uncertainties_names with
  | Some unc =>
    if negb (contains g errors_name) then
      match unc !! i with
      | None => Raise IndexError
      | Some errors_name =>
        if contains g errors_name && negb (name_in (Some axis_name) polynomial_axes_names) then
          try! e := getitem g errors_name in
          try! esh := node_shape e in
          if bool_decide (esh = shape axis) then Ok None
          else Ok (Some (AxisErrorsShape errors_name))
        else Ok None
      end
    else Ok None
  | None => Ok None
  end.

(** One iteration of [for i, axis_name in enumerate(axes_names)]: the new
    loop state, or the warning with which the validator returns. *)
Definition check_axis (g : h5group) (signal : h5dataset)
    (uncertainties_names : option (list (option string)))
    (st : loop_state) (i : nat) (axis_name : option string)
    : result (loop_state + warning) :=
  if is_dot axis_name then Ok (inl st)
  else
    match axis_name, getitem g axis_name with
    | Some name, Ok (Dset axis) =>
      let signal_size := prod_shape (shape signal) in
      let axis_size := prod_shape (shape axis) in
      if negb (Nat.eqb (length (shape axis)) 1) && negb (Z.eqb axis_size signal_size)
      then Ok (inr (AxisNotOneD axis_name))
      else
        try! axis_len := axis_length g axis in
        let step :=
          if negb (Z.eqb axis_len signal_size) then
            if negb (Z_in axis_len (shape signal ++ [1; 2]))
            then inr (AxisLengthMismatch axis_name)
            else if Z_in axis_len [1; 2]
            then inl (mkLoop false (ls_polynomial st ++ [axis_name]))
            else inl (mkLoop false (ls_polynomial st))
          else
            if negb (ls_is_scatter st) then inr (AxisBreaksScatter axis_name)
            else inl st in
        match step with
        | inr w => Ok (inr w)
        | inl st' =>
          try! w := check_axis_errors g uncertainties_names (ls_polynomial st') i name axis in
          match w with
          | Some w => Ok (inr w)
          | None => Ok (inl st')
          end
        end
    | _, _ => Ok (inr (AxisNotFound axis_name))
    end.

Fixpoint check_axes (g : h5group) (signal : h5dataset)
    (uncertainties_names : option (list (option string)))
    (st : loop_state) (i : nat) (axes_names : list (option string))
    : result (option warning) :=
  match axes_names with
  | [] => Ok None
  | axis_name :: rest =>
    try! r := check_axis g signal uncertainties_names st i axis_name in
    match r with
    | inr w => Ok (Some w)
    | inl st' => check_axes g signal uncertainties_names st' (S i) rest
    end
  end.

(** [attrs.get(key)] on the group, then on the signal. *)
Definition group_or_signal_attr (g : h5group) (signal : h5dataset) (key : string) : option attr :=
  match attrs g !! key with
  | Some a => Some a
  | None => dattrs signal !! key
  end.

(** The interpretation is looked up on the signal first. *)
Definition signal_or_group_attr (g : h5group) (signal : h5dataset) (key : string) : option attr :=
  match dattrs signal !! key with
  | Some a => Some a
  | None => attrs g !! key
  end.

(** Lines 102-120: fewer axes than dimensions. *)
Definition check_interpretation (g : h5group) (signal : h5dataset) (naxes : nat)
    : result (option warning) :=
  match signal_or_group_attr g signal "interpretation" with
  | None => Ok (Some NoInterpretation)
  | Some (AStr interpretation) =>
    match INTERPDIM interpretation with
    | None => Ok (Some UnrecognizedInterpretation)
    | Some n => if Nat.eqb naxes n then Ok None else Ok (Some WrongNumberOfAxes)
    end
  | Some _ => Raise TypeError
  end.

(** Lines 87-193: the block guarded by ["axes" in group.attrs]. *)
Definition check_axes_attr (g : h5group) (signal : h5dataset) (axes_attr : attr)
    : result (option warning) :=
  let ndim := length (shape signal) in
  try! axes_names := as_names axes_attr in
  if Nat.ltb 1 ndim && Nat.ltb ndim (length axes_names) then Ok (Some MoreAxesThanDims)
  else
    try! w := (if Nat.ltb (length axes_names) ndim
               then check_interpretation g signal (length axes_names)
               else Ok None) in
    match w with
    | Some w => Ok (Some w)
    | None =>
      try! uncertainties_names :=
        match group_or_signal_attr g signal "uncertainties" with
        | None => Ok None
        | Some a => try! l := as_names a in Ok (Some l)
        end in
      if match uncertainties_names with
         | Some unc => negb (Nat.eqb (length unc) (length axes_names))
         | None => false
         end
      then Ok (Some UncertaintiesLength)
      else check_axes g signal uncertainties_names (mkLoop true []) 0 axes_names
    end.

(** Lines 195-201. *)
Definition check_signal_errors (g : h5group) (signal : h5dataset) : option warning :=
  match lookup_child (children g) "errors" with
  | Some (Dset e) =>
    if bool_decide (shape e = shape signal) then None else Some SignalErrorsShape
  | _ => None
  end.

(** [group.attrs.get("NX_class") == "NXdata"] *)
Definition is_NXdata_class (a : option attr) : bool :=
  match a with
  | Some (AStr s) => String.eqb s "NXdata"
  | _ => false
  end.

(** The validator with the reason of a rejection.  The argument is a group
    by its type, so the [is_group] test of line 71 passes.  The signal name
    must be a string to be looked up: a list is not hashable, an integer
    is no key of an in-memory group, and a group of a file refuses a name
    that is no string with a TypeError. *)
Definition validate (g : h5group) : result verdict :=
  if negb (is_NXdata_class (attrs g !! "NX_class"))
  then Ok (Invalid NotNXdata)
  else
    match attrs g !! "signal" with
    | None => Ok (Invalid NoSignalAttr)
    | Some (AList _) => Raise TypeError
    | Some (AInt _) => if by_reference g then Ok (Invalid SignalNotFound) else Raise TypeError
    | Some (AStr signal_name) =>
      match lookup_child (children g) signal_name with
      | Some (Dset signal) =>
        try! w := match attrs g !! "axes" with
                  | Some axes_attr => check_axes_attr g signal axes_attr
                  | None => Ok None
                  end in
        match w with
        | Some w => Ok (Invalid w)
        | None =>
          match check_signal_errors g signal with
          | Some w => Ok (Invalid w)
          | None => Ok Valid
          end
        end
      | _ => Ok (Invalid SignalNotFound)
      end
    end.

Definition is_valid_NXdata (g : h5group) : result bool :=
  try! v := validate g in Ok (verdict_bool v).

(** ** The NXdata class *)

(** What the [axes] list holds at a position that is not [None]: a child of
    the group, by reference, or the array read from it by a slice. *)
Inductive axis_t :=
  | AxNode (name : string)
  | AxArray (sh : list Z) (data : list Z).

(** The attributes of an instance.  [group] is the store itself: the
    instance holds a reference to it.  [self.signal] is the child of
    [group] named [signal_name]. *)
Record NXdata := mkNXdata {
  group : h5group;
  signal_name : string;
  _is_scatter : option bool;
  _axes : option (list (option axis_t));
  signal_is_0D : bool;
  signal_is_1D : bool;
  signal_is_2D : bool;
  signal_is_3D : bool;
  axes_names : list (option attr)
}.

(** A method is a computation on the instance; an exception leaves the
    state as it was when it was raised. *)
Definition M (A : Type) : Type := NXdata -> result A * NXdata.

Definition ret {A} (a : A) : M A := fun v => (Ok a, v).
Definition raise {A} (e : exn) : M A := fun v => (Raise e, v).
Definition lift {A} (r : result A) : M A := fun v => (r, v).
Definition get : M NXdata := fun v => (Ok v, v).
Definition modify (f : NXdata -> NXdata) : M unit := fun v => (Ok tt, f v).

Definition bind {A B} (m : M A) (k : A -> M B) : M B :=
  fun v =>
    match m v with
    | (Ok a, v') => k a v'
    | (Raise e, v') => (Raise e, v')
    end.

Notation "'do!' x := m 'in' k" := (bind m (fun x => k))
  (at level 10, x pattern, m at level 100, k at level 200).

Fixpoint for_each {A} (l : list A) (body : A -> M unit) : M unit :=
  match l with
  | [] => ret tt
  | x :: l' => do! _ := body x in for_each l' body
  end.

Fixpoint map_result {A B} (f : A -> result B) (l : list A) : result (list B) :=
  match l with
  | [] => Ok []
  | x :: l' => try! y := f x in try! ys := map_result f l' in Ok (y :: ys)
  end.

Definition set_is_scatter (b : bool) (v : NXdata) : NXdata :=
  mkNXdata (group v) (signal_name v) (Some b) (_axes v)
    (signal_is_0D v) (signal_is_1D v) (signal_is_2D v) (signal_is_3D v) (axes_names v).

Definition set_axes (a : list (option axis_t)) (v : NXdata) : NXdata :=
  mkNXdata (group v) (signal_name v) (_is_scatter v) (Some a)
    (signal_is_0D v) (signal_is_1D v) (signal_is_2D v) (signal_is_3D v) (axes_names v).

Definition set_signal_is_1D (b : bool) (v : NXdata) : NXdata :=
  mkNXdata (group v) (signal_name v) (_is_scatter v) (_axes v)
    (signal_is_0D v) b (signal_is_2D v) (signal_is_3D v) (axes_names v).

Definition append_axes_name (a : option attr) (v : NXdata) : NXdata :=
  mkNXdata (group v) (signal_name v) (_is_scatter v) (_axes v)
    (signal_is_0D v) (signal_is_1D v) (signal_is_2D v) (signal_is_3D v) (axes_names v ++ [a]).

Definition set_group (g : h5group) (v : NXdata) : NXdata :=
  mkNXdata g (signal_name v) (_is_scatter v) (_axes v)
    (signal_is_0D v) (signal_is_1D v) (signal_is_2D v) (signal_is_3D v) (axes_names v).

(** [self.signal] *)
Definition signal (v : NXdata) : result h5dataset :=
  match lookup_child (children (group v)) (signal_name v) with
  | Some (Dset d) => Ok d
  | _ => Raise KeyError
  end.

(** *** Writes into the store *)

Definition set_node_attr (key : string) (a : attr) (n : node) : node :=
  match n with
  | Dset d => Dset (mkDataset (shape d) (<[key := a]> (dattrs d)) (values d))
  | Grp at_ m => Grp (<[key := a]> at_) m
  end.

Fixpoint update_child (cs : list (string * node)) (k : string) (f : node -> node)
    : list (string * node) :=
  match cs with
  | [] => []
  | (k', n) :: cs' =>
    if String.eqb k' k then (k', f n) :: cs' else (k', n) :: update_child cs' k f
  end.

Definition set_group_attr (key : string) (a : attr) (g : h5group) : h5group :=
  mkGroup (<[key := a]> (attrs g)) (children g) (by_reference g).

Definition set_child_attr (child key : string) (a : attr) (g : h5group) : h5group :=
  mkGroup (attrs g) (update_child (children g) child (set_node_attr key a)) (by_reference g).

(** *** interpretation *)

Definition allowed_interpretation (a : option attr) : bool :=
  match a with
  | None => true
  | Some (AStr s) =>
    String.eqb s "scalar" || String.eqb s "spectrum" || String.eqb s "image"
    || String.eqb s "vertex"
  | Some _ => false
  end.

(** For a value that is not allowed the warning is built with
    [", ".join(allowed_interpretations)], a list that starts with [None]:
    the join is a TypeError. *)
Definition interpretation : M (option attr) :=
  do! v := get in
  do! sig := lift (signal v) in
  let interpretation := signal_or_group_attr (group v) sig "interpretation" in
  if negb (allowed_interpretation interpretation) then raise TypeError
  else ret interpretation.

(** [INTERPDIM[interpretation]] *)
Definition interpdim_of (a : option attr) : result nat :=
  match a with
  | Some (AStr s) => match INTERPDIM s with Some n => Ok n | None => Raise KeyError end
  | Some (AInt _) | None => Raise KeyError
  | Some (AList _) => Raise TypeError
  end.

(** *** axes *)

(** Python's [slice(start, stop).indices(len)] for one bound. *)
Definition slice_index (len i : Z) : Z :=
  if Z.ltb i 0 then Z.max 0 (i + len) else Z.min i len.

(** [dataset[start:stop]]: the rows [start .. stop-1] of the first
    dimension; a scalar dataset cannot be sliced. *)
Definition getslice (d : h5dataset) (start stop : Z) : result axis_t :=
  match shape d with
  | [] => Raise ValueError
  | n :: rest =>
    let s := slice_index n start in
    let e := slice_index n stop in
    let k := Z.max 0 (e - s) in
    let row := prod_shape rest in
    Ok (AxArray (k :: rest)
          (take (Z.to_nat (k * row)) (drop (Z.to_nat (s * row)) (values d))))
  end.

Definition node_getslice (n : node) (start stop : Z) : result axis_t :=
  match n with
  | Dset d => getslice d start stop
  | Grp _ _ => Raise TypeError
  end.

(** [attrs.get(key) or default], used as an index: a value that is falsy
    (absent, 0, an empty string or list) gives the default. *)
Definition get_or (a : option attr) (default : result Z) : result Z :=
  match a with
  | None => default
  | Some (AInt z) => if Z.eqb z 0 then default else Ok z
  | Some (AStr s) => if String.eqb s "" then default else Raise TypeError
  | Some (AList l) => match l with [] => default | _ => Raise TypeError end
  end.

(** [attrs.get(key)] is an integer other than 0. *)
Definition truthy_int (a : option attr) : bool :=
  match a with
  | Some (AInt z) => negb (Z.eqb z 0)
  | _ => false
  end.

(** [self.group[axis_n]] for a name that is not ["."] *)
Definition resolve_axis (g : h5group) (axis_n : option string) : result (option axis_t) :=
  if is_dot axis_n then Ok None
  else
    try! _ := getitem g axis_n in
    match axis_n with
    | Some name => Ok (Some (AxNode name))
    | None => Raise KeyError
    end.

(** Lines 352-359: keep only the good range of the axis. *)
Definition trim_axis (g : h5group) (a : option axis_t) : result (option axis_t) :=
  match a with
  | Some (AxNode name) =>
    try! axis := getitem g (Some name) in
    let at_ := node_attrs axis in
    if negb (has_key at_ "first_good") && negb (has_key at_ "last_good") then Ok a
    else
      try! fg_idx := get_or (at_ !! "first_good") (Ok 0) in
      try! lg_idx := get_or (at_ !! "last_good")
                       (try! n := node_len axis in Ok (n - 1)) in
      (* the value of the attribute is used when it is not falsy *)
      let np_lg := negb (by_reference g) && truthy_int (at_ !! "last_good") in
      try! r := node_getslice axis fg_idx (int_add np_lg lg_idx 1) in
      Ok (Some r)
  | _ => Ok a
  end.

Definition compute_axes (g : h5group) (ndims : nat) (axes_attr : attr)
    (interpretation : option attr) : result (list (option axis_t)) :=
  try! axes_names := as_names axes_attr in
  try! axes :=
    (if Nat.eqb (length axes_names) ndims then map_result (resolve_axis g) axes_names
     else
       match interpretation with
       | Some _ =>
         try! n := interpdim_of interpretation in
         if negb (Nat.eqb (length axes_names) n) then Raise AssertionError
         else
           try! l := map_result (resolve_axis g) axes_names in
           Ok (replicate (ndims - n) None ++ l)
       | None => map_result (resolve_axis g) axes_names
       end) in
  map_result (trim_axis g) axes.

Definition axes : M (list (option axis_t)) :=
  do! v := get in
  match _axes v with
  | Some a => ret a
  | None =>
    do! sig := lift (signal v) in
    let ndims := length (shape sig) in
    let axes_names := attrs (group v) !! "axes" in
    do! interpretation := interpretation in
    match axes_names with
    | None =>
      do! _ := modify (set_axes (replicate ndims None)) in
      ret (replicate ndims None)
    | Some axes_attr =>
      do! a := lift (compute_axes (group v) ndims axes_attr interpretation) in
      do! _ := modify (set_axes a) in
      ret a
    end
  end.

(** *** is_scatter *)

Definition axis_shape (g : h5group) (a : axis_t) : result (list Z) :=
  match a with
  | AxNode name => try! n := getitem g (Some name) in node_shape n
  | AxArray sh _ => Ok sh
  end.

(** The body of [for axis in self.axes]. *)
Definition scatter_step (sigsize : Z) (axis : option axis_t) : M unit :=
  match axis with
  | None => ret tt
  | Some a =>
    do! v := get in
    do! sh := lift (axis_shape (group v) a) in
    let axis_size := prod_shape sh in
    match _is_scatter v with
    | Some b => modify (set_is_scatter (b && Z.eqb axis_size sigsize))
    | None => ret tt
    end
  end.

Definition is_scatter : M bool :=
  do! v := get in
  match _is_scatter v with
  | Some b => ret b
  | None =>
    if negb (signal_is_1D v) then
      do! _ := modify (set_is_scatter false) in ret false
    else
      do! _ := modify (set_is_scatter true) in
      do! sig := lift (signal v) in
      let sigsize := prod_shape (shape sig) in
      do! axes := axes in
      do! _ := for_each axes (scatter_step sigsize) in
      do! v := get in
      match _is_scatter v with
      | Some b => ret b
      | None => raise TypeError
      end
  end.

(** *** axes_dataset_names *)

(** Where the list that [axes_dataset_names] works on lives. *)
Inductive owner := OnGroup | OnSignal | Fresh.

Definition write_back (o : owner) (names : list (option string)) : M unit :=
  match o with
  | OnGroup => modify (fun v => set_group (set_group_attr "axes" (AList names) (group v)) v)
  | OnSignal =>
    modify (fun v =>
      set_group (set_child_attr (signal_name v) "axes" (AList names) (group v)) v)
  | Fresh => ret tt
  end.

Definition dot_to_None (name : option string) : option string :=
  if is_dot name then None else name.

(** Lines 389-400: the names as they are when there is one per dimension
    or when the view is a scatter, else padded on the left. *)
Definition pad_names (ndims : nat) (names : list (option string))
    : M (list (option string)) :=
  if negb (Nat.eqb (length names) ndims) then
    do! sc := is_scatter in
    if sc && Nat.eqb ndims 1 then ret names
    else
      do! interp := interpretation in
      do! n := lift (interpdim_of interp) in
      if negb (Nat.eqb (length names) n) then raise AssertionError
      else ret (replicate (ndims - n) None ++ names)
  else ret names.

(** The attribute that [axes_dataset_names] reads, and where it is. *)
Definition axes_attr_source (g : h5group) (sig : h5dataset) : option (attr * owner) :=
  match attrs g !! "axes" with
  | Some a => Some (a, OnGroup)
  | None =>
    match dattrs sig !! "axes" with
    | Some a => Some (a, OnSignal)
    | None => None
    end
  end.

Definition axes_dataset_names : M (list (option string)) :=
  do! v := get in
  do! sig := lift (signal v) in
  let ndims := length (shape sig) in
  match axes_attr_source (group v) sig with
  | None => ret (replicate ndims None)
  | Some (a, o) =>
    do! names := lift (as_names a) in
    (* a list is the attribute's own object when the store hands it out by
       reference; [[axes_dataset_names]] for a str is a new list *)
    let o := match a with
             | AList _ => if by_reference (group v) then o else Fresh
             | _ => Fresh
             end in
    (* for i, axis_name in enumerate(...): if axis_name == ".": ...[i] = None *)
    let names := map dot_to_None names in
    do! _ := write_back o names in
    pad_names ndims names
  end.

(** *** __init__ *)

Definition append_name (dsname : option string) : M unit :=
  match dsname with
  | Some name =>
    do! v := get in
    do! n := lift (getitem (group v) dsname) in
    match node_attrs n !! "long_name" with
    | Some long_name => modify (append_axes_name (Some long_name))
    | None => modify (append_axes_name (Some (AStr name)))
    end
  | None => modify (append_axes_name None)
  end.

Definition init_body : M unit :=
  do! names := axes_dataset_names in
  do! _ := for_each names append_name in
  do! v := get in
  if signal_is_1D v then
    do! a := axes in
    modify (set_signal_is_1D (Nat.leb (length a) 1))
  else modify (set_signal_is_1D false).

(** [NXdata(group)]: the instance, or the exception, and the store as the
    call leaves it. *)
Definition NXdata_init (g : h5group) : result NXdata * h5group :=
  match is_valid_NXdata g with
  | Raise e => (Raise e, g)
  | Ok false => (Raise TypeError, g)
  | Ok true =>
    match attrs g !! "signal" with
    | Some (AStr name) =>
      match lookup_child (children g) name with
      | Some (Dset sig) =>
        let n := length (shape sig) in
        let v0 := mkNXdata g name None None
                    (Nat.eqb n 0) (Nat.eqb n 1) (Nat.eqb n 2) (Nat.eqb n 3) [] in
        match init_body v0 with
        | (Ok _, v) => (Ok v, group v)
        | (Raise e, v) => (Raise e, group v)
        end
      | _ => (Raise KeyError, g)
      end
    | _ => (Raise KeyError, g)
    end
  end.

(** *** errors, get_axis_errors, scatter kinds *)

Definition errors (v : NXdata) : option node :=
  if negb (contains (group v) (Some "errors")) then None
  else lookup_child (children (group v)) "errors".

Definition is_x_y_value_scatter : M bool :=
  do! sc := is_scatter in
  if sc then do! a := axes in ret (Nat.eqb (length a) 2) else ret false.

Definition is_unsupported_scatter : M bool :=
  do! sc := is_scatter in
  if sc then do! a := axes in ret (Nat.ltb 2 (length a)) else ret false.

(** [for item in self.group]: the first member whose [@long_name] equals
    the given name. *)
Fixpoint find_long_name (g : h5group) (items : list string) (axis_name : string)
    : option string :=
  match items with
  | [] => None
  | item :: items' =>
    match lookup_child (children g) item with
    | Some n =>
      match node_attrs n !! "long_name" with
      | Some (AStr s) =>
        if String.eqb s axis_name then Some item else find_long_name g items' axis_name
      | _ => find_long_name g items' axis_name
      end
    | None => find_long_name g items' axis_name
    end
  end.

(** [l.index(x)] *)
Fixpoint index_of (x : option string) (l : list (option string)) : option nat :=
  match l with
  | [] => None
  | y :: l' => if bool_decide (y = x) then Some 0%nat else S <$> index_of x l'
  end.

(** [x == n] for an attribute value [x] and an integer [n]. *)
Definition attr_eq_int (a : attr) (n : Z) : bool :=
  match a with
  | AInt z => Z.eqb z n
  | _ => false
  end.

(** [node[fg_idx:lg_idx + 1]]; [np] tells that [lg_idx] is a
    [numpy.int64]. *)
Definition slice_good_range (np : bool) (n : node) (fg_idx lg_idx : attr) : result axis_t :=
  try! lg := as_int lg_idx in
  match n with
  | Grp _ _ => Raise TypeError
  | Dset d =>
    match shape d with
    | [] => Raise ValueError
    | _ => try! fg := as_int fg_idx in getslice d fg (int_add np lg 1)
    end
  end.

(** [str(x)] for an item of [@axes]. *)
Definition str_of (x : option string) : option string :=
  match x with
  | Some s => Some s
  | None => Some "None"
  end.

(** Lines 447-455: the index at which [@uncertainties] is read.  A string
    is wrapped in a list and a Python list is used as it is.  Anything
    else goes through [map(str, ...)], which is an iterator: the test
    [axis_name not in axes_ds_names] consumes it up to the first item
    that matches, and [list(axes_ds_names)] then holds only what
    follows, so that [.index] finds a second occurrence or raises
    ValueError. *)
Definition axes_position (g : h5group) (a : option attr) (axis_name : string)
    : result nat :=
  match a with
  | None | Some (AInt _) => Raise TypeError
  | Some (AStr s) =>
    match index_of (Some axis_name) [Some s] with
    | None => Raise KeyError
    | Some i => Ok i
    end
  | Some (AList l) =>
    if by_reference g then
      match index_of (Some axis_name) l with
      | None => Raise KeyError
      | Some i => Ok i
      end
    else
      let names := map str_of l in
      match index_of (Some axis_name) names with
      | None => Raise KeyError
      | Some i =>
        match index_of (Some axis_name) (drop (S i) names) with
        | None => Raise ValueError
        | Some j => Ok j
        end
      end
  end.

(** [uncertainties_names[i]] after the [isinstance(..., str)] wrapping. *)
Definition uncertainty_at (a : attr) (i : nat) : result (option string) :=
  match a with
  | AInt _ => Raise TypeError
  | AStr s => match i with O => Ok (Some s) | S _ => Raise IndexError end
  | AList l => match l !! i with Some x => Ok x | None => Raise IndexError end
  end.

(** The name under which [get_axis_errors] looks the axis up: the given
    name, or the first member that has it as [@long_name]. *)
Definition resolve_axis_name (g : h5group) (axis_name : string) : string :=
  if negb (contains g (Some axis_name)) then
    match find_long_name g (map fst (children g)) axis_name with
    | Some item => item
    | None => axis_name
    end
  else axis_name.

Definition get_axis_errors (v : NXdata) (axis_name : string) : result (option axis_t) :=
  let g := group v in
  let axis_name := resolve_axis_name g axis_name in
  if negb (contains g (Some axis_name)) then Raise KeyError
  else
    try! axis := getitem g (Some axis_name) in
    try! len_axis := node_len axis in
    let fg_idx := default (AInt 0) (node_attrs axis !! "first_good") in
    let lg_idx := default (AInt (len_axis - 1)) (node_attrs axis !! "last_good") in
    let np_lg := numpy_int g (node_attrs axis) "last_good" in
    let whole := attr_eq_int fg_idx 0 && attr_eq_int lg_idx (len_axis - 1) in
    let errors_name := String.append axis_name "_errors" in
    match lookup_child (children g) errors_name with
    | Some (Dset e) =>
      if negb whole then
        try! r := slice_good_range np_lg (Dset e) fg_idx lg_idx in Ok (Some r)
      else Ok (Some (AxNode errors_name))
    | _ =>
      try! sig := signal v in
      match group_or_signal_attr g sig "uncertainties" with
      | None => Ok None
      | Some uncertainties_names =>
        try! i := axes_position g (group_or_signal_attr g sig "axes") axis_name in
        try! name := uncertainty_at uncertainties_names i in
        try! errors := getitem g name in
        if whole then
          match name with
          | Some name => Ok (Some (AxNode name))
          | None => Raise KeyError
          end
        else
          try! r := slice_good_range np_lg errors fg_idx lg_idx in Ok (Some r)
      end
    end.

(** ** Values of the cached properties *)

(** What [interpretation] returns. *)
Definition interpretation_value (v : NXdata) : result (option attr) :=
  try! sig := signal v in
  let interpretation := signal_or_group_attr (group v) sig "interpretation" in
  if negb (allowed_interpretation interpretation) then Raise TypeError
  else Ok interpretation.

(** What [axes] computes when nothing is cached. *)
Definition axes_value (v : NXdata) : result (list (option axis_t)) :=
  try! sig := signal v in
  try! interpretation := interpretation_value v in
  match attrs (group v) !! "axes" with
  | None => Ok (replicate (length (shape sig)) None)
  | Some axes_attr => compute_axes (group v) (length (shape sig)) axes_attr interpretation
  end.

(** What [axes] returns: the cached list, or the computed one. *)
Definition axes_outcome (v : NXdata) : result (list (option axis_t)) :=
  match _axes v with
  | Some a => Ok a
  | None => axes_value v
  end.

(** Two states of an instance that differ in the caches at most. *)
Definition same_but_caches (v v' : NXdata) : Prop :=
  group v' = group v /\ signal_name v' = signal_name v
  /\ signal_is_1D v' = signal_is_1D v /\ axes_names v' = axes_names v
  /\ signal_is_0D v' = signal_is_0D v /\ signal_is_2D v' = signal_is_2D v
  /\ signal_is_3D v' = signal_is_3D v.

(** A name of [@axes] is the placeholder or names a dataset of the group. *)
Definition names_dataset (g : h5group) (n : option string) : Prop :=
  is_dot n = true
  \/ exists s d, n = Some s /\ lookup_child (children g) s = Some (Dset d).

(** How an entry of the axes list comes from a name of [@axes]. *)
Definition entry_of (g : h5group) (n : option string) (z : option axis_t) : Prop :=
  exists s, n = Some s
    /\ ((is_dot n = true /\ z = None)
        \/ (is_dot n = false
            /\ exists x node, z = Some x /\ lookup_child (children g) s = Some node
                /\ (x = AxNode s \/ exists sh data, x = AxArray sh data))).

(** An entry of the axes list has a shape. *)
Definition has_shape (g : h5group) (a : option axis_t) : Prop :=
  match a with
  | None => True
  | Some x => exists sh, axis_shape g x = Ok sh
  end.

(** An entry of the axes list is [None] or has as many elements as the
    signal. *)
Definition same_size (g : h5group) (sigsize : Z) (a : option axis_t) : bool :=
  match a with
  | None => true
  | Some x =>
    match axis_shape g x with
    | Ok sh => Z.eqb (prod_shape sh) sigsize
    | Raise _ => false
    end
  end.

(** The [@axes] attribute after [axes_dataset_names] has run: in a list,
    the placeholders are replaced. *)
Definition written (g : h5group) (a : attr) : attr :=
  match a with
  | AList l => if by_reference g then AList (map dot_to_None l) else a
  | _ => a
  end.

(** The state after the loop of [axes_dataset_names] that replaces the
    placeholders: the write reaches the store when the attribute is a
    list. *)
Definition after_write (o : owner) (a : attr) (v : NXdata) : NXdata :=
  match a, o with
  | AList l, OnGroup =>
    if by_reference (group v)
    then set_group (set_group_attr "axes" (AList (map dot_to_None l)) (group v)) v
    else v
  | AList l, OnSignal =>
    if by_reference (group v)
    then set_group
           (set_child_attr (signal_name v) "axes" (AList (map dot_to_None l)) (group v)) v
    else v
  | _, _ => v
  end.

(** The part of [__init__] that follows the call of
    [axes_dataset_names]. *)
Definition init_rest (names : list (option string)) : M unit :=
  do! _ := for_each names append_name in
  do! v := get in
  if signal_is_1D v then
    do! a := axes in
    modify (set_signal_is_1D (Nat.leb (length a) 1))
  else modify (set_signal_is_1D false).

(** What holds of the caches of a view with the signal [sig]. *)
Definition caches_coherent (v : NXdata) (sig : h5dataset) : Prop :=
  (forall ax, _axes v = Some ax -> axes_value v = Ok ax)
  /\ (length (shape sig) <> 1%nat ->
      signal_is_1D v = false /\ (_is_scatter v = None \/ _is_scatter v = Some false))
  /\ (length (shape sig) = 1%nat ->
      exists ax,
        _axes v = Some ax /\ Forall (has_shape (group v)) ax
        /\ (_is_scatter v
            = Some (forallb (same_size (group v) (prod_shape (shape sig))) ax)
            \/ (_is_scatter v = None /\ signal_is_1D v = true))).

(** ** Example stores *)

Definition dataset_node (sh : list Z) (a : list (string * attr)) (data : list Z) : node :=
  Dset (mkDataset sh (list_to_map a) data).

(** An in-memory group with [@NX_class="NXdata"]. *)
Definition nxdata_group (a : list (string * attr)) (c : list (string * node)) : h5group :=
  mkGroup (list_to_map (("NX_class", AStr "NXdata") :: a)) c true.

(** The same group read from a file. *)
Definition from_file (g : h5group) : h5group :=
  mkGroup (attrs g) (children g) false.

(** A scatter: a 1-D signal and two axes of the same size. *)
Definition scatter_group : h5group :=
  nxdata_group [("signal", AStr "s"); ("axes", AList [Some "x"; Some "y"])]
    [("s", dataset_node [10] [] []); ("x", dataset_node [10] [] []);
     ("y", dataset_node [10] [] [])].

(** The same scatter with [@interpretation="spectrum"] on the signal. *)
Definition spectrum_scatter_group : h5group :=
  nxdata_group [("signal", AStr "s"); ("axes", AList [Some "x"; Some "y"])]
    [("s", dataset_node [10] [("interpretation", AStr "spectrum")] []);
     ("x", dataset_node [10] [] []); ("y", dataset_node [10] [] [])].

(** The 3D scatter that the comment of [INTERPDIM] describes: a 1-D signal
    with [@interpretation="vertex"] and three axes of the same length. *)
Definition vertex_group : h5group :=
  nxdata_group [("signal", AStr "s"); ("axes", AList [Some "x"; Some "y"; Some "z"]);
                ("interpretation", AStr "vertex")]
    [("s", dataset_node [5] [] []); ("x", dataset_node [5] [] []);
     ("y", dataset_node [5] [] []); ("z", dataset_node [5] [] [])].

(** An axis with an errors dataset [x_errors] of another shape. *)
Definition bad_axis_errors_group : h5group :=
  nxdata_group [("signal", AStr "s"); ("axes", AStr "x")]
    [("s", dataset_node [3] [] []); ("x", dataset_node [3] [] []);
     ("x_errors", dataset_node [5] [] [])].

(** The same errors dataset, named by [@uncertainties]. *)
Definition bad_uncertainties_group : h5group :=
  nxdata_group [("signal", AStr "s"); ("axes", AStr "x"); ("uncertainties", AStr "e")]
    [("s", dataset_node [3] [] []); ("x", dataset_node [3] [] []);
     ("e", dataset_node [5] [] [])].

(** An axis of length 8 with [@last_good=0]. *)
Definition last_good_zero_group : h5group :=
  nxdata_group [("signal", AStr "s"); ("axes", AStr "x")]
    [("s", dataset_node [8] [] []);
     ("x", dataset_node [8] [("last_good", AInt 0)] [10; 11; 12; 13; 14; 15; 16; 17])].

(** An axis of length 8 with [@first_good=2] and [@last_good=5]. *)
Definition good_range_group : h5group :=
  nxdata_group [("signal", AStr "s"); ("axes", AStr "x")]
    [("s", dataset_node [4] [] []);
     ("x", dataset_node [8] [("first_good", AInt 2); ("last_good", AInt 5)]
             [10; 11; 12; 13; 14; 15; 16; 17])].

(** A 2-D signal whose first dimension has no axis. *)
Definition dot_axes_group : h5group :=
  nxdata_group [("signal", AStr "s"); ("axes", AList [Some "."; Some "x"])]
    [("s", dataset_node [2; 3] [] []); ("x", dataset_node [3] [] [])].

(** A 1-D signal with two axes, of length 2 and 3, in either order. *)
Definition two_axes_group (axes_names : list (option string)) : h5group :=
  nxdata_group [("signal", AStr "s"); ("axes", AList axes_names)]
    [("s", dataset_node [3] [] []); ("a", dataset_node [2] [] []);
     ("b", dataset_node [3] [] [])].

(** [@axes] on the signal dataset only. *)
Definition signal_axes_group : h5group :=
  nxdata_group [("signal", AStr "s")]
    [("s", dataset_node [3] [("axes", AStr "x")] []); ("x", dataset_node [3] [] [])].


(** A 0-D signal with one axis of one element. *)
Definition scalar_signal_group : h5group :=
  nxdata_group [("signal", AStr "s"); ("axes", AStr "x")]
    [("s", dataset_node [] [] []); ("x", dataset_node [1] [] [])].

(** A member named ["errors"] that is a sub-group. *)
Definition errors_subgroup_group : h5group :=
  nxdata_group [("signal", AStr "s")]
    [("s", dataset_node [3] [] []); ("errors", Grp ∅ 0)].

(** The view that the constructor builds over [errors_subgroup_group]. *)
Definition errors_subgroup_view : NXdata :=
  mkNXdata errors_subgroup_group "s" None (Some [None]) false true false false [None].


(** A 1-D signal whose only dimension has no axis. *)
Definition placeholder_group : h5group :=
  nxdata_group [("signal", AStr "s"); ("axes", AStr ".")]
    [("s", dataset_node [3] [] [])].

(** The view that the constructor builds over [placeholder_group]. *)
Definition placeholder_view : NXdata :=
  mkNXdata placeholder_group "s" None (Some [None]) false true false false [None].

(** The view that the constructor builds over [scatter_group]. *)
Definition scatter_view : NXdata :=
  mkNXdata scatter_group "s" (Some true) (Some [Some (AxNode "x"); Some (AxNode "y")])
    false false false false [Some (AStr "x"); Some (AStr "y")].

(** An entry of the axes list is [None] or has [size] elements in all. *)
Definition entry_size_is (g : h5group) (size : Z) (a : option axis_t) : Prop :=
  forall x, a = Some x -> exists sh, axis_shape g x = Ok sh /\ prod_shape sh = size.

(** ** The functions of the module *)

(** [NXdata(group).<accessor>]: the accessor runs on a new instance; the
    pair holds what the call returns and the store as the call leaves it. *)
Definition on_new_view {A} (g : h5group) (m : M A) : result A * h5group :=
  match NXdata_init g with
  | (Ok v, _) => let '(r, v') := m v in (r, group v')
  | (Raise e, g') => (Raise e, g')
  end.

(** The functions [get_signal], ..., [is_unsupported_scatter] of lines
    506-645; each one is named as in the module. *)
Module nxdata.
Definition get_signal (g : h5group) : result h5dataset * h5group :=
  on_new_view g (fun v => lift (signal v) v).

Definition get_interpretation (g : h5group) : result (option attr) * h5group :=
  on_new_view g interpretation.

Definition get_axes (g : h5group) : result (list (option axis_t)) * h5group :=
  on_new_view g axes.

Definition get_axes_dataset_names (g : h5group) : result (list (option string)) * h5group :=
  on_new_view g axes_dataset_names.

Definition get_axes_names (g : h5group) : result (list (option attr)) * h5group :=
  on_new_view g (fun v => ret (axes_names v) v).

Definition get_axis_errors (g : h5group) (axis_name : string)
    : result (option axis_t) * h5group :=
  on_new_view g (fun v => lift (get_axis_errors v axis_name) v).

Definition get_signal_errors (g : h5group) : result (option node) * h5group :=
  on_new_view g (fun v => ret (errors v) v).

Definition signal_is_0D (g : h5group) : result bool * h5group :=
  on_new_view g (fun v => ret (signal_is_0D v) v).

Definition signal_is_1D (g : h5group) : result bool * h5group :=
  on_new_view g (fun v => ret (signal_is_1D v) v).

Definition signal_is_2D (g : h5group) : result bool * h5group :=
  on_new_view g (fun v => ret (signal_is_2D v) v).

Definition signal_is_3D (g : h5group) : result bool * h5group :=
  on_new_view g (fun v => ret (signal_is_3D v) v).

Definition is_scatter (g : h5group) : result bool * h5group :=
  on_new_view g is_scatter.

Definition is_x_y_value_scatter (g : h5group) : result bool * h5group :=
  on_new_view g is_x_y_value_scatter.

Definition is_unsupported_scatter (g : h5group) : result bool * h5group :=
  on_new_view g is_unsupported_scatter.
End nxdata.

(** ** The instance during its construction *)

(** The instance as lines 214-230 set it, before the names of the axes
    are computed. *)
Definition new_instance (g : h5group) (name : string) (sig : h5dataset) : NXdata :=
  let n := length (shape sig) in
  mkNXdata g name None None (Nat.eqb n 0) (Nat.eqb n 1) (Nat.eqb n 2) (Nat.eqb n 3) [].

(** A computation keeps the component [f] of the instance, whether it
    returns or raises. *)
Definition keeps {X A} (f : NXdata -> X) (m : M A) : Prop :=
  forall v, f (snd (m v)) = f v.

(** The three flags that [__init__] sets once. *)
Definition dims (v : NXdata) : bool * bool * bool :=
  (signal_is_0D v, signal_is_2D v, signal_is_3D v).

(** ** What the validator requires of an axis *)

(** The [@uncertainties] names as the validator normalises them. *)
Definition uncertainties_of (g : h5group) (sig : h5dataset)
    : result (option (list (option string))) :=
  match group_or_signal_attr g sig "uncertainties" with
  | None => Ok None
  | Some a => try! l := as_names a in Ok (Some l)
  end.

(** A name of [@axes], other than the placeholder, names a dataset whose
    length fits the signal: the size of the signal, the length of one of
    its dimensions, 1 or 2; and an axis that is not 1-D has the size of
    the signal. *)
Definition axis_fits (g : h5group) (sig : h5dataset) (n : option string) : Prop :=
  is_dot n = true
  \/ exists s axis len,
      n = Some s /\ lookup_child (children g) s = Some (Dset axis)
      /\ axis_length g axis = Ok len
      /\ (length (shape axis) <> 1%nat -> len = prod_shape (shape sig))
      /\ (len = prod_shape (shape sig) \/ In len (shape sig ++ [1; 2])).

(** A stack of two spectra: fewer axes than dimensions, with
    [@interpretation] on the signal and [@uncertainties] on the group. *)
Definition spectra_group : h5group :=
  nxdata_group [("signal", AStr "s"); ("axes", AStr "energy");
                ("uncertainties", AStr "energy_unc")]
    [("s", dataset_node [2; 10] [("interpretation", AStr "spectrum")] []);
     ("energy", dataset_node [10] [] []); ("energy_unc", dataset_node [10] [] [])].

(** ** Attributes of the expected types *)

(** An attribute, when present, is a string. *)
Definition str_attr (a : option attr) : Prop :=
  forall x, a = Some x -> exists s, x = AStr s.

(** An attribute, when present, is an integer. *)
Definition int_attr (a : option attr) : Prop :=
  forall x, a = Some x -> exists z, x = AInt z.

(** An attribute, when present, is a string or a list. *)
Definition names_attr (a : option attr) : Prop :=
  forall x, a = Some x -> exists l, as_names x = Ok l.

(** The attributes that the validator reads have the types it expects:
    [@signal] is a string, [@axes] and [@uncertainties] are strings or
    lists, [@interpretation] is a string, [@first_good] and [@last_good]
    are integers, and no entry of [@uncertainties] names a sub-group. *)
Definition typed_group (g : h5group) : Prop :=
  str_attr (attrs g !! "signal")
  /\ names_attr (attrs g !! "axes")
  /\ (forall k d, lookup_child (children g) k = Some (Dset d) ->
        int_attr (dattrs d !! "first_good") /\ int_attr (dattrs d !! "last_good"))
  /\ (forall name sig,
        attrs g !! "signal" = Some (AStr name) ->
        lookup_child (children g) name = Some (Dset sig) ->
        str_attr (signal_or_group_attr g sig "interpretation")
        /\ names_attr (group_or_signal_attr g sig "uncertainties")
        /\ (forall l e a m,
              uncertainties_of g sig = Ok (Some l) -> Some e ∈ l ->
              lookup_child (children g) e <> Some (Grp a m))).

(** An image without axes. *)
Definition plain_image_group : h5group :=
  nxdata_group [("signal", AStr "s")] [("s", dataset_node [5; 5] [] [])].

(** An axis with a [@long_name] and an errors dataset. *)
Definition long_name_group : h5group :=
  nxdata_group [("signal", AStr "s"); ("axes", AStr "energy")]
    [("s", dataset_node [10] [] []);
     ("energy", dataset_node [10] [("long_name", AStr "Calibrated energy")] []);
     ("energy_errors", dataset_node [10] [] [])].

(** The view that the constructor builds over [long_name_group]. *)
Definition long_name_view : NXdata :=
  mkNXdata long_name_group "s" None (Some [Some (AxNode "energy")])
    false true false false [Some (AStr "Calibrated energy")].

(** What [axes_names] shows for an entry of [axes_dataset_names]: the
    [@long_name] of the dataset when it has one, else its name. *)
Definition shown_as (g : h5group) (dsname : option string) (shown : option attr) : Prop :=
  match dsname with
  | None => shown = None
  | Some name =>
    exists n, lookup_child (children g) name = Some n
              /\ shown = Some (default (AStr name) (node_attrs n !! "long_name"))
  end.

(** An entry of [axes_dataset_names] that the constructor can show:
    [None], or the name of a member of the group. *)
Definition None_or_member (g : h5group) (dsname : option string) : Prop :=
  match dsname with
  | None => True
  | Some name => exists n, lookup_child (children g) name = Some n
  end.

(** A 1-D signal with [@interpretation="scalar"] and an empty [@axes]. *)
Definition empty_axes_group : h5group :=
  nxdata_group [("signal", AStr "s"); ("axes", AList [])]
    [("s", dataset_node [3] [("interpretation", AStr "scalar")] [])].


(** The number of elements of an array of a given shape: the product of
    its dimensions, 1 for a scalar. *)
Fixpoint element_count (sh : list Z) : Z :=
  match sh with
  | [] => 1
  | n :: rest => n * element_count rest
  end.

(** An entry of the axes list is [None] or holds [count] elements. *)
Definition entry_count_is (g : h5group) (count : Z) (a : option axis_t) : Prop :=
  forall x, a = Some x -> exists sh, axis_shape g x = Ok sh /\ element_count sh = count.

(** A 1-D signal of 3 elements with one axis of 2 elements. *)
Definition short_axis_group : h5group :=
  nxdata_group [("signal", AStr "s"); ("axes", AStr "x")]
    [("s", dataset_node [3] [] []); ("x", dataset_node [2] [] [])].

(** The view that the constructor builds over [short_axis_group]. *)
Definition short_axis_view : NXdata :=
  mkNXdata short_axis_group "s" None (Some [Some (AxNode "x")])
    false true false false [Some (AStr "x")].

(** A member has the given [@long_name]. *)
Definition has_long_name (g : h5group) (item alias : string) : Prop :=
  exists n, lookup_child (children g) item = Some n
            /\ node_attrs n !! "long_name" = Some (AStr alias).

(** Two members with the same [@long_name]; the first has an errors
    dataset. *)
Definition shared_long_name_group : h5group :=
  nxdata_group [("signal", AStr "s"); ("axes", AStr "p")]
    [("s", dataset_node [3] [] []);
     ("p", dataset_node [3] [("long_name", AStr "L")] []);
     ("q", dataset_node [3] [("long_name", AStr "L")] []);
     ("p_errors", dataset_node [3] [] [])].

(** The view that the constructor builds over [shared_long_name_group]. *)
Definition shared_long_name_view : NXdata :=
  mkNXdata shared_long_name_group "s" None (Some [Some (AxNode "p")])
    false true false false [Some (AStr "L")].

(** Two axes and their uncertainties, read from a file. *)
Definition file_uncertainties_group : h5group :=
  from_file
    (nxdata_group [("signal", AStr "s"); ("axes", AList [Some "x"; Some "y"]);
                   ("uncertainties", AList [Some "ex"; Some "ey"])]
       [("s", dataset_node [2; 3] [] []); ("x", dataset_node [2] [] []);
        ("y", dataset_node [3] [] []); ("ex", dataset_node [2] [] []);
        ("ey", dataset_node [3] [] [])]).

(** The view that the constructor builds over [file_uncertainties_group]. *)
Definition file_uncertainties_view : NXdata :=
  mkNXdata file_uncertainties_group "s" None None false false true false
    [Some (AStr "x"); Some (AStr "y")].

(** A signal of 2 elements and an axis whose good range overflows 64
    bits, read from a file. *)
Definition overflow_group : h5group :=
  from_file
    (nxdata_group [("signal", AStr "s"); ("axes", AStr "x")]
       [("s", dataset_node [2] [] []);
        ("x", dataset_node [5] [("first_good", AInt (2 ^ 63 - 1));
                               ("last_good", AInt (- 2 ^ 63))] [])]).

(** * Properties *)

(** ** The errors accessor *)

Lemma contains_lookup (g : h5group) (k : string) :
  contains g (Some k) = true <-> exists n, lookup_child (children g) k = Some n.
Proof.
  unfold contains. destruct (lookup_child (children g) k) as [n|].
  - split; eauto.
  - split; [discriminate | intros [n Hn]; discriminate].
Qed.

(** C10: [errors] hands out the member named "errors" whatever its kind,
    and [None] only when there is no such member; a valid group can have a
    sub-group under that name, and the view over it returns the sub-group. *)
Theorem errors_returns_any_member :
  (forall v : NXdata,
      (forall n, lookup_child (children (group v)) "errors" = Some n -> errors v = Some n)
      /\ (errors v = None <-> lookup_child (children (group v)) "errors" = None))
  /\ (exists v n,
        is_valid_NXdata errors_subgroup_group = Ok true
        /\ fst (NXdata_init errors_subgroup_group) = Ok v
        /\ errors v = Some n /\ is_dataset n = false).
Proof.
  split.
  - intros v. unfold errors, contains.
    destruct (lookup_child (children (group v)) "errors") as [n|]; simpl.
    + split; [intros n' [= <-]; reflexivity | split; discriminate].
    + split; [discriminate | split; reflexivity].
  - exists errors_subgroup_view, (Grp ∅ 0). repeat split; vm_compute; reflexivity.
Qed.

Lemma errors_returns_any_member_witness :
  fst (NXdata_init errors_subgroup_group) = Ok errors_subgroup_view
  /\ errors errors_subgroup_view = Some (Grp ∅ 0).
Proof.
  split; [vm_compute; reflexivity|].
  destruct errors_returns_any_member as [H _].
  destruct (H errors_subgroup_view) as [Hsome _].
  apply Hsome. vm_compute. reflexivity.
Defined.

(** ** The count of axes against the dimensions of the signal *)

Lemma check_axis_not_more_axes g signal unc st i axis_name :
  check_axis g signal unc st i axis_name <> Ok (inr MoreAxesThanDims).
Proof.
  unfold check_axis, check_axis_errors, rbind.
  repeat case_match; congruence.
Qed.

Lemma check_axes_not_more_axes g signal unc axes_names :
  forall st i, check_axes g signal unc st i axes_names <> Ok (Some MoreAxesThanDims).
Proof.
  induction axes_names as [|axis_name rest IH]; intros st i; simpl; [congruence|].
  pose proof (check_axis_not_more_axes g signal unc st i axis_name) as Hax.
  unfold rbind. destruct (check_axis g signal unc st i axis_name) as [[st'|w]|e].
  - apply IH.
  - congruence.
  - congruence.
Qed.

Lemma check_signal_errors_warning g signal w :
  check_signal_errors g signal = Some w -> w = SignalErrorsShape.
Proof. unfold check_signal_errors. repeat case_match; congruence. Qed.

Lemma is_dot_false (x : string) : x <> "." -> is_dot (Some x) = false.
Proof. intros Hx. simpl. apply String.eqb_neq. exact Hx. Qed.

(** C9: with a 0-D signal the validator never answers "more axes than
    dimensions"; and a 0-D signal with one axis of one element (no good
    range, no uncertainties, no "errors" member) is valid. *)
Theorem scalar_signal_never_too_many_axes (g : h5group) (name : string) (signal : h5dataset) :
  attrs g !! "signal" = Some (AStr name) ->
  lookup_child (children g) name = Some (Dset signal) ->
  shape signal = [] ->
  validate g <> Ok (Invalid MoreAxesThanDims)
  /\ (forall axes_attr x axis,
        is_NXdata_class (attrs g !! "NX_class") = true ->
        attrs g !! "axes" = Some axes_attr ->
        as_names axes_attr = Ok [Some x] ->
        x <> "." ->
        lookup_child (children g) x = Some (Dset axis) ->
        prod_shape (shape axis) = 1 ->
        dattrs axis !! "first_good" = None ->
        dattrs axis !! "last_good" = None ->
        group_or_signal_attr g signal "uncertainties" = None ->
        lookup_child (children g) "errors" = None ->
        validate g = Ok Valid).
Proof.
  intros Hsig Hchild Hshape. split.
  - unfold validate. rewrite Hsig, Hchild.
    destruct (negb (is_NXdata_class (attrs g !! "NX_class"))); [congruence|].
    destruct (attrs g !! "axes") as [axes_attr|] eqn:Haxes; simpl.
    + unfold check_axes_attr, rbind. rewrite Hshape. simpl.
      destruct (as_names axes_attr) as [axes_names|e]; [|congruence].
      pose proof (check_axes_not_more_axes g signal) as Hloop.
      unfold check_interpretation.
      repeat case_match; try congruence;
        match goal with
        | H : check_axes _ _ ?u ?s ?i ?l = Ok (Some MoreAxesThanDims) |- _ =>
          exfalso; exact (Hloop u l s i H)
        | H : check_signal_errors _ _ = Some _ |- _ =>
          apply check_signal_errors_warning in H; congruence
        end.
    + destruct (check_signal_errors g signal) as [w|] eqn:Hw; [|congruence].
      apply check_signal_errors_warning in Hw. congruence.
  - intros axes_attr x axis Hclass Haxes Hnames Hx Hax Hsize Hfg Hlg Hunc Herr.
    unfold validate. rewrite Hclass, Hsig, Hchild, Haxes. simpl.
    unfold check_axes_attr. rewrite Hnames, Hshape, Hunc. simpl.
    unfold check_axis. rewrite (is_dot_false x Hx). simpl. rewrite Hax.
    rewrite Hshape. change (prod_shape []) with 1. rewrite Hsize.
    rewrite Z.eqb_refl, andb_false_r.
    assert (axis_length g axis = Ok 1) as ->.
    { unfold axis_length. destruct (shape axis) as [|n0 [|n1 rest]] eqn:Hsh; simpl.
      - reflexivity.
      - unfold get_int, numpy_int, has_key. rewrite Hfg, Hlg. simpl.
        unfold prod_shape in Hsize. simpl in Hsize.
        rewrite Hsh, !andb_false_r. simpl. f_equal. lia.
      - exact (f_equal Ok Hsize). }
    simpl. unfold check_signal_errors. rewrite Herr. reflexivity.
Qed.

Lemma scalar_signal_never_too_many_axes_witness :
  validate scalar_signal_group <> Ok (Invalid MoreAxesThanDims)
  /\ validate scalar_signal_group = Ok Valid.
Proof.
  destruct (scalar_signal_never_too_many_axes scalar_signal_group "s"
              (mkDataset [] ∅ [])) as [H1 H2];
    [reflexivity | reflexivity | reflexivity |].
  split; [exact H1|].
  apply (H2 (AStr "x") "x" (mkDataset [1] ∅ []));
    first [reflexivity | discriminate].
Defined.

(** ** The uncertainties of an axis in the validator *)

(** The errors dataset that [@uncertainties] names for an axis is compared
    with the axis, unless the axis is a polynomial one. *)
Lemma uncertainties_entry_shape_checked g unc poly i axis_name axis e errors :
  contains g (Some (String.append axis_name "_errors")) = false ->
  unc !! i = Some (Some e) ->
  lookup_child (children g) e = Some (Dset errors) ->
  name_in (Some axis_name) poly = false ->
  shape errors <> shape axis ->
  check_axis_errors g (Some unc) poly i axis_name axis
  = Ok (Some (AxisErrorsShape (Some e))).
Proof.
  intros Hc Hi He Hp Hsh. unfold check_axis_errors.
  rewrite Hc, Hi. simpl. rewrite He, Hp. simpl.
  rewrite bool_decide_eq_false_2 by exact Hsh. reflexivity.
Qed.

(** A member [<axis_name>_errors] ends the test before any comparison. *)
Lemma errors_member_not_compared g unc poly i axis_name axis :
  contains g (Some (String.append axis_name "_errors")) = true ->
  check_axis_errors g unc poly i axis_name axis = Ok None.
Proof.
  intros Hc. unfold check_axis_errors. rewrite Hc. destruct unc; reflexivity.
Qed.

(** C2, on the code: the axis [x] of shape (3,) is not polynomial and its
    errors dataset [x_errors] has shape (5,), yet the group is accepted;
    the same dataset named through [@uncertainties] is rejected. *)
Theorem axis_errors_member_shape_not_checked :
  (exists axis errors,
      lookup_child (children bad_axis_errors_group) "x" = Some (Dset axis)
      /\ lookup_child (children bad_axis_errors_group) "x_errors" = Some (Dset errors)
      /\ axis_length bad_axis_errors_group axis = Ok 3
      /\ shape errors <> shape axis)
  /\ is_valid_NXdata bad_axis_errors_group = Ok true
  /\ validate bad_uncertainties_group = Ok (Invalid (AxisErrorsShape (Some "e"))).
Proof.
  split; [|split; vm_compute; reflexivity].
  eexists _, _. repeat split; try (vm_compute; reflexivity).
  simpl. discriminate.
Qed.

(** ** Construction of a view over a valid group *)

Lemma init_rejects_invalid (g : h5group) :
  is_valid_NXdata g = Ok false -> fst (NXdata_init g) = Raise TypeError.
Proof. intros H. unfold NXdata_init. rewrite H. reflexivity. Qed.

Lemma init_needs_valid (g : h5group) (v : NXdata) :
  fst (NXdata_init g) = Ok v -> is_valid_NXdata g = Ok true.
Proof.
  unfold NXdata_init. destruct (is_valid_NXdata g) as [[|]|e]; simpl.
  - reflexivity.
  - discriminate.
  - discriminate.
Qed.

(** C1, on the code: the validator accepts the scatter whose signal carries
    [@interpretation="spectrum"] and the 3D scatter with
    [@interpretation="vertex"], and the constructor fails on the assertion
    of [axes]; it accepts the 0-D signal with one axis, and the constructor
    fails on [INTERPDIM[None]].  The kind of the store plays no part. *)
Theorem init_raises_on_valid_group :
  is_valid_NXdata spectrum_scatter_group = Ok true
  /\ fst (NXdata_init spectrum_scatter_group) = Raise AssertionError
  /\ fst (NXdata_init (from_file spectrum_scatter_group)) = Raise AssertionError
  /\ is_valid_NXdata vertex_group = Ok true
  /\ fst (NXdata_init vertex_group) = Raise AssertionError
  /\ is_valid_NXdata scalar_signal_group = Ok true
  /\ fst (NXdata_init scalar_signal_group) = Raise KeyError.
Proof. repeat split; vm_compute; reflexivity. Qed.

(** ** The good range of an axis *)

(** The entry of an axis that declares a good range is the slice
    [axis[first_good : last_good + 1]], unless [@last_good] is 0. *)
Lemma trim_axis_good_range (g : h5group) (name : string) (d : h5dataset)
    (len fg_idx lg_idx : Z) :
  lookup_child (children g) name = Some (Dset d) ->
  has_key (dattrs d) "first_good" || has_key (dattrs d) "last_good" = true ->
  node_len (Dset d) = Ok len ->
  get_int (dattrs d) "first_good" 0 = Ok fg_idx ->
  get_int (dattrs d) "last_good" (len - 1) = Ok lg_idx ->
  dattrs d !! "last_good" <> Some (AInt 0) ->
  trim_axis g (Some (AxNode name))
  = (try! r := getslice d fg_idx
                 (int_add (numpy_int g (dattrs d) "last_good") lg_idx 1) in
     Ok (Some r)).
Proof.
  intros Hd Hkey Hlen Hfg Hlg Hzero. unfold trim_axis, getitem. rewrite Hd. cbn [rbind node_attrs].
  assert (negb (has_key (dattrs d) "first_good") && negb (has_key (dattrs d) "last_good")
          = false) as ->.
  { destruct (has_key (dattrs d) "first_good"), (has_key (dattrs d) "last_good");
      simpl in *; congruence. }
  assert (get_or (dattrs d !! "first_good") (Ok 0) = Ok fg_idx) as ->.
  { unfold get_int in Hfg. destruct (dattrs d !! "first_good") as [[s|z|l]|]; simpl in *;
      try discriminate; [|exact Hfg].
    injection Hfg as ->. destruct (Z.eqb_spec fg_idx 0); congruence. }
  assert (get_or (dattrs d !! "last_good") (try! n := node_len (Dset d) in Ok (n - 1))
          = Ok lg_idx) as ->.
  { unfold get_int in Hlg. destruct (dattrs d !! "last_good") as [[s|z|l]|]; simpl in *;
      try discriminate.
    - injection Hlg as ->. destruct (Z.eqb_spec lg_idx 0); congruence.
    - rewrite Hlen in *. exact Hlg. }
  assert (truthy_int (dattrs d !! "last_good") = has_key (dattrs d) "last_good") as ->.
  { unfold truthy_int, has_key, get_int in *.
    destruct (dattrs d !! "last_good") as [[s|z|l]|]; try discriminate; [|reflexivity].
    destruct (Z.eqb_spec z 0); [congruence | reflexivity]. }
  reflexivity.
Qed.

(** C3, on the code: with [@first_good=2] and [@last_good=5] the axis of
    length 8 resolves to the 4 elements of [axis[2:6]]; with [@last_good=0]
    alone the view is valid and resolves the axis to all its 8 elements,
    not to [axis[0:1]]. *)
Theorem last_good_zero_keeps_whole_axis :
  (exists v axis,
      fst (NXdata_init good_range_group) = Ok v
      /\ lookup_child (children good_range_group) "x" = Some (Dset axis)
      /\ fst (axes v) = Ok [Some (AxArray [4] [12; 13; 14; 15])]
      /\ getslice axis 2 (5 + 1) = Ok (AxArray [4] [12; 13; 14; 15]))
  /\ (exists v axis,
      fst (NXdata_init last_good_zero_group) = Ok v
      /\ lookup_child (children last_good_zero_group) "x" = Some (Dset axis)
      /\ dattrs axis !! "first_good" = None
      /\ dattrs axis !! "last_good" = Some (AInt 0)
      /\ fst (axes v) = Ok [Some (AxArray [8] [10; 11; 12; 13; 14; 15; 16; 17])]
      /\ getslice axis 0 (0 + 1) = Ok (AxArray [1] [10])).
Proof.
  split; eexists _, _; repeat split; vm_compute; reflexivity.
Qed.

(** ** Writes into the store *)

(** C8, on the code: the in-memory group is valid, the view is built, and
    the call leaves [None] in the store's [@axes] list where ["."] was;
    [axes] on that view then looks up [None].  The same group read from a
    file is left as it was. *)
Theorem init_overwrites_axes_attribute :
  attrs dot_axes_group !! "axes" = Some (AList [Some "."; Some "x"])
  /\ is_valid_NXdata dot_axes_group = Ok true
  /\ (exists v,
        fst (NXdata_init dot_axes_group) = Ok v
        /\ attrs (snd (NXdata_init dot_axes_group)) !! "axes" = Some (AList [None; Some "x"])
        /\ attrs (group v) !! "axes" = Some (AList [None; Some "x"])
        /\ fst (axes v) = Raise KeyError)
  /\ snd (NXdata_init (from_file dot_axes_group)) = from_file dot_axes_group.
Proof.
  split; [vm_compute; reflexivity|]. split; [vm_compute; reflexivity|].
  split; [|vm_compute; reflexivity].
  eexists. repeat split; vm_compute; reflexivity.
Qed.

(** ** The two lists of axes *)

(** C4, on the code: over a valid group whose [@axes] is on the signal
    only, [axes] has [None] where [axes_dataset_names] has the name ["x"];
    over a valid group with a 1-D signal, [@interpretation="scalar"] and
    an empty [@axes], [axes] has one entry and [axes_dataset_names] has
    none. *)
Theorem axes_and_names_differ :
  (is_valid_NXdata signal_axes_group = Ok true
   /\ exists v,
       fst (NXdata_init signal_axes_group) = Ok v
       /\ fst (axes v) = Ok [None]
       /\ fst (axes_dataset_names v) = Ok [Some "x"])
  /\ (is_valid_NXdata empty_axes_group = Ok true
      /\ exists v,
          fst (NXdata_init empty_axes_group) = Ok v
          /\ fst (axes v) = Ok [None]
          /\ fst (axes_dataset_names v) = Ok []).
Proof.
  split; (split; [vm_compute; reflexivity|]); eexists; repeat split; vm_compute; reflexivity.
Qed.

(** ** Errors of an axis *)


(** ** The order of the axes in the validator *)

Section AxesLoop.
Variables (g : h5group) (signal : h5dataset).
Variable unc : option (list (option string)).





End AxesLoop.





(** ** The cached properties of a view *)

Lemma interpretation_run (v : NXdata) :
  interpretation v = (interpretation_value v, v).
Proof.
  unfold interpretation, interpretation_value, bind, get, lift, raise, ret, rbind.
  destruct (signal v) as [sig|e]; [|reflexivity].
  destruct (negb (allowed_interpretation (signal_or_group_attr (group v) sig "interpretation")));
    reflexivity.
Qed.

(** [axes] returns the cached list, or computes it and caches it. *)
Lemma axes_run (v : NXdata) :
  axes v =
  match _axes v with
  | Some a => (Ok a, v)
  | None =>
    match axes_value v with
    | Ok a => (Ok a, set_axes a v)
    | Raise e => (Raise e, v)
    end
  end.
Proof.
  unfold axes, bind, get. destruct (_axes v) as [a|]; [reflexivity|].
  unfold axes_value, lift, rbind.
  destruct (signal v) as [sig|e]; [|reflexivity].
  rewrite interpretation_run.
  destruct (interpretation_value v) as [interp|e]; [|reflexivity].
  destruct (attrs (group v) !! "axes") as [axes_attr|]; [|reflexivity].
  unfold modify, ret.
  destruct (compute_axes (group v) (length (shape sig)) axes_attr interp); reflexivity.
Qed.

Lemma scatter_step_run (sigsize : Z) (a : option axis_t) (v : NXdata) :
  scatter_step sigsize a v =
  match a with
  | None => (Ok tt, v)
  | Some x =>
    match axis_shape (group v) x with
    | Ok sh =>
      match _is_scatter v with
      | Some b => (Ok tt, set_is_scatter (b && Z.eqb (prod_shape sh) sigsize) v)
      | None => (Ok tt, v)
      end
    | Raise e => (Raise e, v)
    end
  end.
Proof.
  destruct a as [x|]; [|reflexivity].
  unfold scatter_step, bind, get, lift, modify, ret.
  destruct (axis_shape (group v) x); [|reflexivity].
  destruct (_is_scatter v); reflexivity.
Qed.

(** The loop of [is_scatter] conjoins the size tests of the entries. *)
Lemma scatter_loop_run (sigsize : Z) (l : list (option axis_t)) :
  forall (v : NXdata) (b0 : bool),
    _is_scatter v = Some b0 ->
    exists r v',
      for_each l (scatter_step sigsize) v = (r, v')
      /\ group v' = group v /\ signal_name v' = signal_name v
      /\ _axes v' = _axes v /\ signal_is_1D v' = signal_is_1D v
      /\ axes_names v' = axes_names v
      /\ (exists b, _is_scatter v' = Some b)
      /\ (r = Ok tt ->
          _is_scatter v' = Some (b0 && forallb (same_size (group v) sigsize) l)
          /\ Forall (has_shape (group v)) l)
      /\ (Forall (has_shape (group v)) l -> r = Ok tt).
Proof.
  induction l as [|a l IH]; intros v b0 Hb0.
  - exists (Ok tt), v. simpl. rewrite andb_true_r. unfold ret.
    split_and!; eauto.
  - simpl. unfold bind at 1. rewrite scatter_step_run. destruct a as [x|].
    + destruct (axis_shape (group v) x) as [sh|e] eqn:Hsh.
      * rewrite Hb0.
        destruct (IH (set_is_scatter (b0 && (prod_shape sh =? sigsize)) v)
                    (b0 && (prod_shape sh =? sigsize))%bool eq_refl)
          as (r & v' & Hrun & Hg & Hn & Ha & H1 & Hns & Hb & Hok & Htot).
        exists r, v'. rewrite Hrun. simpl in *. rewrite Hsh.
        split_and!; try done.
        -- intros Hr. destruct (Hok Hr) as [Hs Hf]. rewrite Hs, andb_assoc.
           split; [reflexivity|]. constructor; [simpl; eauto | exact Hf].
        -- intros HF. inversion HF; subst. apply Htot. assumption.
      * exists (Raise e), v. split_and!; eauto.
        -- discriminate.
        -- intros HF. inversion HF as [|? ? Hx ?]; subst.
           destruct Hx as [sh Hx]. congruence.
    + destruct (IH v b0 Hb0) as (r & v' & Hrun & Hg & Hn & Ha & H1 & Hns & Hb & Hok & Htot).
      exists r, v'. rewrite Hrun. split_and!; try done.
      * intros Hr. destruct (Hok Hr) as [Hs Hf]. split; [exact Hs|].
        constructor; [exact I | exact Hf].
      * intros HF. inversion HF; subst. apply Htot. assumption.
Qed.

(** The loop leaves the three flags of the dimension as they are. *)
Lemma scatter_loop_dims (sigsize : Z) (l : list (option axis_t)) :
  forall v : NXdata, dims (snd (for_each l (scatter_step sigsize) v)) = dims v.
Proof.
  induction l as [|a l IH]; intros v; [reflexivity|].
  simpl. unfold bind at 1. rewrite scatter_step_run. destruct a as [x|]; [|apply IH].
  destruct (axis_shape (group v) x) as [sh|e]; [|reflexivity].
  destruct (_is_scatter v) as [b|]; rewrite IH; reflexivity.
Qed.

Lemma same_but_caches_refl (v : NXdata) : same_but_caches v v.
Proof. unfold same_but_caches. done. Qed.

Lemma same_but_caches_trans (v1 v2 v3 : NXdata) :
  same_but_caches v1 v2 -> same_but_caches v2 v3 -> same_but_caches v1 v3.
Proof.
  unfold same_but_caches. intros (?&?&?&?&?&?&?) (?&?&?&?&?&?&?). split_and!; congruence.
Qed.

(** [axes] changes nothing but its cache. *)
Lemma axes_outcome_run (v : NXdata) :
  exists v',
    axes v = (axes_outcome v, v')
    /\ same_but_caches v v' /\ _is_scatter v' = _is_scatter v
    /\ _axes v' = match axes_outcome v with Ok a => Some a | Raise _ => _axes v end.
Proof.
  rewrite axes_run. unfold axes_outcome.
  destruct (_axes v) as [a|] eqn:Ha.
  - exists v. split_and!; done.
  - destruct (axes_value v) as [a|e].
    + exists (set_axes a v). split_and!; done.
    + exists v. split_and!; done.
Qed.

Lemma is_scatter_cached (v : NXdata) (b : bool) :
  _is_scatter v = Some b -> is_scatter v = (Ok b, v).
Proof. intros H. unfold is_scatter, bind, get. rewrite H. reflexivity. Qed.

Lemma is_scatter_not_1D (v : NXdata) :
  _is_scatter v = None -> signal_is_1D v = false ->
  is_scatter v = (Ok false, set_is_scatter false v).
Proof. intros H H1. unfold is_scatter, bind, get. rewrite H, H1. reflexivity. Qed.

(** With a 1-D signal and no cached answer, [is_scatter] takes the axes
    and tests the size of each. *)
Lemma is_scatter_1D (v : NXdata) (sig : h5dataset) :
  _is_scatter v = None -> signal_is_1D v = true -> signal v = Ok sig ->
  exists r v',
    is_scatter v = (r, v') /\ same_but_caches v v'
    /\ match axes_outcome v with
       | Raise e => r = Raise e /\ _axes v' = _axes v
       | Ok ax =>
         _axes v' = Some ax
         /\ (forall b, r = Ok b ->
               b = forallb (same_size (group v) (prod_shape (shape sig))) ax
               /\ _is_scatter v' = Some b
               /\ Forall (has_shape (group v)) ax)
         /\ (Forall (has_shape (group v)) ax -> exists b, r = Ok b)
       end.
Proof.
  intros Hnone H1 Hsig. unfold is_scatter, bind at 1, get. rewrite Hnone, H1. simpl.
  unfold bind at 1, modify. unfold bind at 1, lift.
  change (signal (set_is_scatter true v)) with (signal v). rewrite Hsig.
  unfold bind at 1.
  destruct (axes_outcome_run (set_is_scatter true v)) as (va & Hrun & Hsame & Hsc & Hax).
  rewrite Hrun.
  change (axes_outcome (set_is_scatter true v)) with (axes_outcome v) in *.
  simpl in Hsc, Hax. destruct Hsame as (Hg & Hn & Hd & Hns & H0 & H2 & H3).
  simpl in Hg, Hn, Hd, Hns, H0, H2, H3.
  destruct (axes_outcome v) as [ax|e].
  - destruct (scatter_loop_run (prod_shape (shape sig)) ax va true Hsc)
      as (r & v' & Hloop & Hg' & Hn' & Ha' & Hd' & Hns' & [b Hb] & Hok & Htot).
    pose proof (scatter_loop_dims (prod_shape (shape sig)) ax va) as Hdims.
    rewrite Hloop in Hdims. cbn [snd] in Hdims. unfold dims in Hdims.
    injection Hdims as Hd0 Hd2 Hd3.
    unfold bind at 1. rewrite Hloop. rewrite Hg in Hok, Htot.
    destruct r as [[]|e].
    + unfold bind, get. rewrite Hb. unfold ret.
      exists (Ok b), v'. split; [reflexivity|].
      split; [unfold same_but_caches; split_and!; congruence|].
      split; [congruence|]. split.
      * intros b' [= <-]. destruct (Hok eq_refl) as [Hs Hf].
        rewrite Hb in Hs. injection Hs as ->. done.
      * eauto.
    + exists (Raise e), v'. split; [reflexivity|].
      split; [unfold same_but_caches; split_and!; congruence|].
      split; [congruence|]. split.
      * discriminate.
      * intros HF. specialize (Htot HF). discriminate.
  - exists (Raise e), va. split; [reflexivity|].
    split; [unfold same_but_caches; split_and!; congruence|]. done.
Qed.

Lemma is_scatter_frame (v : NXdata) :
  exists r v', is_scatter v = (r, v') /\ same_but_caches v v'.
Proof.
  destruct (_is_scatter v) as [b|] eqn:Hsc.
  - exists (Ok b), v. split; [apply is_scatter_cached; exact Hsc | apply same_but_caches_refl].
  - destruct (signal_is_1D v) eqn:H1.
    + destruct (signal v) as [sig|e] eqn:Hsig.
      * destruct (is_scatter_1D v sig Hsc H1 Hsig) as (r & v' & Hrun & Hsame & _). eauto.
      * exists (Raise e), (set_is_scatter true v). split; [|done].
        unfold is_scatter, bind at 1, get. rewrite Hsc, H1. simpl.
        unfold bind at 1, modify. unfold bind at 1, lift.
        change (signal (set_is_scatter true v)) with (signal v). rewrite Hsig. reflexivity.
    + exists (Ok false), (set_is_scatter false v).
      split; [apply is_scatter_not_1D; assumption | done].
Qed.

Lemma pad_names_same (ndims : nat) (names : list (option string)) (v : NXdata) :
  length names = ndims -> pad_names ndims names v = (Ok names, v).
Proof.
  intros H. unfold pad_names. rewrite (proj2 (Nat.eqb_eq _ _) H). reflexivity.
Qed.

Lemma pad_names_other (ndims : nat) (names : list (option string)) (v : NXdata) :
  length names <> ndims ->
  pad_names ndims names v =
  match is_scatter v with
  | (Raise e, v1) => (Raise e, v1)
  | (Ok sc, v1) =>
    if sc && Nat.eqb ndims 1 then (Ok names, v1)
    else
      match interpretation_value v1 with
      | Raise e => (Raise e, v1)
      | Ok interp =>
        match interpdim_of interp with
        | Raise e => (Raise e, v1)
        | Ok n =>
          if negb (Nat.eqb (length names) n) then (Raise AssertionError, v1)
          else (Ok (replicate (ndims - n) None ++ names), v1)
        end
      end
  end.
Proof.
  intros H. unfold pad_names. rewrite (proj2 (Nat.eqb_neq _ _) H). simpl.
  unfold bind at 1. destruct (is_scatter v) as [[sc|e] v1]; [|reflexivity].
  destruct (sc && Nat.eqb ndims 1); [reflexivity|].
  unfold bind at 1. rewrite interpretation_run.
  destruct (interpretation_value v1) as [interp|e]; [|reflexivity].
  unfold bind, lift. destruct (interpdim_of interp) as [n|e]; [|reflexivity].
  destruct (negb (Nat.eqb (length names) n)); reflexivity.
Qed.

(** The loop that fills [axes_names] changes nothing else. *)
Lemma append_names_run (l : list (option string)) :
  forall v : NXdata,
    exists r v',
      for_each l append_name v = (r, v')
      /\ group v' = group v /\ signal_name v' = signal_name v
      /\ _is_scatter v' = _is_scatter v /\ _axes v' = _axes v
      /\ signal_is_1D v' = signal_is_1D v.
Proof.
  induction l as [|dsname l IH]; intros v.
  - exists (Ok tt), v. done.
  - simpl. unfold bind at 1.
    assert (exists r v1, append_name dsname v = (r, v1)
              /\ group v1 = group v /\ signal_name v1 = signal_name v
              /\ _is_scatter v1 = _is_scatter v /\ _axes v1 = _axes v
              /\ signal_is_1D v1 = signal_is_1D v) as (r1 & v1 & Hrun & Hg & Hn & Hs & Ha & H1).
    { unfold append_name. destruct dsname as [name|].
      - unfold bind, get, lift, modify.
        destruct (getitem (group v) (Some name)) as [n|e].
        + destruct (node_attrs n !! "long_name"); eexists _, _; (split; [reflexivity|done]).
        + eexists _, _. split; [reflexivity|done].
      - unfold modify. eexists _, _. split; [reflexivity|done]. }
    rewrite Hrun. destruct r1 as [[]|e].
    + destruct (IH v1) as (r & v' & Hrun' & Hg' & Hn' & Hs' & Ha' & H1').
      exists r, v'. split; [exact Hrun'|]. split_and!; congruence.
    + exists (Raise e), v1. done.
Qed.

(** ** What the validator guarantees about the names of the axes *)

Lemma check_axis_names_dataset g signal unc st i axis_name st' :
  check_axis g signal unc st i axis_name = Ok (inl st') ->
  names_dataset g axis_name.
Proof.
  unfold check_axis, names_dataset. destruct (is_dot axis_name) eqn:Hdot; [left; reflexivity|].
  intros H. right. destruct axis_name as [s|]; simpl in H.
  - destruct (lookup_child (children g) s) as [[d|a m]|] eqn:Hl; try discriminate.
    eauto.
  - discriminate.
Qed.

Lemma check_axes_names_dataset g signal unc axes_names :
  forall st i,
    check_axes g signal unc st i axes_names = Ok None ->
    Forall (names_dataset g) axes_names.
Proof.
  induction axes_names as [|n rest IH]; intros st i H; [constructor|].
  simpl in H. unfold rbind in H.
  destruct (check_axis g signal unc st i n) as [[st'|w]|e] eqn:Hstep; try discriminate.
  constructor.
  - exact (check_axis_names_dataset g signal unc st i n st' Hstep).
  - exact (IH st' (S i) H).
Qed.

Lemma validate_names_dataset (g : h5group) (axes_attr : attr)
    (axes_names : list (option string)) :
  validate g = Ok Valid ->
  attrs g !! "axes" = Some axes_attr ->
  as_names axes_attr = Ok axes_names ->
  Forall (names_dataset g) axes_names.
Proof.
  unfold validate. intros H Haxes Hnames. rewrite Haxes in H.
  unfold check_axes_attr in H. rewrite Hnames in H. unfold rbind in H.
  repeat case_match; simplify_eq;
    match goal with
    | H : check_axes _ _ _ _ _ _ = Ok None |- _ =>
      exact (check_axes_names_dataset _ _ _ _ _ _ H)
    end.
Qed.

Lemma validate_signal (g : h5group) :
  validate g = Ok Valid ->
  exists name sig,
    attrs g !! "signal" = Some (AStr name)
    /\ lookup_child (children g) name = Some (Dset sig).
Proof.
  unfold validate. intros H. repeat case_match; simplify_eq; eauto.
Qed.

(** ** The list that axes computes *)

Lemma map_result_Forall2 {A B} (f : A -> result B) (l : list A) :
  forall l', map_result f l = Ok l' -> Forall2 (fun x y => f x = Ok y) l l'.
Proof.
  induction l as [|x l IH]; intros l' H; simpl in H.
  - injection H as <-. constructor.
  - unfold rbind in H. destruct (f x) as [y|e] eqn:Hx; [|discriminate].
    destruct (map_result f l) as [ys|e]; [|discriminate].
    injection H as <-. constructor; [exact Hx | apply IH; reflexivity].
Qed.

Lemma map_result_app {A B} (f : A -> result B) (l1 l2 : list A) (l' : list B) :
  map_result f (l1 ++ l2) = Ok l' ->
  exists l1' l2', map_result f l1 = Ok l1' /\ map_result f l2 = Ok l2' /\ l' = l1' ++ l2'.
Proof.
  revert l'. induction l1 as [|x l1 IH]; intros l' H; simpl in *.
  - exists [], l'. done.
  - unfold rbind in *. destruct (f x) as [y|e]; [|discriminate].
    destruct (map_result f (l1 ++ l2)) as [ys|e] eqn:Hys; [|discriminate].
    injection H as <-. destruct (IH ys eq_refl) as (l1' & l2' & H1 & H2 & ->).
    exists (y :: l1'), l2'. rewrite H1. done.
Qed.

Lemma trim_axis_replicate_None (g : h5group) (n : nat) :
  map_result (trim_axis g) (replicate n None) = Ok (replicate n None).
Proof. induction n as [|n IH]; simpl; [reflexivity|]. rewrite IH. reflexivity. Qed.

(** A name resolves to [None] when it is the placeholder, to the member
    it names otherwise; [None] as a name does not resolve. *)
Lemma resolve_axis_Ok (g : h5group) (n : option string) (y : option axis_t) :
  resolve_axis g n = Ok y ->
  exists s, n = Some s
    /\ ((is_dot n = true /\ y = None)
        \/ (is_dot n = false /\ y = Some (AxNode s)
            /\ exists node, lookup_child (children g) s = Some node)).
Proof.
  unfold resolve_axis. destruct (is_dot n) eqn:Hdot.
  - intros [= <-]. destruct n as [s|]; [|discriminate]. exists s. split; [done|]. left. done.
  - unfold rbind. destruct (getitem g n) as [node|e] eqn:Hg; [|discriminate].
    destruct n as [s|]; [|discriminate]. intros [= <-]. exists s. split; [done|]. right.
    split; [done|]. split; [done|]. simpl in Hg.
    destruct (lookup_child (children g) s) as [node'|]; [eauto|discriminate].
Qed.

(** Trimming keeps [None], and turns a member into itself or an array. *)
Lemma trim_axis_Ok (g : h5group) (y z : option axis_t) :
  trim_axis g y = Ok z ->
  (z = None <-> y = None)
  /\ (forall x, z = Some x -> y = Some x \/ exists sh data, x = AxArray sh data).
Proof.
  unfold trim_axis. destruct y as [[name|sh data]|].
  - unfold rbind. destruct (getitem g (Some name)) as [axis|e]; [|discriminate].
    destruct (negb (has_key (node_attrs axis) "first_good")
              && negb (has_key (node_attrs axis) "last_good")).
    + intros [= <-]. split; [done|]. intros x [= <-]. left. reflexivity.
    + destruct (get_or (node_attrs axis !! "first_good") (Ok 0)) as [fg|e]; [|discriminate].
      destruct (get_or (node_attrs axis !! "last_good") _) as [lg|e]; [|discriminate].
      destruct (node_getslice axis fg _) as [r|e] eqn:Hr; [|discriminate].
      intros [= <-]. split; [split; discriminate|]. intros x [= <-]. right.
      unfold node_getslice, getslice in Hr. destruct axis as [d|a m]; [|discriminate].
      destruct (shape d); [discriminate|]. injection Hr as <-. eauto.
  - intros [= <-]. split; [done|]. intros x [= <-]. left. reflexivity.
  - intros [= <-]. done.
Qed.

Lemma entries_of_names (g : h5group) (names : list (option string)) :
  forall l0 l1,
    map_result (resolve_axis g) names = Ok l0 ->
    map_result (trim_axis g) l0 = Ok l1 ->
    Forall2 (entry_of g) names l1.
Proof.
  intros l0 l1 H0 H1.
  apply map_result_Forall2 in H0. apply map_result_Forall2 in H1.
  revert l1 H1. induction H0 as [|n y names l0 Hn H0 IH]; intros l1 H1.
  - inversion H1. constructor.
  - inversion H1 as [|? z ? l1' Hz H1']; subst. constructor; [|apply IH; exact H1'].
    destruct (resolve_axis_Ok g n y Hn) as (s & -> & Hcase).
    destruct (trim_axis_Ok g y z Hz) as [Hnone Hsome].
    exists s. split; [reflexivity|]. destruct Hcase as [[Hdot ->]|(Hdot & -> & node & Hnode)].
    + left. split; [exact Hdot|]. apply Hnone. reflexivity.
    + right. split; [exact Hdot|]. destruct z as [x|].
      * exists x, node. split; [reflexivity|]. split; [exact Hnode|].
        destruct (Hsome x eq_refl) as [[= <-]|Harr]; [left; reflexivity | right; exact Harr].
      * exfalso. destruct Hnone as [Hnone _]. specialize (Hnone eq_refl). discriminate.
Qed.

(** The shape of the list that [axes] computes. *)
Lemma compute_axes_Ok (g : h5group) (ndims : nat) (axes_attr : attr)
    (interp : option attr) (names : list (option string)) (ax : list (option axis_t)) :
  as_names axes_attr = Ok names ->
  compute_axes g ndims axes_attr interp = Ok ax ->
  exists pad l1,
    ax = replicate pad None ++ l1
    /\ Forall2 (entry_of g) names l1
    /\ (if Nat.eqb (length names) ndims then pad = 0%nat
        else match interp with
             | None => pad = 0%nat
             | Some _ =>
               exists n, interpdim_of interp = Ok n /\ length names = n
                         /\ pad = (ndims - n)%nat
             end).
Proof.
  intros Hnames. unfold compute_axes. rewrite Hnames. unfold rbind at 1 2.
  destruct (Nat.eqb (length names) ndims) eqn:Hlen.
  - destruct (map_result (resolve_axis g) names) as [l0|e] eqn:H0; [|discriminate].
    intros H1. exists 0%nat, ax. split; [reflexivity|].
    split; [exact (entries_of_names g names l0 ax H0 H1) | reflexivity].
  - destruct interp as [i|].
    + unfold rbind at 1. destruct (interpdim_of (Some i)) as [n|e] eqn:Hn; [|discriminate].
      destruct (negb (Nat.eqb (length names) n)) eqn:Hassert; [discriminate|].
      unfold rbind at 1.
      destruct (map_result (resolve_axis g) names) as [l0|e] eqn:H0; [|discriminate].
      intros H1. apply map_result_app in H1. destruct H1 as (p' & l1 & Hp & H1 & ->).
      rewrite trim_axis_replicate_None in Hp. injection Hp as <-.
      exists (ndims - n)%nat, l1. split; [reflexivity|].
      split; [exact (entries_of_names g names l0 l1 H0 H1)|].
      exists n. split; [reflexivity|]. split; [|reflexivity].
      apply negb_false_iff, Nat.eqb_eq in Hassert. exact Hassert.
    + destruct (map_result (resolve_axis g) names) as [l0|e] eqn:H0; [|discriminate].
      intros H1. exists 0%nat, ax. split; [reflexivity|].
      split; [exact (entries_of_names g names l0 ax H0 H1) | reflexivity].
Qed.

Lemma entry_has_shape (g : h5group) (n : option string) (z : option axis_t) :
  (n <> None -> names_dataset g n) -> entry_of g n z -> has_shape g z.
Proof.
  intros Hds (s & -> & Hcase). destruct Hcase as [[_ ->]|(Hdot & x & node & -> & Hnode & Hx)].
  - exact I.
  - destruct Hx as [->|(sh & data & ->)]; simpl.
    + destruct Hds as [Hd|(s' & d & [= <-] & Hd)]; [discriminate | congruence |].
      rewrite Hd. simpl. eauto.
    + eauto.
Qed.

Lemma entries_have_shape (g : h5group) (names : list (option string))
    (l : list (option axis_t)) :
  Forall (fun n => n <> None -> names_dataset g n) names ->
  Forall2 (entry_of g) names l ->
  Forall (has_shape g) l.
Proof.
  intros Hds H. induction H as [|n z names l Hz H IH]; [constructor|].
  inversion Hds; subst. constructor; [eapply entry_has_shape; eassumption | apply IH; assumption].
Qed.

Lemma replicate_None_has_shape (g : h5group) (n : nat) :
  Forall (has_shape g) (replicate n None).
Proof. induction n; simpl; constructor; [exact I | assumption]. Qed.

(** ** The state that the constructor leaves *)

Lemma axes_value_ext (v v' : NXdata) :
  group v' = group v -> signal_name v' = signal_name v -> axes_value v' = axes_value v.
Proof.
  intros Hg Hn. unfold axes_value, interpretation_value, signal. rewrite Hg, Hn. reflexivity.
Qed.

Lemma signal_ext (v v' : NXdata) :
  group v' = group v -> signal_name v' = signal_name v -> signal v' = signal v.
Proof. intros Hg Hn. unfold signal. rewrite Hg, Hn. reflexivity. Qed.

(** The end of the constructor when the axes are cached already. *)
Lemma init_rest_cached (nm : list (option string)) (v1 v : NXdata)
    (ax : list (option axis_t)) :
  _axes v1 = Some ax ->
  init_rest nm v1 = (Ok tt, v) ->
  group v = group v1 /\ signal_name v = signal_name v1
  /\ _axes v = Some ax /\ _is_scatter v = _is_scatter v1.
Proof.
  intros Hax. unfold init_rest, bind at 1.
  destruct (append_names_run nm v1) as (r & v2 & Hrun & Hg & Hn & Hs & Ha & H1).
  rewrite Hrun. destruct r as [[]|e]; [|discriminate].
  unfold bind at 1, get. destruct (signal_is_1D v2).
  - unfold bind. rewrite axes_run. rewrite Ha, Hax. unfold modify.
    intros [= <-]. simpl. split_and!; congruence.
  - unfold modify. intros [= <-]. simpl. split_and!; congruence.
Qed.

(** The end of the constructor when they are not. *)
Lemma init_rest_uncached (nm : list (option string)) (v1 v : NXdata) :
  _axes v1 = None ->
  init_rest nm v1 = (Ok tt, v) ->
  group v = group v1 /\ signal_name v = signal_name v1
  /\ _is_scatter v = _is_scatter v1
  /\ (if signal_is_1D v1
      then exists ax, axes_value v1 = Ok ax /\ _axes v = Some ax
                      /\ signal_is_1D v = Nat.leb (length ax) 1
      else _axes v = None /\ signal_is_1D v = false).
Proof.
  intros Hax. unfold init_rest, bind at 1.
  destruct (append_names_run nm v1) as (r & v2 & Hrun & Hg & Hn & Hs & Ha & H1).
  rewrite Hrun. destruct r as [[]|e]; [|discriminate].
  unfold bind at 1, get. rewrite H1. destruct (signal_is_1D v1).
  - unfold bind. rewrite axes_run. rewrite Ha, Hax.
    rewrite (axes_value_ext v1 v2 Hg Hn).
    destruct (axes_value v1) as [ax|e]; [|discriminate].
    unfold modify. intros [= <-]. simpl. split_and!; try congruence. eauto.
  - unfold modify. intros [= <-]. simpl. split_and!; congruence.
Qed.

(** From the padding of the names to the end of the constructor. *)
Lemma init_tail (v0 : NXdata) (sig : h5dataset) (names : list (option string))
    (v : NXdata) :
  signal v0 = Ok sig ->
  _is_scatter v0 = None -> _axes v0 = None ->
  signal_is_1D v0 = Nat.eqb (length (shape sig)) 1 ->
  (forall ax, axes_value v0 = Ok ax ->
     Forall (has_shape (group v0)) ax
     /\ (length names = 1%nat -> length (shape sig) = 1%nat -> length ax = 1%nat)) ->
  bind (pad_names (length (shape sig)) names) init_rest v0 = (Ok tt, v) ->
  group v = group v0 /\ signal_name v = signal_name v0 /\ caches_coherent v sig.
Proof.
  intros Hsig Hsc Hax H1 Hval. unfold bind at 1.
  destruct (decide (length names = length (shape sig))) as [Hlen|Hlen].
  - rewrite (pad_names_same _ _ v0 Hlen). intros Hrest.
    destruct (init_rest_uncached names v0 v Hax Hrest) as (Hg & Hn & Hs & Hcase).
    split; [exact Hg|]. split; [exact Hn|]. rewrite H1 in Hcase.
    destruct (Nat.eqb (length (shape sig)) 1) eqn:Hnd.
    + apply Nat.eqb_eq in Hnd. destruct Hcase as (ax & Hv & Ha & Hd).
      destruct (Hval ax Hv) as [Hshape Hone].
      split_and!.
      * intros ax' Hax'. rewrite (axes_value_ext v0 v Hg Hn). congruence.
      * intros Hne. congruence.
      * intros _. exists ax. split; [exact Ha|]. split; [rewrite Hg; exact Hshape|].
        right. split; [congruence|]. rewrite Hd, Hone; [reflexivity | congruence | exact Hnd].
    + apply Nat.eqb_neq in Hnd. destruct Hcase as [Ha Hd]. split_and!.
      * intros ax' Hax'. congruence.
      * intros _. split; [exact Hd|]. left. congruence.
      * intros Heq. congruence.
  - rewrite (pad_names_other _ _ v0 Hlen).
    destruct (Nat.eqb (length (shape sig)) 1) eqn:Hnd.
    + apply Nat.eqb_eq in Hnd.
      destruct (is_scatter_1D v0 sig Hsc H1 Hsig) as (r & v1 & Hrun & Hsame & Hmatch).
      rewrite Hrun. destruct Hsame as (Hg1 & Hn1 & Hd1 & _).
      unfold axes_outcome in Hmatch. rewrite Hax in Hmatch.
      destruct r as [sc|e]; [|discriminate].
      destruct (axes_value v0) as [ax|e] eqn:Hv; [|destruct Hmatch; discriminate].
      destruct Hmatch as (Ha1 & Hok & _). destruct (Hok sc eq_refl) as (-> & Hs1 & Hshape).
      assert (forall nm, init_rest nm v1 = (Ok tt, v) ->
                group v = group v0 /\ signal_name v = signal_name v0 /\ caches_coherent v sig)
        as Hfinish.
      { intros nm Hrest.
        destruct (init_rest_cached nm v1 v ax Ha1 Hrest) as (Hg & Hn & Ha & Hs).
        assert (group v = group v0) as Hg0 by congruence.
        assert (signal_name v = signal_name v0) as Hn0 by congruence.
        split; [exact Hg0|]. split; [exact Hn0|]. split_and!.
        - intros ax' Hax'. rewrite (axes_value_ext v0 v Hg0 Hn0). congruence.
        - intros Hne. congruence.
        - intros _. exists ax. split; [exact Ha|]. rewrite Hg0. split; [exact Hshape|].
          left. congruence. }
      repeat case_match; simplify_eq; first [apply Hfinish | intros; discriminate].
    + apply Nat.eqb_neq in Hnd.
      rewrite (is_scatter_not_1D v0 Hsc H1).
      assert (forall nm, init_rest nm (set_is_scatter false v0) = (Ok tt, v) ->
                group v = group v0 /\ signal_name v = signal_name v0 /\ caches_coherent v sig)
        as Hfinish.
      { intros nm Hrest.
        destruct (init_rest_uncached nm (set_is_scatter false v0) v Hax Hrest)
          as (Hg & Hn & Hs & Hcase).
        simpl in Hg, Hn, Hs, Hcase. rewrite H1 in Hcase. destruct Hcase as [Ha Hd].
        split; [exact Hg|]. split; [exact Hn|]. split_and!.
        - intros ax' Hax'. congruence.
        - intros _. split; [exact Hd|]. right. exact Hs.
        - intros Heq. congruence. }
      repeat case_match; simplify_eq; first [apply Hfinish | intros; discriminate].
Qed.

(** ** The names of the axes and the store *)

Lemma axes_dataset_names_run (v : NXdata) (sig : h5dataset) :
  signal v = Ok sig ->
  axes_dataset_names v =
  match axes_attr_source (group v) sig with
  | None => (Ok (replicate (length (shape sig)) None), v)
  | Some (a, o) =>
    match as_names a with
    | Raise e => (Raise e, v)
    | Ok names => pad_names (length (shape sig)) (map dot_to_None names) (after_write o a v)
    end
  end.
Proof.
  intros Hsig. unfold axes_dataset_names, bind at 1, get. unfold bind at 1, lift.
  rewrite Hsig. destruct (axes_attr_source (group v) sig) as [[a o]|]; [|reflexivity].
  unfold bind at 1. destruct a as [s|z|l]; simpl; try reflexivity.
  destruct (by_reference (group v)); destruct o; reflexivity.
Qed.

Lemma lookup_update_child (cs : list (string * node)) (k : string) (f : node -> node) :
  forall k', lookup_child (update_child cs k f) k'
             = if String.eqb k k' then f <$> lookup_child cs k' else lookup_child cs k'.
Proof.
  induction cs as [|[k0 n] cs IH]; intros k'; simpl.
  - destruct (String.eqb k k'); reflexivity.
  - destruct (String.eqb k0 k) eqn:Hk0; simpl.
    + apply String.eqb_eq in Hk0. subst k0.
      destruct (String.eqb k k'); reflexivity.
    + destruct (String.eqb k0 k') eqn:Hk'.
      * apply String.eqb_eq in Hk'. subst k0. rewrite String.eqb_sym, Hk0. reflexivity.
      * apply IH.
Qed.

(** The write keeps the signal a dataset of the same shape, and keeps the
    caches. *)
Lemma after_write_signal (o : owner) (a : attr) (v : NXdata) (sig : h5dataset) :
  signal v = Ok sig ->
  exists sig',
    signal (after_write o a v) = Ok sig' /\ shape sig' = shape sig
    /\ signal_name (after_write o a v) = signal_name v
    /\ _is_scatter (after_write o a v) = _is_scatter v
    /\ _axes (after_write o a v) = _axes v
    /\ signal_is_1D (after_write o a v) = signal_is_1D v.
Proof.
  intros Hsig. destruct a as [s|z|l]; try (exists sig; done).
  unfold after_write.
  destruct o; try (exists sig; done);
    (destruct (by_reference (group v)); [|exists sig; done]);
    [exists sig; done|].
  unfold signal in *. simpl.
  rewrite lookup_update_child, String.eqb_refl.
  destruct (lookup_child (children (group v)) (signal_name v)) as [[d|at_ m]|]; try discriminate.
  injection Hsig as ->. simpl. eexists. done.
Qed.

(** A write on the group keeps the members and sets [@axes]. *)
Lemma after_write_group (a : attr) (v : NXdata) :
  attrs (group v) !! "axes" = Some a ->
  children (group (after_write OnGroup a v)) = children (group v)
  /\ attrs (group (after_write OnGroup a v))
     = <["axes" := written (group v) a]> (attrs (group v)).
Proof.
  intros Ha.
  destruct a as [s|z|l]; simpl; try (split; [reflexivity | symmetry; apply insert_id; exact Ha]).
  destruct (by_reference (group v)); [done|].
  split; [reflexivity | symmetry; apply insert_id; exact Ha].
Qed.

(** A store that hands out copies is not written. *)
Lemma after_write_by_value (o : owner) (a : attr) (v : NXdata) :
  by_reference (group v) = false -> after_write o a v = v.
Proof.
  intros H. unfold after_write. rewrite H. destruct a as [s|z|l]; try reflexivity.
  destruct o; reflexivity.
Qed.

(** A write on the signal keeps the attributes of the group. *)
Lemma after_write_signal_attrs (a : attr) (v : NXdata) :
  attrs (group (after_write OnSignal a v)) = attrs (group v).
Proof.
  destruct a as [s|z|l]; try reflexivity.
  simpl. destruct (by_reference (group v)); reflexivity.
Qed.

Lemma names_dataset_children (g g' : h5group) (n : option string) :
  children g' = children g -> names_dataset g n -> names_dataset g' n.
Proof. unfold names_dataset. intros ->. done. Qed.

Lemma as_names_written (g0 : h5group) (a : attr) (names : list (option string)) :
  as_names a = Ok names ->
  exists names', as_names (written g0 a) = Ok names'
    /\ length names' = length names
    /\ map dot_to_None names' = map dot_to_None names
    /\ (forall g, Forall (names_dataset g) names ->
                  Forall (fun n => n <> None -> names_dataset g n) names').
Proof.
  destruct a as [s|z|l]; simpl; intros H; try discriminate.
  - injection H as <-. exists [Some s]. split_and!; try done.
    intros g Hf. eapply Forall_impl; [exact Hf|]. done.
  - injection H as <-. destruct (by_reference g0).
    2:{ exists l. split_and!; try done.
        intros g Hf. eapply Forall_impl; [exact Hf|]. done. }
    exists (map dot_to_None l). split_and!.
    + reflexivity.
    + apply length_map.
    + rewrite <- list_fmap_compose. apply list_fmap_ext. intros i x _. simpl.
      unfold dot_to_None. destruct (is_dot x) eqn:Hx; [reflexivity|]. rewrite Hx. reflexivity.
    + intros g Hf. apply Forall_fmap. eapply Forall_impl; [exact Hf|].
      intros n Hn. simpl. unfold dot_to_None. destruct (is_dot n); [congruence | done].
Qed.

Lemma is_valid_true (g : h5group) :
  is_valid_NXdata g = Ok true -> validate g = Ok Valid.
Proof.
  unfold is_valid_NXdata, rbind. destruct (validate g) as [[|w]|e]; simpl; congruence.
Qed.

Lemma axes_value_no_attr (v : NXdata) (sig : h5dataset) (ax : list (option axis_t)) :
  signal v = Ok sig -> attrs (group v) !! "axes" = None ->
  axes_value v = Ok ax -> ax = replicate (length (shape sig)) None.
Proof.
  intros Hsig Hno. unfold axes_value. rewrite Hsig, Hno. unfold rbind.
  destruct (interpretation_value v); congruence.
Qed.

Lemma axes_value_attr (v : NXdata) (sig : h5dataset) (a : attr)
    (ax : list (option axis_t)) :
  signal v = Ok sig -> attrs (group v) !! "axes" = Some a ->
  axes_value v = Ok ax ->
  exists interp,
    interpretation_value v = Ok interp
    /\ compute_axes (group v) (length (shape sig)) a interp = Ok ax.
Proof.
  intros Hsig Ha. unfold axes_value. rewrite Hsig, Ha. unfold rbind.
  destruct (interpretation_value v) as [interp|e]; [eauto | discriminate].
Qed.

(** The view that the constructor returns. *)
Lemma init_view (g : h5group) (v : NXdata) :
  fst (NXdata_init g) = Ok v ->
  exists name sig0 sig,
    validate g = Ok Valid
    /\ attrs g !! "signal" = Some (AStr name)
    /\ lookup_child (children g) name = Some (Dset sig0)
    /\ signal_name v = name /\ signal v = Ok sig /\ shape sig = shape sig0
    /\ caches_coherent v sig
    /\ (forall a, attrs g !! "axes" = Some a ->
          children (group v) = children g
          /\ attrs (group v) = <["axes" := written g a]> (attrs g))
    /\ (attrs g !! "axes" = None -> attrs (group v) = attrs g)
    /\ (by_reference g = false -> group v = g).
Proof.
  intros H. pose proof (init_needs_valid g v H) as Hval.
  pose proof (is_valid_true g Hval) as Hvalid.
  destruct (validate_signal g Hvalid) as (name & sig0 & Hs & Hc).
  exists name, sig0. unfold NXdata_init in H. rewrite Hval, Hs, Hc in H.
  set (v0 := mkNXdata g name None None _ _ _ _ []) in H.
  change init_body with (bind axes_dataset_names init_rest) in H.
  destruct (bind axes_dataset_names init_rest v0) as [[[]|e] v'] eqn:Hrun;
    simpl in H; [|discriminate].
  injection H as ->.
  assert (signal v0 = Ok sig0) as Hsig0 by (unfold signal; simpl; rewrite Hc; reflexivity).
  unfold bind at 1 in Hrun. rewrite (axes_dataset_names_run v0 sig0 Hsig0) in Hrun.
  change (group v0) with g in Hrun.
  destruct (axes_attr_source g sig0) as [[a o]|] eqn:Hsrc.
  - destruct (as_names a) as [names|e] eqn:Hnames; [|discriminate].
    destruct (after_write_signal o a v0 sig0 Hsig0)
      as (sigw & Hsigw & Hshape & Hname & Hsc & Hax & H1d).
    exists sigw. rewrite <- Hshape in Hrun.
    change (bind (pad_names (length (shape sigw)) (map dot_to_None names)) init_rest
              (after_write o a v0) = (Ok tt, v)) in Hrun.
    assert (forall ax, axes_value (after_write o a v0) = Ok ax ->
              Forall (has_shape (group (after_write o a v0))) ax
              /\ (length (map dot_to_None names) = 1%nat ->
                  length (shape sigw) = 1%nat -> length ax = 1%nat)) as Hprem.
    { intros ax Hv. unfold axes_attr_source in Hsrc.
      destruct (attrs g !! "axes") as [a'|] eqn:Hga.
      - injection Hsrc as -> <-.
        destruct (after_write_group a v0 Hga) as [Hch Hat].
        assert (attrs (group (after_write OnGroup a v0)) !! "axes" = Some (written g a)) as Hcur
          by (rewrite Hat; apply lookup_insert_eq).
        destruct (axes_value_attr _ sigw (written g a) ax Hsigw Hcur Hv) as (interp & _ & Hcomp).
        destruct (as_names_written g a names Hnames) as (names' & Hn' & Hlen' & _ & Hds).
        destruct (compute_axes_Ok _ _ _ _ names' ax Hn' Hcomp) as (pad & l1 & -> & Hent & Hpad).
        split.
        + apply Forall_app. split; [apply replicate_None_has_shape|].
          apply (entries_have_shape _ names'); [|exact Hent].
          specialize (Hds g (validate_names_dataset g a names Hvalid Hga Hnames)).
          eapply Forall_impl; [exact Hds|]. intros n Hn Hne.
          apply (names_dataset_children g); [exact Hch | exact (Hn Hne)].
        + rewrite length_map. intros Hone Hnd. rewrite Hlen', Hone, Hnd in Hpad.
          simpl in Hpad. subst pad. simpl.
          rewrite <- (Forall2_length _ _ _ Hent). congruence.
      - destruct (dattrs sig0 !! "axes") as [a'|] eqn:Hsa; [|discriminate].
        injection Hsrc as -> <-.
        assert (attrs (group (after_write OnSignal a v0)) !! "axes" = None) as Hcur
          by (rewrite after_write_signal_attrs; exact Hga).
        rewrite (axes_value_no_attr _ sigw ax Hsigw Hcur Hv).
        split; [apply replicate_None_has_shape|]. intros _ Hnd. rewrite length_replicate. exact Hnd. }
    destruct (init_tail (after_write o a v0) sigw (map dot_to_None names) v
                Hsigw Hsc Hax) as (Hg & Hn & Hcoh); [| exact Hprem | exact Hrun |].
    { rewrite H1d, Hshape. reflexivity. }
    split_and!; try done.
    + rewrite Hn. exact Hname.
    + rewrite (signal_ext (after_write o a v0) v Hg Hn). exact Hsigw.
    + intros a0 Ha0. rewrite Hg. unfold axes_attr_source in Hsrc. rewrite Ha0 in Hsrc.
      injection Hsrc as -> <-. exact (after_write_group a v0 Ha0).
    + intros Hno. rewrite Hg. unfold axes_attr_source in Hsrc. rewrite Hno in Hsrc.
      destruct (dattrs sig0 !! "axes"); [|discriminate]. injection Hsrc as -> <-.
      apply after_write_signal_attrs.
    + intros Hval'. rewrite Hg. rewrite after_write_by_value; [reflexivity | exact Hval'].
  - exists sig0. simpl in Hrun.
    assert (attrs g !! "axes" = None) as Hno.
    { unfold axes_attr_source in Hsrc. destruct (attrs g !! "axes"); [discriminate | reflexivity]. }
    destruct (init_tail v0 sig0 (replicate (length (shape sig0)) None) v Hsig0 eq_refl eq_refl)
      as (Hg & Hn & Hcoh).
    + reflexivity.
    + intros ax Hv. rewrite (axes_value_no_attr v0 sig0 ax Hsig0 Hno Hv).
      split; [apply replicate_None_has_shape|]. intros _ Hnd. rewrite length_replicate. exact Hnd.
    + unfold bind. rewrite pad_names_same by apply length_replicate. exact Hrun.
    + split_and!; try done.
      * rewrite (signal_ext v0 v Hg Hn). exact Hsig0.
      * intros a Ha. congruence.
      * intros _. rewrite Hg. reflexivity.
Qed.

Lemma init_store (g : h5group) (v : NXdata) :
  fst (NXdata_init g) = Ok v -> snd (NXdata_init g) = group v.
Proof.
  unfold NXdata_init. destruct (is_valid_NXdata g) as [[|]|e]; try discriminate.
  destruct (attrs g !! "signal") as [[name|z|l]|]; try discriminate.
  destruct (lookup_child (children g) name) as [[sig|a m]|]; try discriminate.
  destruct (init_body _) as [[[]|e] v']; simpl; congruence.
Qed.

(** A group read from a file is the same after a view was built on it. *)
Lemma init_keeps_file_store (g : h5group) (v : NXdata) :
  by_reference g = false ->
  fst (NXdata_init g) = Ok v -> snd (NXdata_init g) = g.
Proof.
  intros Hval Hinit. rewrite (init_store g v Hinit).
  destruct (init_view g v Hinit) as (name & sig0 & sig & _ & _ & _ & _ & _ & _ & _ & _ & _ & H).
  exact (H Hval).
Qed.

(** ** is_scatter *)

Lemma same_size_entries (g : h5group) (size : Z) (ax : list (option axis_t)) :
  Forall (has_shape g) ax ->
  forallb (same_size g size) ax = true <-> Forall (entry_size_is g size) ax.
Proof.
  intros Hshape. rewrite forallb_forall, Forall_forall.
  split; intros H a Hin.
  - apply list_elem_of_In in Hin. specialize (H a Hin).
    intros x ->. simpl in H. destruct (axis_shape g x) as [sh|e]; [|discriminate].
    exists sh. split; [reflexivity | apply Z.eqb_eq; exact H].
  - apply list_elem_of_In in Hin. specialize (H a Hin).
    destruct a as [x|]; [|reflexivity]. simpl.
    destruct (H x eq_refl) as (sh & -> & Hsz). apply Z.eqb_eq. exact Hsz.
Qed.

(** On a view, [is_scatter] returns, and it returns True exactly when the
    signal is 1-D and the size loop finds every entry of the size of the
    signal. *)
Lemma is_scatter_view_sizes (g : h5group) (v : NXdata) :
  fst (NXdata_init g) = Ok v ->
  exists sig b v',
    signal v = Ok sig
    /\ is_scatter v = (Ok b, v')
    /\ (b = true <->
        length (shape sig) = 1%nat
        /\ exists ax v'',
            axes v = (Ok ax, v'')
            /\ Forall (entry_size_is (group v) (prod_shape (shape sig))) ax).
Proof.
  intros Hinit.
  destruct (init_view g v Hinit) as (name & sig0 & sig & _ & _ & _ & _ & Hsig & _ & Hcoh & _).
  destruct Hcoh as (_ & Hother & Hone). exists sig.
  destruct (decide (length (shape sig) = 1%nat)) as [Hnd|Hnd].
  - destruct (Hone Hnd) as (ax & Hax & Hshape & Hcase).
    assert (axes v = (Ok ax, v)) as Haxes by (rewrite axes_run, Hax; reflexivity).
    pose proof (same_size_entries (group v) (prod_shape (shape sig)) ax Hshape) as Hiff.
    destruct Hcase as [Hsc|[Hsc H1]].
    + eexists _, v. split; [exact Hsig|]. split; [apply is_scatter_cached; exact Hsc|].
      rewrite Hiff. split.
      * intros HF. split; [exact Hnd|]. exists ax, v. done.
      * intros (_ & ax' & v'' & Hax' & HF). congruence.
    + destruct (is_scatter_1D v sig Hsc H1 Hsig) as (r & v' & Hrun & _ & Hmatch).
      unfold axes_outcome in Hmatch. rewrite Hax in Hmatch.
      destruct Hmatch as (_ & Hok & Htot). destruct (Htot Hshape) as [b ->].
      destruct (Hok b eq_refl) as (-> & _ & _).
      eexists _, v'. split; [exact Hsig|]. split; [exact Hrun|].
      rewrite Hiff. split.
      * intros HF. split; [exact Hnd|]. exists ax, v. done.
      * intros (_ & ax' & v'' & Hax' & HF). congruence.
  - destruct (Hother Hnd) as [H1 Hcase].
    exists false. destruct Hcase as [Hsc|Hsc].
    + exists (set_is_scatter false v). split; [exact Hsig|].
      split; [apply is_scatter_not_1D; assumption|].
      split; [discriminate | intros [Habs _]; contradiction].
    + exists v. split; [exact Hsig|].
      split; [apply is_scatter_cached; assumption|].
      split; [discriminate | intros [Habs _]; contradiction].
Qed.

(** The size loop computes the number of elements. *)
Lemma prod_shape_element_count (sh : list Z) : prod_shape sh = element_count sh.
Proof.
  unfold prod_shape.
  assert (forall acc, fold_left Z.mul sh acc = acc * element_count sh) as H.
  { induction sh as [|n sh IH]; intros acc; simpl; [lia|]. rewrite IH. lia. }
  rewrite H. lia.
Qed.

Lemma entry_size_count (g : h5group) (sh : list Z) (a : option axis_t) :
  entry_size_is g (prod_shape sh) a <-> entry_count_is g (element_count sh) a.
Proof.
  unfold entry_size_is, entry_count_is.
  split; intros H x Hx; destruct (H x Hx) as (sh' & Hsh & Hsize); exists sh';
    (split; [exact Hsh|]); rewrite ?prod_shape_element_count in *;
    rewrite <- ?prod_shape_element_count; rewrite ?prod_shape_element_count; congruence.
Qed.

(** C6: on a view, [is_scatter] returns, and it returns True exactly when
    the signal is 1-D and every entry of the axes list that is not [None]
    has as many elements as the signal, the number of elements being the
    product of the dimensions; over the signal of shape (10,) with the
    axes x and y of shape (10,), [is_scatter] and [is_x_y_value_scatter]
    are True; over the signal of shape (3,) with an axis of shape (2,),
    [is_scatter] is False. *)
Theorem is_scatter_of_view :
  (forall (g : h5group) (v : NXdata),
      fst (NXdata_init g) = Ok v ->
      exists sig b v',
        signal v = Ok sig
        /\ is_scatter v = (Ok b, v')
        /\ (b = true <->
            length (shape sig) = 1%nat
            /\ exists ax v'',
                axes v = (Ok ax, v'')
                /\ Forall (entry_count_is (group v) (element_count (shape sig))) ax))
  /\ (exists v,
        fst (NXdata_init scatter_group) = Ok v
        /\ fst (is_scatter v) = Ok true
        /\ fst (is_x_y_value_scatter v) = Ok true)
  /\ (exists v,
        fst (NXdata_init short_axis_group) = Ok v
        /\ fst (is_scatter v) = Ok false).
Proof.
  split; [|split; [exists scatter_view | exists short_axis_view];
           split_and!; vm_compute; reflexivity].
  intros g v Hinit.
  destruct (is_scatter_view_sizes g v Hinit) as (sig & b & v' & Hsig & Hrun & Hiff).
  exists sig, b, v'. split; [exact Hsig|]. split; [exact Hrun|].
  rewrite Hiff. split; intros (Hnd & ax & v'' & Hax & Hall); (split; [exact Hnd|]);
    exists ax, v''; (split; [exact Hax|]);
    (eapply Forall_impl; [exact Hall|]); intros a Ha; apply entry_size_count; exact Ha.
Qed.

Lemma is_scatter_of_view_witness :
  exists sig b v',
    signal scatter_view = Ok sig
    /\ is_scatter scatter_view = (Ok b, v')
    /\ (b = true <->
        length (shape sig) = 1%nat
        /\ exists ax v'',
            axes scatter_view = (Ok ax, v'')
            /\ Forall (entry_count_is (group scatter_view) (element_count (shape sig))) ax).
Proof.
  destruct is_scatter_of_view as [H _].
  apply (H scatter_group scatter_view). vm_compute. reflexivity.
Defined.

(** ** The axes and their names, position by position *)

Lemma entries_null_positions (g : h5group) (names : list (option string))
    (l : list (option axis_t)) :
  Forall2 (entry_of g) names l ->
  forall i, l !! i = Some None <-> map dot_to_None names !! i = Some None.
Proof.
  intros H. induction H as [|n z names l Hz H IH]; intros i.
  - simpl. rewrite !lookup_nil. done.
  - destruct i as [|i]; [|apply IH]. simpl.
    destruct Hz as (s & -> & [[Hdot ->]|(Hdot & x & node & -> & _)]).
    + unfold dot_to_None. rewrite Hdot. done.
    + unfold dot_to_None. rewrite Hdot. split; discriminate.
Qed.

Lemma padded_null_positions {A B} (pad : nat) (l : list (option A)) (l' : list (option B)) :
  (forall i, l !! i = Some None <-> l' !! i = Some None) ->
  forall i, (replicate pad None ++ l) !! i = Some None
            <-> (replicate pad None ++ l') !! i = Some None.
Proof.
  intros H. induction pad as [|pad IH]; intros i; simpl; [apply H|].
  destruct i as [|i]; simpl; [done | apply IH].
Qed.

(** The write of [axes_dataset_names] does not reach what
    [interpretation] reads. *)
Lemma interpretation_value_after_write (a : attr) (v : NXdata) :
  interpretation_value (after_write OnGroup a v) = interpretation_value v.
Proof.
  destruct a as [s|z|l]; try reflexivity.
  unfold after_write. destruct (by_reference (group v)); [|reflexivity].
  unfold interpretation_value, signal. simpl.
  destruct (lookup_child (children (group v)) (signal_name v)) as [[d|at_ m]|]; try reflexivity.
  simpl. unfold signal_or_group_attr. simpl.
  rewrite lookup_insert_ne by done. reflexivity.
Qed.

Lemma interpretation_value_ext (v v' : NXdata) :
  group v' = group v -> signal_name v' = signal_name v ->
  interpretation_value v' = interpretation_value v.
Proof.
  intros Hg Hn. unfold interpretation_value, signal. rewrite Hg, Hn. reflexivity.
Qed.

(** X20: on a view over a group that has a non-empty [@axes] itself, when
    [axes] and [axes_dataset_names] both return, the two lists have the
    same length and hold [None] at the same positions, and the names are
    the names of [@axes], with [None] for ["."], after the padding. *)
Theorem axes_and_names_aligned (g : h5group) (v : NXdata) (axes_attr : attr)
    (names : list (option string)) (ax : list (option axis_t))
    (nm : list (option string)) (v1 v2 : NXdata) :
  fst (NXdata_init g) = Ok v ->
  attrs g !! "axes" = Some axes_attr ->
  as_names axes_attr = Ok names ->
  names <> [] ->
  axes v = (Ok ax, v1) ->
  axes_dataset_names v = (Ok nm, v2) ->
  length ax = length nm
  /\ (forall i, ax !! i = Some None <-> nm !! i = Some None)
  /\ exists pad, nm = replicate pad None ++ map dot_to_None names.
Proof.
  intros Hinit Hattr Hnames Hne Hax Hnm.
  destruct (init_view g v Hinit)
    as (name & sig0 & sig & _ & _ & _ & _ & Hsig & _ & Hcoh & Hstore & _).
  destruct Hcoh as (Hcache & _ & _).
  destruct (Hstore axes_attr Hattr) as [Hch Hat].
  assert (attrs (group v) !! "axes" = Some (written g axes_attr)) as Hcur
    by (rewrite Hat; apply lookup_insert_eq).
  (* the axes *)
  assert (axes_value v = Ok ax) as Hval.
  { rewrite axes_run in Hax. destruct (_axes v) as [a0|] eqn:Ha0.
    - injection Hax as -> _. apply Hcache. reflexivity.
    - destruct (axes_value v); congruence. }
  destruct (axes_value_attr v sig (written g axes_attr) ax Hsig Hcur Hval)
    as (interp & Hint & Hcomp).
  destruct (as_names_written g axes_attr names Hnames) as (cur & Hcurn & Hlen & Hmap & _).
  destruct (compute_axes_Ok _ _ _ _ cur ax Hcurn Hcomp) as (pad & l1 & -> & Hent & Hpad).
  pose proof (Forall2_length _ _ _ Hent) as Hl1.
  assert (length cur <> 0%nat) as Hpos.
  { rewrite Hlen. destruct names; [congruence | simpl; lia]. }
  (* the names *)
  rewrite (axes_dataset_names_run v sig Hsig) in Hnm.
  unfold axes_attr_source in Hnm. rewrite Hcur, Hcurn, Hmap in Hnm.
  assert (nm = replicate pad None ++ map dot_to_None names) as ->.
  { destruct (Nat.eqb (length cur) (length (shape sig))) eqn:Hcmp.
    - apply Nat.eqb_eq in Hcmp. subst pad.
      rewrite pad_names_same in Hnm by (rewrite length_map; congruence).
      injection Hnm as <- _. reflexivity.
    - apply Nat.eqb_neq in Hcmp.
      rewrite pad_names_other in Hnm by (rewrite length_map; congruence).
      destruct (is_scatter_frame (after_write OnGroup (written g axes_attr) v))
        as (rs & vs & Hrun & Hg & Hn & _).
      rewrite Hrun in Hnm. destruct rs as [sc|e]; [|discriminate].
      assert (interpretation_value vs = Ok interp) as Hints.
      { rewrite (interpretation_value_ext _ vs Hg Hn), interpretation_value_after_write.
        exact Hint. }
      rewrite Hints, length_map in Hnm.
      destruct (sc && Nat.eqb (length (shape sig)) 1) eqn:Hscat.
      + injection Hnm as <- _. apply andb_true_iff in Hscat. destruct Hscat as [_ Hone].
        apply Nat.eqb_eq in Hone.
        assert (pad = 0%nat) as ->; [|reflexivity].
        destruct interp as [i|]; [|exact Hpad].
        destruct Hpad as (n & _ & Hn' & ->). lia.
      + destruct (interpdim_of interp) as [n|e] eqn:Hdim; [|discriminate].
        destruct (negb (Nat.eqb (length names) n)); [discriminate|].
        injection Hnm as <- _.
        destruct interp as [i|]; [|discriminate].
        destruct Hpad as (n' & Hdim' & _ & ->). congruence. }
  split_and!.
  - rewrite !length_app, !length_replicate, length_map. congruence.
  - apply padded_null_positions. rewrite <- Hmap.
    exact (entries_null_positions (group v) cur l1 Hent).
  - exists pad. reflexivity.
Qed.

Lemma axes_and_names_aligned_witness :
  length ([None] : list (option axis_t)) = length ([None] : list (option string))
  /\ (forall i, ([None] : list (option axis_t)) !! i = Some None
                <-> ([None] : list (option string)) !! i = Some None)
  /\ exists pad, [None] = replicate pad None ++ map dot_to_None [Some "."].
Proof.
  apply (axes_and_names_aligned placeholder_group placeholder_view (AStr ".")
           [Some "."] [None] [None] placeholder_view placeholder_view).
  - vm_compute. reflexivity.
  - vm_compute. reflexivity.
  - reflexivity.
  - discriminate.
  - vm_compute. reflexivity.
  - vm_compute. reflexivity.
Defined.

(** * Further properties of the module *)

(** ** The accessors that only read *)

Lemma scatter_kind_frame (test : nat -> bool) (v : NXdata) :
  exists r v',
    (do! sc := is_scatter in
     if sc then do! a := axes in ret (test (length a)) else ret false) v = (r, v')
    /\ same_but_caches v v'.
Proof.
  unfold bind at 1.
  destruct (is_scatter_frame v) as (rs & vs & Hrun & Hsame). rewrite Hrun.
  destruct rs as [[|]|e]; try (eexists _, _; split; [reflexivity | exact Hsame]).
  unfold bind. destruct (axes_outcome_run vs) as (va & Hax & Hsame' & _). rewrite Hax.
  destruct (axes_outcome vs) as [a|e]; eexists _, _;
    (split; [reflexivity | exact (same_but_caches_trans _ _ _ Hsame Hsame')]).
Qed.

(** X1: [axes], [is_scatter], [interpretation], [is_x_y_value_scatter] and
    [is_unsupported_scatter] leave the group, the signal and the list
    [axes_names] of the instance as they are, whether they return or
    raise: at most the two caches change. *)
Theorem reading_accessors_keep_store (v : NXdata) :
  same_but_caches v (snd (axes v))
  /\ same_but_caches v (snd (is_scatter v))
  /\ snd (interpretation v) = v
  /\ same_but_caches v (snd (is_x_y_value_scatter v))
  /\ same_but_caches v (snd (is_unsupported_scatter v)).
Proof.
  split_and!.
  - destruct (axes_outcome_run v) as (v' & -> & Hsame & _). exact Hsame.
  - destruct (is_scatter_frame v) as (r & v' & -> & Hsame). exact Hsame.
  - rewrite interpretation_run. reflexivity.
  - destruct (scatter_kind_frame (fun n => Nat.eqb n 2) v) as (r & v' & Hrun & Hsame).
    unfold is_x_y_value_scatter. rewrite Hrun. exact Hsame.
  - destruct (scatter_kind_frame (fun n => Nat.ltb 2 n) v) as (r & v' & Hrun & Hsame).
    unfold is_unsupported_scatter. rewrite Hrun. exact Hsame.
Qed.

(** ** Memoization *)

Lemma is_scatter_caches (v v1 : NXdata) (b : bool) :
  is_scatter v = (Ok b, v1) -> _is_scatter v1 = Some b.
Proof.
  destruct (_is_scatter v) as [b0|] eqn:Hsc.
  - rewrite (is_scatter_cached v b0 Hsc). intros [= <- <-]. exact Hsc.
  - destruct (signal_is_1D v) eqn:H1.
    + destruct (signal v) as [sig|e] eqn:Hsig.
      * destruct (is_scatter_1D v sig Hsc H1 Hsig) as (r & v' & Hrun & _ & Hmatch).
        rewrite Hrun. intros [= -> <-].
        destruct (axes_outcome v) as [ax|e].
        -- destruct Hmatch as (_ & Hok & _). destruct (Hok b eq_refl) as (_ & Hs & _). exact Hs.
        -- destruct Hmatch as [Habs _]. discriminate.
      * unfold is_scatter, bind at 1, get. rewrite Hsc, H1. simpl.
        unfold bind at 1, modify. unfold bind at 1, lift.
        change (signal (set_is_scatter true v)) with (signal v). rewrite Hsig. discriminate.
    + rewrite (is_scatter_not_1D v Hsc H1). intros [= <- <-]. reflexivity.
Qed.

Lemma axes_caches (v v1 : NXdata) (ax : list (option axis_t)) :
  axes v = (Ok ax, v1) -> _axes v1 = Some ax.
Proof.
  destruct (axes_outcome_run v) as (v' & Hrun & _ & _ & Hcache). rewrite Hrun.
  intros [= Hout <-]. rewrite Hout in Hcache. exact Hcache.
Qed.

(** X2: once [axes] has returned a list, and once [is_scatter] has
    returned an answer, every later call on that instance returns the same
    value and changes nothing, whatever the group has become in between:
    the caches are never reset. *)
Theorem caches_are_never_reset (v v1 : NXdata) :
  (forall ax, axes v = (Ok ax, v1) ->
     forall g', axes (set_group g' v1) = (Ok ax, set_group g' v1))
  /\ (forall b, is_scatter v = (Ok b, v1) ->
        forall g', is_scatter (set_group g' v1) = (Ok b, set_group g' v1)).
Proof.
  split.
  - intros ax Hax g'. apply axes_caches in Hax. rewrite axes_run. simpl. rewrite Hax.
    reflexivity.
  - intros b Hsc g'. apply is_scatter_caches in Hsc. apply is_scatter_cached. exact Hsc.
Qed.

Lemma caches_are_never_reset_witness :
  axes (set_group (from_file scatter_group) scatter_view)
  = (Ok [Some (AxNode "x"); Some (AxNode "y")], set_group (from_file scatter_group) scatter_view)
  /\ is_scatter (set_group (from_file scatter_group) scatter_view)
     = (Ok true, set_group (from_file scatter_group) scatter_view).
Proof.
  destruct (caches_are_never_reset scatter_view scatter_view) as [Hax Hsc].
  split.
  - apply Hax. vm_compute. reflexivity.
  - apply Hsc. vm_compute. reflexivity.
Defined.

(** ** What a method keeps of the instance *)

Section Keeps.
Context {X : Type} (f : NXdata -> X).

Lemma keeps_ret {A} (a : A) : keeps f (ret a).
Proof. intros v. reflexivity. Qed.

Lemma keeps_raise {A} (e : exn) : keeps f (@raise A e).
Proof. intros v. reflexivity. Qed.

Lemma keeps_lift {A} (r : result A) : keeps f (lift r).
Proof. intros v. reflexivity. Qed.

Lemma keeps_get : keeps f get.
Proof. intros v. reflexivity. Qed.

Lemma keeps_modify (h : NXdata -> NXdata) :
  (forall v, f (h v) = f v) -> keeps f (modify h).
Proof. intros H v. apply H. Qed.

Lemma keeps_bind {A B} (m : M A) (k : A -> M B) :
  keeps f m -> (forall a, keeps f (k a)) -> keeps f (bind m k).
Proof.
  intros Hm Hk v. unfold bind. specialize (Hm v).
  destruct (m v) as [[a|e] v']; simpl in *.
  - rewrite (Hk a v'). exact Hm.
  - exact Hm.
Qed.

Lemma keeps_for_each {A} (l : list A) (body : A -> M unit) :
  (forall x, keeps f (body x)) -> keeps f (for_each l body).
Proof.
  intros Hbody. induction l as [|x l IH]; simpl.
  - apply keeps_ret.
  - apply keeps_bind; [apply Hbody | intros _; exact IH].
Qed.

Hypothesis f_set_axes : forall a v, f (set_axes a v) = f v.
Hypothesis f_set_is_scatter : forall b v, f (set_is_scatter b v) = f v.

Lemma keeps_interpretation : keeps f interpretation.
Proof. intros v. rewrite interpretation_run. reflexivity. Qed.

Lemma keeps_axes : keeps f axes.
Proof.
  intros v. rewrite axes_run. destruct (_axes v); [reflexivity|].
  destruct (axes_value v); [apply f_set_axes | reflexivity].
Qed.

Lemma keeps_scatter_step (sigsize : Z) (a : option axis_t) :
  keeps f (scatter_step sigsize a).
Proof.
  intros v. rewrite scatter_step_run. destruct a as [x|]; [|reflexivity].
  destruct (axis_shape (group v) x); [|reflexivity].
  destruct (_is_scatter v); [apply f_set_is_scatter | reflexivity].
Qed.

Lemma keeps_is_scatter : keeps f is_scatter.
Proof.
  unfold is_scatter. apply keeps_bind; [apply keeps_get|]. intros v.
  destruct (_is_scatter v); [apply keeps_ret|].
  destruct (negb (signal_is_1D v)).
  - apply keeps_bind; [apply keeps_modify, f_set_is_scatter | intros; apply keeps_ret].
  - apply keeps_bind; [apply keeps_modify, f_set_is_scatter|]. intros _.
    apply keeps_bind; [apply keeps_lift|]. intros sig.
    apply keeps_bind; [apply keeps_axes|]. intros ax.
    apply keeps_bind; [apply keeps_for_each; intros; apply keeps_scatter_step|]. intros _.
    apply keeps_bind; [apply keeps_get|]. intros v'.
    destruct (_is_scatter v'); [apply keeps_ret | apply keeps_raise].
Qed.

Lemma keeps_pad_names (ndims : nat) (names : list (option string)) :
  keeps f (pad_names ndims names).
Proof.
  unfold pad_names. destruct (negb (Nat.eqb (length names) ndims)); [|apply keeps_ret].
  apply keeps_bind; [apply keeps_is_scatter|]. intros sc.
  destruct (sc && Nat.eqb ndims 1); [apply keeps_ret|].
  apply keeps_bind; [apply keeps_interpretation|]. intros interp.
  apply keeps_bind; [apply keeps_lift|]. intros n.
  destruct (negb (Nat.eqb (length names) n)); [apply keeps_raise | apply keeps_ret].
Qed.

Hypothesis f_set_group : forall g v, f (set_group g v) = f v.

Lemma keeps_axes_dataset_names : keeps f axes_dataset_names.
Proof.
  unfold axes_dataset_names. apply keeps_bind; [apply keeps_get|]. intros v.
  apply keeps_bind; [apply keeps_lift|]. intros sig.
  destruct (axes_attr_source (group v) sig) as [[a o]|]; [|apply keeps_ret].
  apply keeps_bind; [apply keeps_lift|]. intros names.
  apply keeps_bind; [|intros _; apply keeps_pad_names].
  unfold write_back.
  destruct (match a with AList _ => if by_reference (group v) then o else Fresh | _ => Fresh end);
    [apply keeps_modify; intros; apply f_set_group
    |apply keeps_modify; intros; apply f_set_group
    |apply keeps_ret].
Qed.

Hypothesis f_append : forall a v, f (append_axes_name a v) = f v.

Lemma keeps_append_name (dsname : option string) : keeps f (append_name dsname).
Proof.
  unfold append_name. destruct dsname as [name|]; [|apply keeps_modify, f_append].
  apply keeps_bind; [apply keeps_get|]. intros v.
  apply keeps_bind; [apply keeps_lift|]. intros n.
  destruct (node_attrs n !! "long_name"); apply keeps_modify, f_append.
Qed.

Hypothesis f_set_signal_is_1D : forall b v, f (set_signal_is_1D b v) = f v.

Lemma keeps_init_rest (names : list (option string)) : keeps f (init_rest names).
Proof.
  unfold init_rest.
  apply keeps_bind; [apply keeps_for_each; intros; apply keeps_append_name|]. intros _.
  apply keeps_bind; [apply keeps_get|]. intros v.
  destruct (signal_is_1D v); [|apply keeps_modify, f_set_signal_is_1D].
  apply keeps_bind; [apply keeps_axes|]. intros a. apply keeps_modify, f_set_signal_is_1D.
Qed.

Lemma keeps_init_body : keeps f init_body.
Proof.
  change init_body with (bind axes_dataset_names init_rest).
  apply keeps_bind; [apply keeps_axes_dataset_names | apply keeps_init_rest].
Qed.
End Keeps.

(** ** The steps of the constructor *)

(** A successful construction is a successful run of
    [axes_dataset_names] on the new instance, followed by the end of
    [__init__]. *)
Lemma init_run (g : h5group) (v : NXdata) :
  fst (NXdata_init g) = Ok v ->
  exists name sig0 names v1,
    validate g = Ok Valid
    /\ attrs g !! "signal" = Some (AStr name)
    /\ lookup_child (children g) name = Some (Dset sig0)
    /\ axes_dataset_names (new_instance g name sig0) = (Ok names, v1)
    /\ init_rest names v1 = (Ok tt, v).
Proof.
  intros H. pose proof (init_needs_valid g v H) as Hval.
  pose proof (is_valid_true g Hval) as Hvalid.
  destruct (validate_signal g Hvalid) as (name & sig0 & Hs & Hc).
  exists name, sig0. unfold NXdata_init in H. rewrite Hval, Hs, Hc in H.
  change (mkNXdata g name None None _ _ _ _ []) with (new_instance g name sig0) in H.
  change init_body with (bind axes_dataset_names init_rest) in H.
  unfold bind in H.
  destruct (axes_dataset_names (new_instance g name sig0)) as [[names|e] v1]; [|discriminate].
  exists names, v1.
  destruct (init_rest names v1) as [[[]|e] v'] eqn:Hrest; simpl in H; [|discriminate].
  injection H as ->. done.
Qed.

(** The end of the constructor sets [signal_is_1D] from the axes. *)
Lemma init_rest_signal_is_1D (names : list (option string)) (v1 v : NXdata) :
  init_rest names v1 = (Ok tt, v) ->
  if signal_is_1D v1
  then exists ax, _axes v = Some ax /\ signal_is_1D v = Nat.leb (length ax) 1
  else signal_is_1D v = false.
Proof.
  unfold init_rest, bind at 1.
  destruct (append_names_run names v1) as (r & v2 & Hrun & Hg & Hn & Hs & Ha & H1).
  rewrite Hrun. destruct r as [[]|e]; [|discriminate].
  unfold bind at 1, get. rewrite H1. destruct (signal_is_1D v1).
  - unfold bind. destruct (axes v2) as [[ax|e] v3] eqn:Hax; [|discriminate].
    unfold modify. intros [= <-]. exists ax. split; [|reflexivity].
    simpl. exact (axes_caches v2 v3 ax Hax).
  - unfold modify. intros [= <-]. reflexivity.
Qed.

(** ** The flags of the dimension *)

(** X3: on a view, [signal_is_0D], [signal_is_2D] and [signal_is_3D] tell
    whether the signal has 0, 2 or 3 dimensions, whatever the
    interpretation, and [signal_is_1D] is True exactly when the signal has
    one dimension and [axes] has at most one entry: a 1-D signal with two
    or more axes is not reported as 1-D. *)
Theorem view_dimension_flags (g : h5group) (v : NXdata) :
  fst (NXdata_init g) = Ok v ->
  exists sig,
    signal v = Ok sig
    /\ signal_is_0D v = Nat.eqb (length (shape sig)) 0
    /\ signal_is_2D v = Nat.eqb (length (shape sig)) 2
    /\ signal_is_3D v = Nat.eqb (length (shape sig)) 3
    /\ (signal_is_1D v = true <->
        length (shape sig) = 1%nat
        /\ exists ax v', axes v = (Ok ax, v') /\ (length ax <= 1)%nat).
Proof.
  intros Hinit.
  destruct (init_view g v Hinit)
    as (name & sig0 & sig & _ & Hs & Hc & _ & Hsig & Hshape & _).
  destruct (init_run g v Hinit) as (name' & sig0' & names & v1 & _ & Hs' & Hc' & Hnames & Hrest).
  rewrite Hs in Hs'. injection Hs' as <-. rewrite Hc in Hc'. injection Hc' as <-.
  exists sig. split; [exact Hsig|]. rewrite Hshape.
  assert (dims v = dims (new_instance g name sig0)) as Hdims.
  { pose proof (keeps_axes_dataset_names dims) as K1.
    specialize (K1 (fun _ _ => eq_refl) (fun _ _ => eq_refl) (fun _ _ => eq_refl)
                  (new_instance g name sig0)).
    rewrite Hnames in K1. simpl in K1.
    pose proof (keeps_init_rest dims) as K2.
    specialize (K2 (fun _ _ => eq_refl) (fun _ _ => eq_refl) (fun _ _ => eq_refl)
                  names v1).
    rewrite Hrest in K2. simpl in K2. congruence. }
  unfold dims in Hdims. simpl in Hdims. injection Hdims as H0 H2 H3.
  split; [exact H0|]. split; [exact H2|]. split; [exact H3|].
  assert (signal_is_1D v1 = Nat.eqb (length (shape sig0)) 1) as H1.
  { pose proof (keeps_axes_dataset_names signal_is_1D) as K1.
    specialize (K1 (fun _ _ => eq_refl) (fun _ _ => eq_refl) (fun _ _ => eq_refl)
                  (new_instance g name sig0)).
    rewrite Hnames in K1. exact K1. }
  pose proof (init_rest_signal_is_1D names v1 v Hrest) as Hend. rewrite H1 in Hend.
  destruct (Nat.eqb (length (shape sig0)) 1) eqn:Hnd.
  - apply Nat.eqb_eq in Hnd. destruct Hend as (ax & Hax & Hflag).
    assert (axes v = (Ok ax, v)) as Haxes by (rewrite axes_run, Hax; reflexivity).
    rewrite Hflag. split.
    + intros Hle. split; [exact Hnd|]. exists ax, v. split; [exact Haxes|].
      apply Nat.leb_le. exact Hle.
    + intros (_ & ax' & v' & Hax' & Hle). rewrite Haxes in Hax'. injection Hax' as <- _.
      apply Nat.leb_le. exact Hle.
  - apply Nat.eqb_neq in Hnd. rewrite Hend. split; [discriminate|].
    intros [Habs _]. contradiction.
Qed.

Lemma view_dimension_flags_witness :
  exists sig,
    signal scatter_view = Ok sig
    /\ signal_is_0D scatter_view = Nat.eqb (length (shape sig)) 0
    /\ signal_is_2D scatter_view = Nat.eqb (length (shape sig)) 2
    /\ signal_is_3D scatter_view = Nat.eqb (length (shape sig)) 3
    /\ (signal_is_1D scatter_view = true <->
        length (shape sig) = 1%nat
        /\ exists ax v', axes scatter_view = (Ok ax, v') /\ (length ax <= 1)%nat).
Proof.
  apply (view_dimension_flags scatter_group scatter_view). vm_compute. reflexivity.
Defined.

(** ** The kinds of scatter *)

(** On a view [is_scatter] returns, and keeps the cached axes; when it is
    True the signal is 1-D and the axes are cached. *)
Lemma view_is_scatter (g : h5group) (v : NXdata) :
  fst (NXdata_init g) = Ok v ->
  exists sig b v',
    signal v = Ok sig /\ is_scatter v = (Ok b, v')
    /\ _axes v' = _axes v
    /\ (b = true -> length (shape sig) = 1%nat /\ exists ax, _axes v = Some ax).
Proof.
  intros Hinit.
  destruct (init_view g v Hinit) as (name & sig0 & sig & _ & _ & _ & _ & Hsig & _ & Hcoh & _).
  destruct Hcoh as (_ & Hother & Hone). exists sig.
  destruct (decide (length (shape sig) = 1%nat)) as [Hnd|Hnd].
  - destruct (Hone Hnd) as (ax & Hax & Hshape & [Hsc|[Hsc H1]]).
    + eexists _, v. split_and!; [exact Hsig | apply is_scatter_cached; exact Hsc | reflexivity |].
      intros _. eauto.
    + destruct (is_scatter_1D v sig Hsc H1 Hsig) as (r & v' & Hrun & _ & Hmatch).
      unfold axes_outcome in Hmatch. rewrite Hax in Hmatch.
      destruct Hmatch as (Hax' & _ & Htot). destruct (Htot Hshape) as [b ->].
      exists b, v'. split_and!; [exact Hsig | exact Hrun | congruence |]. intros _. eauto.
  - destruct (Hother Hnd) as [H1 [Hsc|Hsc]].
    + exists false, (set_is_scatter false v).
      split_and!; [exact Hsig | apply is_scatter_not_1D; assumption | reflexivity | discriminate].
    + exists false, v.
      split_and!; [exact Hsig | apply is_scatter_cached; assumption | reflexivity | discriminate].
Qed.

(** X4: on a view, [is_x_y_value_scatter] and [is_unsupported_scatter]
    return; both are False when [is_scatter] is False; when it is True
    they tell whether [axes] has exactly two entries, or more than two; so
    they are never True together. *)
Theorem scatter_kinds_of_view (g : h5group) (v : NXdata) :
  fst (NXdata_init g) = Ok v ->
  exists sc xy un v1 v2 v3,
    is_scatter v = (Ok sc, v1)
    /\ is_x_y_value_scatter v = (Ok xy, v2)
    /\ is_unsupported_scatter v = (Ok un, v3)
    /\ (sc = false -> xy = false /\ un = false)
    /\ (sc = true ->
        exists ax va, axes v = (Ok ax, va)
                      /\ xy = Nat.eqb (length ax) 2 /\ un = Nat.ltb 2 (length ax))
    /\ ~ (xy = true /\ un = true).
Proof.
  intros Hinit.
  destruct (view_is_scatter g v Hinit) as (sig & sc & v1 & _ & Hrun & Hkeep & Htrue).
  exists sc. unfold is_x_y_value_scatter, is_unsupported_scatter, bind. rewrite Hrun.
  destruct sc.
  - destruct (Htrue eq_refl) as (_ & ax & Hax).
    assert (axes v1 = (Ok ax, v1)) as Hax1 by (rewrite axes_run, Hkeep, Hax; reflexivity).
    assert (axes v = (Ok ax, v)) as Hax0 by (rewrite axes_run, Hax; reflexivity).
    rewrite Hax1. unfold ret.
    exists (Nat.eqb (length ax) 2), (Nat.ltb 2 (length ax)), v1, v1, v1.
    split_and!; try reflexivity.
    + discriminate.
    + intros _. exists ax, v. done.
    + intros [Hxy Hun]. apply Nat.eqb_eq in Hxy. apply Nat.ltb_lt in Hun. lia.
  - unfold ret. exists false, false, v1, v1, v1. split_and!; try reflexivity.
    + done.
    + discriminate.
    + intros [Habs _]. discriminate.
Qed.

Lemma scatter_kinds_of_view_witness :
  exists sc xy un v1 v2 v3,
    is_scatter scatter_view = (Ok sc, v1)
    /\ is_x_y_value_scatter scatter_view = (Ok xy, v2)
    /\ is_unsupported_scatter scatter_view = (Ok un, v3)
    /\ (sc = false -> xy = false /\ un = false)
    /\ (sc = true ->
        exists ax va, axes scatter_view = (Ok ax, va)
                      /\ xy = Nat.eqb (length ax) 2 /\ un = Nat.ltb 2 (length ax))
    /\ ~ (xy = true /\ un = true).
Proof.
  apply (scatter_kinds_of_view scatter_group scatter_view). vm_compute. reflexivity.
Defined.

(** ** What a valid group looks like *)

Lemma validate_Valid_inv (g : h5group) :
  validate g = Ok Valid ->
  exists name sig,
    attrs g !! "NX_class" = Some (AStr "NXdata")
    /\ attrs g !! "signal" = Some (AStr name)
    /\ lookup_child (children g) name = Some (Dset sig)
    /\ check_signal_errors g sig = None
    /\ (forall a, attrs g !! "axes" = Some a -> check_axes_attr g sig a = Ok None).
Proof.
  unfold validate. intros H.
  destruct (is_NXdata_class (attrs g !! "NX_class")) eqn:Hclass; [|discriminate].
  assert (attrs g !! "NX_class" = Some (AStr "NXdata")) as Hnx.
  { unfold is_NXdata_class in Hclass.
    destruct (attrs g !! "NX_class") as [[s|z|l]|]; try discriminate.
    apply String.eqb_eq in Hclass. congruence. }
  simpl in H.
  destruct (attrs g !! "signal") as [[name|z|l]|] eqn:Hs; try discriminate;
    [|destruct (by_reference g); discriminate].
  destruct (lookup_child (children g) name) as [[sig|a m]|] eqn:Hc; try discriminate.
  exists name, sig. unfold rbind in H.
  destruct (attrs g !! "axes") as [a|].
  - destruct (check_axes_attr g sig a) as [[w|]|e] eqn:Hax; try discriminate.
    destruct (check_signal_errors g sig); [discriminate|]. split_and!; try done.
    intros a' [= <-]. exact Hax.
  - destruct (check_signal_errors g sig); [discriminate|]. split_and!; done.
Qed.

Lemma check_axes_attr_None_inv (g : h5group) (sig : h5dataset) (a : attr) :
  check_axes_attr g sig a = Ok None ->
  exists names unc,
    as_names a = Ok names
    /\ (Nat.ltb 1 (length (shape sig)) && Nat.ltb (length (shape sig)) (length names) = false)
    /\ (Nat.ltb (length names) (length (shape sig)) = true ->
        check_interpretation g sig (length names) = Ok None)
    /\ uncertainties_of g sig = Ok unc
    /\ (forall l, unc = Some l -> length l = length names)
    /\ check_axes g sig unc (mkLoop true []) 0 names = Ok None.
Proof.
  unfold check_axes_attr, uncertainties_of, rbind. intros H.
  destruct (as_names a) as [names|e]; [|discriminate]. exists names.
  destruct (Nat.ltb 1 (length (shape sig)) && Nat.ltb (length (shape sig)) (length names));
    [discriminate|].
  destruct (Nat.ltb (length names) (length (shape sig))) eqn:Hlt.
  - destruct (check_interpretation g sig (length names)) as [[w|]|e]; try discriminate.
    destruct (group_or_signal_attr g sig "uncertainties") as [u|].
    + destruct (as_names u) as [l|e]; [|discriminate]. exists (Some l).
      destruct (negb (Nat.eqb (length l) (length names))) eqn:Hl; [discriminate|].
      split_and!; try done. intros l' [= <-].
      apply negb_false_iff, Nat.eqb_eq in Hl. exact Hl.
    + exists None. split_and!; try done.
  - destruct (group_or_signal_attr g sig "uncertainties") as [u|].
    + destruct (as_names u) as [l|e]; [|discriminate]. exists (Some l).
      destruct (negb (Nat.eqb (length l) (length names))) eqn:Hl; [discriminate|].
      split_and!; try done. intros l' [= <-].
      apply negb_false_iff, Nat.eqb_eq in Hl. exact Hl.
    + exists None. split_and!; try done.
Qed.

(** X5: a group without [@NX_class="NXdata"] is refused without a warning,
    whatever else it holds; and a group that the validator accepts has that
    class, a [@signal] that is a string naming one of its datasets, and, if
    it has a dataset "errors", one of the shape of the signal. *)
Theorem valid_group_signal (g : h5group) :
  (attrs g !! "NX_class" <> Some (AStr "NXdata") -> validate g = Ok (Invalid NotNXdata))
  /\ (is_valid_NXdata g = Ok true ->
      attrs g !! "NX_class" = Some (AStr "NXdata")
      /\ exists name sig,
          attrs g !! "signal" = Some (AStr name)
          /\ lookup_child (children g) name = Some (Dset sig)
          /\ forall e, lookup_child (children g) "errors" = Some (Dset e) ->
                       shape e = shape sig).
Proof.
  split.
  - intros Hne. unfold validate.
    assert (is_NXdata_class (attrs g !! "NX_class") = false) as ->; [|reflexivity].
    unfold is_NXdata_class. destruct (attrs g !! "NX_class") as [[s|z|l]|]; try reflexivity.
    apply String.eqb_neq. congruence.
  - intros Hvalid. apply is_valid_true in Hvalid.
    destruct (validate_Valid_inv g Hvalid) as (name & sig & Hnx & Hs & Hc & Herr & _).
    split; [exact Hnx|]. exists name, sig. split_and!; try done.
    intros e He. unfold check_signal_errors in Herr. rewrite He in Herr.
    destruct (bool_decide (shape e = shape sig)) eqn:Hd; [|discriminate].
    apply bool_decide_eq_true in Hd. exact Hd.
Qed.

Lemma valid_group_signal_witness :
  validate (mkGroup ∅ [] false) = Ok (Invalid NotNXdata)
  /\ attrs scatter_group !! "NX_class" = Some (AStr "NXdata")
  /\ exists name sig,
      attrs scatter_group !! "signal" = Some (AStr name)
      /\ lookup_child (children scatter_group) name = Some (Dset sig)
      /\ forall e, lookup_child (children scatter_group) "errors" = Some (Dset e) ->
                   shape e = shape sig.
Proof.
  split.
  - destruct (valid_group_signal (mkGroup ∅ [] false)) as [H _]. apply H.
    vm_compute. discriminate.
  - destruct (valid_group_signal scatter_group) as [_ H]. apply H.
    vm_compute. reflexivity.
Defined.

(** X6: in a group that the validator accepts and that has [@axes], a
    signal of two or more dimensions has no more axes than dimensions;
    when there are fewer axes than dimensions, [@interpretation] (on the
    signal, else on the group) is a key of [INTERPDIM] and gives that
    number of axes; and [@uncertainties] (on the group, else on the
    signal), when given, has as many entries as [@axes]. *)
Theorem valid_group_axes_count (g : h5group) (name : string) (sig : h5dataset)
    (a : attr) (names : list (option string)) :
  is_valid_NXdata g = Ok true ->
  attrs g !! "signal" = Some (AStr name) ->
  lookup_child (children g) name = Some (Dset sig) ->
  attrs g !! "axes" = Some a ->
  as_names a = Ok names ->
  ((1 < length (shape sig))%nat -> (length names <= length (shape sig))%nat)
  /\ ((length names < length (shape sig))%nat ->
      exists interp,
        signal_or_group_attr g sig "interpretation" = Some (AStr interp)
        /\ INTERPDIM interp = Some (length names))
  /\ (forall u, group_or_signal_attr g sig "uncertainties" = Some u ->
        exists unc, as_names u = Ok unc /\ length unc = length names).
Proof.
  intros Hvalid Hs Hc Ha Hnames. apply is_valid_true in Hvalid.
  destruct (validate_Valid_inv g Hvalid) as (name' & sig' & _ & Hs' & Hc' & _ & Haxes).
  rewrite Hs in Hs'. injection Hs' as <-. rewrite Hc in Hc'. injection Hc' as <-.
  destruct (check_axes_attr_None_inv g sig a (Haxes a Ha))
    as (names' & unc & Hn' & Hmore & Hint & Hunc & Hlen & _).
  rewrite Hnames in Hn'. injection Hn' as <-. split_and!.
  - intros H1. apply Nat.ltb_lt in H1. rewrite H1 in Hmore. simpl in Hmore.
    apply Nat.ltb_ge in Hmore. exact Hmore.
  - intros Hlt. apply Nat.ltb_lt in Hlt. specialize (Hint Hlt).
    unfold check_interpretation in Hint.
    destruct (signal_or_group_attr g sig "interpretation") as [[interp|z|l]|]; try discriminate.
    exists interp. split; [reflexivity|].
    destruct (INTERPDIM interp) as [n|]; [|discriminate].
    destruct (Nat.eqb (length names) n) eqn:Hn; [|discriminate].
    apply Nat.eqb_eq in Hn. congruence.
  - intros u Hu. unfold uncertainties_of, rbind in Hunc. rewrite Hu in Hunc.
    destruct (as_names u) as [l|e]; [|discriminate]. injection Hunc as <-.
    exists l. split; [reflexivity | apply Hlen; reflexivity].
Qed.

Lemma valid_group_axes_count_witness :
  ((1 < 2)%nat -> (1 <= 2)%nat)
  /\ ((1 < 2)%nat ->
      exists interp,
        signal_or_group_attr spectra_group
          (mkDataset [2; 10] (list_to_map [("interpretation", AStr "spectrum")]) [])
          "interpretation" = Some (AStr interp)
        /\ INTERPDIM interp = Some 1%nat)
  /\ (forall u,
        group_or_signal_attr spectra_group
          (mkDataset [2; 10] (list_to_map [("interpretation", AStr "spectrum")]) [])
          "uncertainties" = Some u ->
        exists unc, as_names u = Ok unc /\ length unc = 1%nat).
Proof.
  apply (valid_group_axes_count spectra_group "s"
           (mkDataset [2; 10] (list_to_map [("interpretation", AStr "spectrum")]) [])
           (AStr "energy") [Some "energy"]).
  - vm_compute. reflexivity.
  - vm_compute. reflexivity.
  - vm_compute. reflexivity.
  - vm_compute. reflexivity.
  - reflexivity.
Defined.

Lemma check_axis_fits g sig unc st i n st' :
  check_axis g sig unc st i n = Ok (inl st') -> axis_fits g sig n.
Proof.
  unfold check_axis, axis_fits. destruct (is_dot n) eqn:Hdot; [left; reflexivity|].
  intros H. right. destruct n as [s|]; simpl in H; [|discriminate].
  destruct (lookup_child (children g) s) as [[axis|a m]|] eqn:Hl; try discriminate.
  exists s, axis.
  destruct (negb (Nat.eqb (length (shape axis)) 1)
            && negb (Z.eqb (prod_shape (shape axis)) (prod_shape (shape sig)))) eqn:Hnd;
    [discriminate|].
  unfold rbind in H. destruct (axis_length g axis) as [len|e] eqn:Hlen; [|discriminate].
  exists len. split_and!; try done.
  - intros Hne. unfold axis_length in Hlen.
    apply Nat.eqb_neq in Hne. rewrite Hne in Hlen, Hnd. simpl in Hlen, Hnd.
    injection Hlen as <-. apply negb_false_iff, Z.eqb_eq in Hnd. exact Hnd.
  - destruct (Z.eqb len (prod_shape (shape sig))) eqn:Heq.
    + left. apply Z.eqb_eq. exact Heq.
    + right. simpl in H.
      destruct (Z_in len (shape sig ++ [1; 2])) eqn:Hin; [|discriminate].
      unfold Z_in in Hin. apply existsb_exists in Hin. destruct Hin as (x & Hx & Hxe).
      apply Z.eqb_eq in Hxe. subst x. exact Hx.
Qed.

Lemma check_axes_fit g sig unc axes_names :
  forall st i,
    check_axes g sig unc st i axes_names = Ok None ->
    Forall (axis_fits g sig) axes_names.
Proof.
  induction axes_names as [|n rest IH]; intros st i H; [constructor|].
  simpl in H. unfold rbind in H.
  destruct (check_axis g sig unc st i n) as [[st'|w]|e] eqn:Hstep; try discriminate.
  constructor; [exact (check_axis_fits g sig unc st i n st' Hstep) | exact (IH st' (S i) H)].
Qed.

(** X7: in a group that the validator accepts, every name of [@axes] other
    than ["."] names a dataset of the group; the length that the validator
    computes for that axis (its size if it is not 1-D,
    [last_good + 1 - first_good] otherwise, in 64-bit arithmetic when the
    attributes are read from a file) is the size of the signal, or the
    length of one dimension of the signal, or 1 or 2; and an axis that is
    not 1-D has the size of the signal. *)
Theorem valid_group_axes_fit (g : h5group) (name : string) (sig : h5dataset)
    (a : attr) (names : list (option string)) :
  is_valid_NXdata g = Ok true ->
  attrs g !! "signal" = Some (AStr name) ->
  lookup_child (children g) name = Some (Dset sig) ->
  attrs g !! "axes" = Some a ->
  as_names a = Ok names ->
  Forall (axis_fits g sig) names.
Proof.
  intros Hvalid Hs Hc Ha Hnames. apply is_valid_true in Hvalid.
  destruct (validate_Valid_inv g Hvalid) as (name' & sig' & _ & Hs' & Hc' & _ & Haxes).
  rewrite Hs in Hs'. injection Hs' as <-. rewrite Hc in Hc'. injection Hc' as <-.
  destruct (check_axes_attr_None_inv g sig a (Haxes a Ha))
    as (names' & unc & Hn' & _ & _ & _ & _ & Hloop).
  rewrite Hnames in Hn'. injection Hn' as <-.
  exact (check_axes_fit g sig unc names _ _ Hloop).
Qed.

Lemma valid_group_axes_fit_witness :
  is_valid_NXdata overflow_group = Ok true
  /\ Forall (axis_fits overflow_group (mkDataset [2] (list_to_map []) [])) [Some "x"]
  /\ (exists axis, lookup_child (children overflow_group) "x" = Some (Dset axis)
                   /\ axis_length overflow_group axis = Ok 2).
Proof.
  assert (is_valid_NXdata overflow_group = Ok true) as Hvalid by (vm_compute; reflexivity).
  split; [exact Hvalid|]. split.
  - apply (valid_group_axes_fit overflow_group "s" (mkDataset [2] (list_to_map []) [])
             (AStr "x") [Some "x"] Hvalid); reflexivity.
  - eexists. split; [reflexivity | vm_compute; reflexivity].
Defined.

(** ** When the validator answers *)

Section ValidatorAnswers.
Variables (g : h5group) (sig : h5dataset).
Variable unc : option (list (option string)).
Hypothesis good_ranges :
  forall k d, lookup_child (children g) k = Some (Dset d) ->
    int_attr (dattrs d !! "first_good") /\ int_attr (dattrs d !! "last_good").
Hypothesis no_subgroup :
  forall l e a m, unc = Some l -> Some e ∈ l ->
    lookup_child (children g) e <> Some (Grp a m).

Lemma axis_length_returns (k : string) (d : h5dataset) :
  lookup_child (children g) k = Some (Dset d) -> exists len, axis_length g d = Ok len.
Proof.
  intros Hk. destruct (good_ranges k d Hk) as [Hfg Hlg]. unfold axis_length.
  destruct (Nat.eqb (length (shape d)) 1) eqn:Hnd; simpl; [|eauto].
  apply Nat.eqb_eq in Hnd. destruct (shape d) as [|n0 rest]; [discriminate|]. simpl.
  unfold get_int.
  destruct (dattrs d !! "first_good") as [a|].
  - destruct (Hfg a eq_refl) as [z ->]. simpl.
    destruct (dattrs d !! "last_good") as [b|].
    + destruct (Hlg b eq_refl) as [z' ->]. simpl. eauto.
    + simpl. eauto.
  - simpl. destruct (dattrs d !! "last_good") as [b|].
    + destruct (Hlg b eq_refl) as [z' ->]. simpl. eauto.
    + simpl. eauto.
Qed.

Lemma check_axis_errors_returns poly (i : nat) (axis_name : string) (axis : h5dataset) :
  (forall l, unc = Some l -> (i < length l)%nat) ->
  exists w, check_axis_errors g unc poly i axis_name axis = Ok w.
Proof.
  intros Hi. unfold check_axis_errors. destruct unc as [l|] eqn:Hunc; [|eauto].
  destruct (negb (contains g (Some (String.append axis_name "_errors")))); [|eauto].
  destruct (l !! i) as [e|] eqn:He.
  2:{ apply lookup_ge_None in He. specialize (Hi l eq_refl). lia. }
  destruct (contains g e && negb (name_in (Some axis_name) poly)) eqn:Hc; [|eauto].
  apply andb_true_iff in Hc. destruct Hc as [Hc _].
  destruct e as [s|]; [|discriminate]. unfold contains in Hc. unfold getitem, rbind.
  destruct (lookup_child (children g) s) as [[d|a m]|] eqn:Hs; try discriminate.
  - simpl. destruct (bool_decide (shape d = shape axis)); eauto.
  - exfalso. apply (no_subgroup l s a m eq_refl); [|exact Hs].
    apply list_elem_of_lookup. eauto.
Qed.

Lemma check_axis_returns st (i : nat) (n : option string) :
  (forall l, unc = Some l -> (i < length l)%nat) ->
  exists r, check_axis g sig unc st i n = Ok r.
Proof.
  intros Hi. unfold check_axis. destruct (is_dot n); [eauto|].
  destruct n as [s|]; simpl; [|eauto].
  destruct (lookup_child (children g) s) as [[axis|a m]|] eqn:Hs; [|eauto|eauto].
  destruct (negb (Nat.eqb (length (shape axis)) 1)
            && negb (Z.eqb (prod_shape (shape axis)) (prod_shape (shape sig)))); [eauto|].
  destruct (axis_length_returns s axis Hs) as [len ->]. simpl.
  match goal with
  | |- context [match ?step with inl _ => _ | inr _ => _ end] =>
    destruct step as [st'|w]; [|eauto]
  end.
  destruct (check_axis_errors_returns (ls_polynomial st') i s axis Hi) as [w ->]. simpl.
  destruct w; eauto.
Qed.

Lemma check_axes_returns (names : list (option string)) :
  forall st i,
    (forall l, unc = Some l -> (i + length names <= length l)%nat) ->
    exists w, check_axes g sig unc st i names = Ok w.
Proof.
  induction names as [|n rest IH]; intros st i Hlen; simpl; [eauto|].
  destruct (check_axis_returns st i n) as [r ->].
  { intros l Hl. specialize (Hlen l Hl). simpl in Hlen. lia. }
  simpl. destruct r as [st'|w]; [|eauto].
  apply IH. intros l Hl. specialize (Hlen l Hl). simpl in Hlen. lia.
Qed.
End ValidatorAnswers.

(** X8: on a group whose attributes have the expected types and whose
    [@uncertainties] names no sub-group, the validator returns True or
    False: it does not raise. *)
Theorem validator_answers (g : h5group) :
  typed_group g -> exists b, is_valid_NXdata g = Ok b.
Proof.
  intros (Hsignal & Haxes & Hgood & Htyped).
  assert (exists vd, validate g = Ok vd) as [vd Hvd];
    [|exists (verdict_bool vd); unfold is_valid_NXdata; rewrite Hvd; reflexivity].
  unfold validate.
  destruct (negb (is_NXdata_class (attrs g !! "NX_class"))); [eauto|].
  destruct (attrs g !! "signal") as [[name|z|l]|] eqn:Hs; [| | |eauto];
    try (exfalso; destruct (Hsignal _ eq_refl) as [s Habs]; discriminate).
  destruct (lookup_child (children g) name) as [[sig|a m]|] eqn:Hc; [|eauto|eauto].
  destruct (Htyped name sig eq_refl Hc) as (Hint & Hunc & Hsub).
  assert (exists w, match attrs g !! "axes" with
                    | Some axes_attr => check_axes_attr g sig axes_attr
                    | None => Ok None
                    end = Ok w) as [w ->].
  { destruct (attrs g !! "axes") as [a|] eqn:Ha; [|eauto].
    destruct (Haxes a eq_refl) as [names Hnames].
    unfold check_axes_attr. rewrite Hnames. simpl.
    destruct (Nat.ltb 1 (length (shape sig)) && Nat.ltb (length (shape sig)) (length names));
      [eauto|].
    assert (exists w, (if Nat.ltb (length names) (length (shape sig))
                       then check_interpretation g sig (length names)
                       else Ok None) = Ok w) as [w ->].
    { destruct (Nat.ltb (length names) (length (shape sig))); [|eauto].
      unfold check_interpretation.
      destruct (signal_or_group_attr g sig "interpretation") as [x|]; [|eauto].
      destruct (Hint x eq_refl) as [s ->].
      destruct (INTERPDIM s); [|eauto]. destruct (Nat.eqb (length names) n); eauto. }
    simpl. destruct w; [eauto|].
    assert (exists unc, uncertainties_of g sig = Ok unc) as [unc Huo].
    { unfold uncertainties_of.
      destruct (group_or_signal_attr g sig "uncertainties") as [u|]; [|eauto].
      destruct (Hunc u eq_refl) as [l ->]. simpl. eauto. }
    unfold uncertainties_of in Huo. rewrite Huo. simpl.
    destruct (match unc with
              | Some unc0 => negb (Nat.eqb (length unc0) (length names))
              | None => false
              end) eqn:Hlen; [eauto|].
    apply (check_axes_returns g sig unc Hgood).
    - intros l e a' m -> Hin. apply (Hsub l e a' m); [|exact Hin].
      unfold uncertainties_of. exact Huo.
    - intros l ->. apply negb_false_iff, Nat.eqb_eq in Hlen. simpl. lia. }
  simpl. destruct w; [eauto|]. destruct (check_signal_errors g sig); eauto.
Qed.

Lemma lookup_child_In (cs : list (string * node)) (k : string) (n : node) :
  lookup_child cs k = Some n -> In (k, n) cs.
Proof.
  induction cs as [|[k' n'] cs IH]; simpl; [discriminate|].
  destruct (String.eqb k' k) eqn:Hk.
  - apply String.eqb_eq in Hk. intros [= <-]. left. congruence.
  - intros H. right. exact (IH H).
Qed.

Lemma validator_answers_witness : exists b, is_valid_NXdata spectra_group = Ok b.
Proof.
  apply validator_answers. unfold typed_group. split_and!.
  - intros x Hx. vm_compute in Hx. injection Hx as <-. eexists. reflexivity.
  - intros x Hx. vm_compute in Hx. injection Hx as <-. eexists. reflexivity.
  - intros k d Hk. apply lookup_child_In in Hk.
    cbv [spectra_group nxdata_group dataset_node children In] in Hk.
    destruct Hk as [Hk|[Hk|[Hk|[]]]]; injection Hk as _ <-;
      split; intros x Hx; vm_compute in Hx; discriminate.
  - intros name sig Hname Hsig. vm_compute in Hname. injection Hname as <-.
    vm_compute in Hsig. injection Hsig as <-. split_and!.
    + intros x Hx. vm_compute in Hx. injection Hx as <-. eauto.
    + intros x Hx. vm_compute in Hx. injection Hx as <-. eexists. reflexivity.
    + intros l e a m Hl Hin. vm_compute in Hl. injection Hl as <-.
      apply list_elem_of_singleton in Hin. injection Hin as ->. vm_compute. discriminate.
Defined.

(** ** Views over groups without @axes *)

Lemma append_Nones_run (k : nat) :
  forall v : NXdata,
    exists v',
      for_each (replicate k None) append_name v = (Ok tt, v')
      /\ group v' = group v /\ signal_name v' = signal_name v
      /\ _is_scatter v' = _is_scatter v /\ _axes v' = _axes v
      /\ signal_is_1D v' = signal_is_1D v
      /\ axes_names v' = axes_names v ++ replicate k None.
Proof.
  induction k as [|k IH]; intros v; simpl.
  - exists v. rewrite app_nil_r. done.
  - unfold bind, modify at 1. simpl.
    destruct (IH (append_axes_name None v)) as (v' & Hrun & Hg & Hn & Hs & Ha & H1 & Hns).
    exists v'. rewrite Hrun. split_and!; try done.
    rewrite Hns. simpl. rewrite <- app_assoc. reflexivity.
Qed.

Lemma valid_without_axes (g : h5group) (name : string) (sig : h5dataset) :
  attrs g !! "NX_class" = Some (AStr "NXdata") ->
  attrs g !! "signal" = Some (AStr name) ->
  lookup_child (children g) name = Some (Dset sig) ->
  attrs g !! "axes" = None ->
  (forall e, lookup_child (children g) "errors" = Some (Dset e) -> shape e = shape sig) ->
  is_valid_NXdata g = Ok true.
Proof.
  intros Hnx Hs Hc Ha Herr. unfold is_valid_NXdata, validate.
  rewrite Hnx, Hs, Hc, Ha. simpl. unfold check_signal_errors.
  destruct (lookup_child (children g) "errors") as [[e|a m]|]; try reflexivity.
  rewrite bool_decide_eq_true_2 by (apply Herr; reflexivity). reflexivity.
Qed.

(** X9: a group of class NXdata whose [@signal] names a dataset, with no
    [@axes] on the group nor on the signal and no "errors" dataset of
    another shape, is valid; if its signal is not 1-D, or if its
    [@interpretation] is absent or one of the four allowed values, the
    constructor returns a view and leaves the store as it was;
    [axes_names] and [axes_dataset_names] are one [None] per dimension of
    the signal, [axes] too when the interpretation is allowed, and
    [is_scatter] is True exactly when the signal is 1-D. *)
Theorem view_without_axes (g : h5group) (name : string) (sig : h5dataset) :
  attrs g !! "NX_class" = Some (AStr "NXdata") ->
  attrs g !! "signal" = Some (AStr name) ->
  lookup_child (children g) name = Some (Dset sig) ->
  attrs g !! "axes" = None ->
  dattrs sig !! "axes" = None ->
  (forall e, lookup_child (children g) "errors" = Some (Dset e) -> shape e = shape sig) ->
  (length (shape sig) = 1%nat ->
   allowed_interpretation (signal_or_group_attr g sig "interpretation") = true) ->
  is_valid_NXdata g = Ok true
  /\ exists v,
      NXdata_init g = (Ok v, g)
      /\ axes_names v = replicate (length (shape sig)) None
      /\ signal_is_1D v = Nat.eqb (length (shape sig)) 1
      /\ fst (axes_dataset_names v) = Ok (replicate (length (shape sig)) None)
      /\ (allowed_interpretation (signal_or_group_attr g sig "interpretation") = true ->
          fst (axes v) = Ok (replicate (length (shape sig)) None))
      /\ fst (is_scatter v) = Ok (Nat.eqb (length (shape sig)) 1).
Proof.
  intros Hnx Hs Hc Ha Hsa Herr Hint.
  pose proof (valid_without_axes g name sig Hnx Hs Hc Ha Herr) as Hvalid.
  split; [exact Hvalid|].
  set (v0 := new_instance g name sig).
  assert (signal v0 = Ok sig) as Hsig0 by (unfold signal; simpl; rewrite Hc; reflexivity).
  assert (forall v, group v = g -> signal_name v = name -> signal v = Ok sig) as Hsigv.
  { intros v Hg Hn. unfold signal. rewrite Hg, Hn, Hc. reflexivity. }
  assert (forall v, group v = g -> signal_name v = name ->
            allowed_interpretation (signal_or_group_attr g sig "interpretation") = true ->
            axes_value v = Ok (replicate (length (shape sig)) None)) as Hval.
  { intros v Hg Hn Hal. unfold axes_value, interpretation_value.
    rewrite (Hsigv v Hg Hn), Hg. simpl. rewrite Hal. simpl. rewrite Ha. reflexivity. }
  assert (forall v, group v = g -> signal_name v = name ->
            fst (axes_dataset_names v) = Ok (replicate (length (shape sig)) None)) as Hnames.
  { intros v Hg Hn. rewrite (axes_dataset_names_run v sig (Hsigv v Hg Hn)).
    unfold axes_attr_source. rewrite Hg, Ha, Hsa. reflexivity. }
  destruct (append_Nones_run (length (shape sig)) v0)
    as (v2 & Hrun & Hg2 & Hn2 & Hs2 & Ha2 & H12 & Hns2).
  assert (exists v,
            init_body v0 = (Ok tt, v) /\ group v = g /\ signal_name v = name
            /\ _is_scatter v = None
            /\ _axes v = (if Nat.eqb (length (shape sig)) 1 then Some [None] else None)
            /\ signal_is_1D v = Nat.eqb (length (shape sig)) 1
            /\ axes_names v = replicate (length (shape sig)) None)
    as (v & Hbody & Hg & Hn & Hsc & Hax & H1 & Hns).
  { change init_body with (bind axes_dataset_names init_rest). unfold bind at 1.
    rewrite (axes_dataset_names_run v0 sig Hsig0). unfold axes_attr_source.
    change (group v0) with g. rewrite Ha, Hsa.
    unfold init_rest, bind at 1. rewrite Hrun. unfold bind at 1, get. rewrite H12.
    change (signal_is_1D v0) with (Nat.eqb (length (shape sig)) 1).
    destruct (Nat.eqb (length (shape sig)) 1) eqn:Hnd.
    - apply Nat.eqb_eq in Hnd. unfold bind. rewrite axes_run, Ha2.
      change (_axes v0) with (@None (list (option axis_t))).
      rewrite (Hval v2 Hg2 Hn2 (Hint Hnd)), Hnd. simpl replicate. unfold modify.
      eexists. split; [reflexivity|]. simpl. split_and!; try done.
      rewrite Hns2, Hnd. reflexivity.
    - unfold modify. eexists. split; [reflexivity|]. simpl. split_and!; done. }
  exists v. split_and!.
  - unfold NXdata_init. rewrite Hvalid, Hs, Hc.
    change (mkNXdata g name None None _ _ _ _ []) with v0. rewrite Hbody, Hg. reflexivity.
  - exact Hns.
  - exact H1.
  - exact (Hnames v Hg Hn).
  - intros Hal. rewrite axes_run.
    destruct (_axes v) as [a|] eqn:Hcached.
    + destruct (Nat.eqb (length (shape sig)) 1) eqn:Hnd; [|discriminate].
      apply Nat.eqb_eq in Hnd. rewrite Hnd. simpl. congruence.
    + rewrite (Hval v Hg Hn Hal). reflexivity.
  - destruct (Nat.eqb (length (shape sig)) 1) eqn:Hnd.
    + destruct (is_scatter_1D v sig Hsc H1 (Hsigv v Hg Hn)) as (r & v' & Hrun' & _ & Hmatch).
      rewrite Hrun'. unfold axes_outcome in Hmatch. rewrite Hax in Hmatch.
      destruct Hmatch as (_ & Hok & Htot).
      destruct Htot as [b ->]; [repeat constructor|].
      destruct (Hok b eq_refl) as (-> & _). reflexivity.
    + rewrite (is_scatter_not_1D v Hsc H1). reflexivity.
Qed.

Lemma view_without_axes_witness :
  is_valid_NXdata plain_image_group = Ok true
  /\ exists v,
      NXdata_init plain_image_group = (Ok v, plain_image_group)
      /\ axes_names v = [None; None]
      /\ signal_is_1D v = false
      /\ fst (axes_dataset_names v) = Ok [None; None]
      /\ (allowed_interpretation
            (signal_or_group_attr plain_image_group (mkDataset [5; 5] ∅ []) "interpretation")
          = true ->
          fst (axes v) = Ok [None; None])
      /\ fst (is_scatter v) = Ok false.
Proof.
  apply (view_without_axes plain_image_group "s" (mkDataset [5; 5] ∅ [])).
  - vm_compute. reflexivity.
  - vm_compute. reflexivity.
  - vm_compute. reflexivity.
  - vm_compute. reflexivity.
  - vm_compute. reflexivity.
  - intros e He. vm_compute in He. discriminate.
  - intros H. vm_compute in H. discriminate.
Defined.

(** ** interpretation *)

Lemma allowed_is_INTERPDIM_key (s : string) :
  allowed_interpretation (Some (AStr s)) = true ->
  exists n, INTERPDIM s = Some n /\ (n <= 2)%nat.
Proof.
  unfold allowed_interpretation, INTERPDIM.
  destruct (String.eqb s "scalar"); [intros _; exists 0%nat; split; [reflexivity | lia]|].
  destruct (String.eqb s "spectrum"); [intros _; exists 1%nat; split; [reflexivity | lia]|].
  destruct (String.eqb s "image"); [intros _; exists 2%nat; split; [reflexivity | lia]|].
  destruct (String.eqb s "vertex"); [intros _; exists 1%nat; split; [reflexivity | lia]|].
  discriminate.
Qed.

(** X10: [interpretation] reads [@interpretation] on the signal, and on
    the group only when the signal has none; what it returns is [None] or
    a string that is a key of [INTERPDIM]; for any other value of the
    attribute it raises TypeError instead of returning it; it never
    changes the instance. *)
Theorem interpretation_of_view (v : NXdata) (sig : h5dataset) :
  signal v = Ok sig ->
  (forall x, dattrs sig !! "interpretation" = Some x ->
     allowed_interpretation (Some x) = true -> interpretation v = (Ok (Some x), v))
  /\ (dattrs sig !! "interpretation" = None ->
      allowed_interpretation (attrs (group v) !! "interpretation") = true ->
      interpretation v = (Ok (attrs (group v) !! "interpretation"), v))
  /\ (forall x, fst (interpretation v) = Ok (Some x) ->
        exists s n, x = AStr s /\ INTERPDIM s = Some n /\ (n <= 2)%nat)
  /\ (allowed_interpretation (signal_or_group_attr (group v) sig "interpretation") = false ->
      interpretation v = (Raise TypeError, v)).
Proof.
  intros Hsig. rewrite interpretation_run. unfold interpretation_value. rewrite Hsig.
  cbn [rbind fst]. split_and!.
  - intros x Hx Hal. unfold signal_or_group_attr. rewrite Hx, Hal. reflexivity.
  - intros Hx Hal. unfold signal_or_group_attr. rewrite Hx, Hal. reflexivity.
  - intros x.
    destruct (allowed_interpretation (signal_or_group_attr (group v) sig "interpretation"))
      eqn:Hal; cbn [negb fst]; [|discriminate].
    intros [= Hx]. rewrite Hx in Hal.
    destruct x as [s|z|l]; try discriminate.
    destruct (allowed_is_INTERPDIM_key s Hal) as (n & Hn & Hle). eauto.
  - intros Hal. rewrite Hal. reflexivity.
Qed.

Lemma interpretation_of_view_witness :
  exists v sig,
    fst (NXdata_init (from_file spectra_group)) = Ok v
    /\ signal v = Ok sig
    /\ interpretation v = (Ok (Some (AStr "spectrum")), v).
Proof.
  eexists (mkNXdata (from_file spectra_group) "s" (Some false) None false false true false
             [None; Some (AStr "energy")]), _.
  split; [vm_compute; reflexivity|].
  split; [vm_compute; reflexivity|].
  match goal with
  | |- interpretation ?v = _ =>
    destruct (interpretation_of_view v
                (mkDataset [2; 10] (list_to_map [("interpretation", AStr "spectrum")]) []))
      as [H _]; [vm_compute; reflexivity|]
  end.
  apply H; vm_compute; reflexivity.
Defined.

(** ** get_axis_errors by long name *)

Lemma find_long_name_Some (g : h5group) (alias : string) (items : list string) :
  forall item,
    find_long_name g items alias = Some item ->
    exists n, lookup_child (children g) item = Some n
              /\ node_attrs n !! "long_name" = Some (AStr alias).
Proof.
  induction items as [|i items IH]; intros item; simpl; [discriminate|].
  destruct (lookup_child (children g) i) as [n|] eqn:Hi; [|apply IH].
  destruct (node_attrs n !! "long_name") as [[s|z|l]|] eqn:Hln; try apply IH.
  destruct (String.eqb s alias) eqn:Hs; [|apply IH].
  apply String.eqb_eq in Hs. subst s. intros [= <-]. eauto.
Qed.

(** The loop over the members stops at the first one that has the name
    as [@long_name]. *)
Lemma find_long_name_first (g : h5group) (alias item : string)
    (before after : list string) :
  has_long_name g item alias ->
  Forall (fun x => ~ has_long_name g x alias) before ->
  find_long_name g (before ++ item :: after) alias = Some item.
Proof.
  intros (n & Hn & Hln) Hbefore. induction Hbefore as [|x before Hx _ IH]; simpl.
  - rewrite Hn, Hln, String.eqb_refl. reflexivity.
  - destruct (lookup_child (children g) x) as [m|] eqn:Hm; [|exact IH].
    destruct (node_attrs m !! "long_name") as [[s|z|l]|] eqn:Hs; try exact IH.
    destruct (String.eqb s alias) eqn:Heq; [|exact IH].
    apply String.eqb_eq in Heq. subst s. exfalso. apply Hx. exists m. done.
Qed.

(** X11: a name that is no member of the group designates the first
    member, in the order of iteration, whose [@long_name] is that name:
    [get_axis_errors] gives for the long name what it gives for that
    member, whatever the members that follow; a name that is a member is
    never taken as a long name. *)
Theorem get_axis_errors_by_long_name (v : NXdata) (alias : string) :
  (contains (group v) (Some alias) = true ->
   resolve_axis_name (group v) alias = alias)
  /\ (forall before item after,
        contains (group v) (Some alias) = false ->
        map fst (children (group v)) = before ++ item :: after ->
        has_long_name (group v) item alias ->
        Forall (fun x => ~ has_long_name (group v) x alias) before ->
        resolve_axis_name (group v) alias = item
        /\ get_axis_errors v alias = get_axis_errors v item).
Proof.
  split.
  - intros Hin. unfold resolve_axis_name. rewrite Hin. reflexivity.
  - intros before item after Hout Hitems Hitem Hbefore.
    pose proof (find_long_name_first (group v) alias item before after Hitem Hbefore) as Hfind.
    rewrite <- Hitems in Hfind.
    destruct Hitem as (n & Hn & Hln).
    assert (resolve_axis_name (group v) alias = item) as Halias.
    { unfold resolve_axis_name. rewrite Hout, Hfind. reflexivity. }
    assert (resolve_axis_name (group v) item = item) as Hitem.
    { unfold resolve_axis_name, contains. rewrite Hn. reflexivity. }
    split; [exact Halias|].
    unfold get_axis_errors. rewrite Halias, Hitem. reflexivity.
Qed.

Lemma get_axis_errors_by_long_name_witness :
  fst (NXdata_init shared_long_name_group) = Ok shared_long_name_view
  /\ get_axis_errors shared_long_name_view "L" = get_axis_errors shared_long_name_view "p"
  /\ get_axis_errors shared_long_name_view "p" = Ok (Some (AxNode "p_errors"))
  /\ get_axis_errors shared_long_name_view "q" = Ok None.
Proof.
  split; [vm_compute; reflexivity|].
  split; [|split; vm_compute; reflexivity].
  destruct (get_axis_errors_by_long_name shared_long_name_view "L") as [_ H].
  apply (H ["s"] "p" ["q"; "p_errors"]).
  - vm_compute; reflexivity.
  - reflexivity.
  - eexists. split; vm_compute; reflexivity.
  - constructor; [|constructor].
    intros (n & Hn & Hln). vm_compute in Hn. injection Hn as <-.
    vm_compute in Hln. discriminate.
Defined.

(** ** The functions of the module on an invalid group *)

Lemma on_new_view_raises {A} (g : h5group) (m : M A) (e : exn) :
  fst (NXdata_init g) = Raise e -> snd (NXdata_init g) = g ->
  on_new_view g m = (Raise e, g).
Proof.
  unfold on_new_view. destruct (NXdata_init g) as [[v|e'] g']; simpl; [discriminate|].
  intros [= ->] ->. reflexivity.
Qed.

Lemma init_refused (g : h5group) (e : exn) :
  (is_valid_NXdata g = Ok false /\ e = TypeError) \/ is_valid_NXdata g = Raise e ->
  fst (NXdata_init g) = Raise e /\ snd (NXdata_init g) = g.
Proof.
  unfold NXdata_init. intros [[H ->]|H]; rewrite H; done.
Qed.

(** X12: on a group that the validator refuses, each of the fourteen
    functions of the module raises TypeError and leaves the store as it
    was; when the validator raises, each of them raises the same
    exception. *)
Theorem functions_refuse_invalid_group (g : h5group) (e : exn) (axis_name : string) :
  (is_valid_NXdata g = Ok false /\ e = TypeError) \/ is_valid_NXdata g = Raise e ->
  nxdata.get_signal g = (Raise e, g)
  /\ nxdata.get_interpretation g = (Raise e, g)
  /\ nxdata.get_axes g = (Raise e, g)
  /\ nxdata.get_axes_dataset_names g = (Raise e, g)
  /\ nxdata.get_axes_names g = (Raise e, g)
  /\ nxdata.get_axis_errors g axis_name = (Raise e, g)
  /\ nxdata.get_signal_errors g = (Raise e, g)
  /\ nxdata.signal_is_0D g = (Raise e, g)
  /\ nxdata.signal_is_1D g = (Raise e, g)
  /\ nxdata.signal_is_2D g = (Raise e, g)
  /\ nxdata.signal_is_3D g = (Raise e, g)
  /\ nxdata.is_scatter g = (Raise e, g)
  /\ nxdata.is_x_y_value_scatter g = (Raise e, g)
  /\ nxdata.is_unsupported_scatter g = (Raise e, g).
Proof.
  intros H. destruct (init_refused g e H) as [Hr Hg].
  split_and!; apply on_new_view_raises; assumption.
Qed.

Lemma functions_refuse_invalid_group_witness :
  nxdata.get_axes (two_axes_group [Some "a"; Some "b"])
  = (Raise TypeError, two_axes_group [Some "a"; Some "b"]).
Proof.
  destruct (functions_refuse_invalid_group (two_axes_group [Some "a"; Some "b"])
              TypeError "a") as (_ & _ & H & _).
  - left. split; [vm_compute; reflexivity | reflexivity].
  - exact H.
Defined.

(** ** The number of axes of a view *)

(** X13: on a constructed view, [axes] has as many entries as the signal
    has dimensions, or as [@axes] lists names when those are more; the
    latter cannot be for a signal of two dimensions or more, for which it
    has one entry per dimension. *)
Theorem view_axes_length (g : h5group) (v v' : NXdata) (sig : h5dataset)
    (ax : list (option axis_t)) :
  fst (NXdata_init g) = Ok v ->
  signal v = Ok sig ->
  axes v = (Ok ax, v') ->
  (attrs g !! "axes" = None -> length ax = length (shape sig))
  /\ (forall a, attrs g !! "axes" = Some a ->
        exists names, as_names a = Ok names
          /\ length ax = Nat.max (length (shape sig)) (length names))
  /\ ((2 <= length (shape sig))%nat -> length ax = length (shape sig)).
Proof.
  intros Hinit Hsig Hax.
  destruct (init_view g v Hinit)
    as (name & sig0 & sig' & Hvalid & Hs & Hc & Hname & Hsig' & _ & Hcoh & Hstore & Hno & _).
  rewrite Hsig in Hsig'. injection Hsig' as <-.
  destruct Hcoh as (Hcache & _ & _).
  assert (axes_value v = Ok ax) as Hval.
  { rewrite axes_run in Hax. destruct (_axes v) as [a0|] eqn:Ha0.
    - injection Hax as -> _. apply Hcache. reflexivity.
    - destruct (axes_value v); congruence. }
  assert (attrs g !! "axes" = None -> length ax = length (shape sig)) as Hnone.
  { intros Hattr.
    assert (attrs (group v) !! "axes" = None) as Hcur by (rewrite (Hno Hattr); exact Hattr).
    rewrite (axes_value_no_attr v sig ax Hsig Hcur Hval). apply length_replicate. }
  assert (forall a, attrs g !! "axes" = Some a ->
            exists names, as_names a = Ok names
              /\ length ax = Nat.max (length (shape sig)) (length names)
              /\ (Nat.ltb 1 (length (shape sig))
                  && Nat.ltb (length (shape sig)) (length names) = false)) as Hsome.
  { intros a Hattr. destruct (Hstore a Hattr) as [Hch Hat].
    assert (sig = sig0) as ->.
    { unfold signal in Hsig. rewrite Hch, Hname, Hc in Hsig. congruence. }
    assert (attrs (group v) !! "axes" = Some (written g a)) as Hcur
      by (rewrite Hat; apply lookup_insert_eq).
    destruct (axes_value_attr v sig0 (written g a) ax Hsig Hcur Hval)
      as (interp & Hint & Hcomp).
    destruct (validate_Valid_inv g Hvalid) as (name' & sig1 & _ & Hs' & Hc' & _ & Haxes).
    rewrite Hs in Hs'. injection Hs' as <-. rewrite Hc in Hc'. injection Hc' as <-.
    destruct (check_axes_attr_None_inv g sig0 a (Haxes a Hattr))
      as (names & unc & Hnames & Hmore & Hchk & _).
    exists names. split; [exact Hnames|]. split; [|exact Hmore].
    destruct (as_names_written g a names Hnames) as (cur & Hcurn & Hlen & _).
    destruct (compute_axes_Ok _ _ _ _ cur ax Hcurn Hcomp) as (pad & l1 & -> & Hent & Hpad).
    pose proof (Forall2_length _ _ _ Hent) as Hl1.
    rewrite length_app, length_replicate, <- Hl1, Hlen. rewrite Hlen in Hpad.
    destruct (Nat.eqb (length names) (length (shape sig0))) eqn:Hcmp.
    - apply Nat.eqb_eq in Hcmp. lia.
    - apply Nat.eqb_neq in Hcmp. destruct interp as [i|].
      + destruct Hpad as (n & _ & Hn & ->). lia.
      + subst pad.
        destruct (Nat.ltb (length names) (length (shape sig0))) eqn:Hlt.
        * exfalso. specialize (Hchk eq_refl). unfold check_interpretation in Hchk.
          unfold interpretation_value in Hint. rewrite Hsig in Hint. cbn [rbind] in Hint.
          assert (signal_or_group_attr (group v) sig0 "interpretation"
                  = signal_or_group_attr g sig0 "interpretation") as Heq.
          { unfold signal_or_group_attr. rewrite Hat, lookup_insert_ne by done. reflexivity. }
          rewrite Heq in Hint.
          destruct (signal_or_group_attr g sig0 "interpretation") as [[s|z|l]|];
            try discriminate.
          destruct (negb (allowed_interpretation (Some (AStr s)))); discriminate.
        * apply Nat.ltb_ge in Hlt. lia. }
  split_and!.
  - exact Hnone.
  - intros a Hattr. destruct (Hsome a Hattr) as (names & Hn & Hl & _). eauto.
  - intros H2. destruct (attrs g !! "axes") as [a|] eqn:Hattr.
    + destruct (Hsome a eq_refl) as (names & _ & Hl & Hmore).
      assert (Nat.ltb 1 (length (shape sig)) = true) as H1 by (apply Nat.ltb_lt; lia).
      rewrite H1 in Hmore. cbn [andb] in Hmore. apply Nat.ltb_ge in Hmore. lia.
    + apply Hnone. reflexivity.
Qed.

Lemma view_axes_length_witness :
  exists v ax v',
    fst (NXdata_init scatter_group) = Ok v
    /\ axes v = (Ok ax, v')
    /\ length ax = 2%nat.
Proof.
  exists scatter_view.
  destruct (axes scatter_view) as [[ax|e] v'] eqn:Hax; [|vm_compute in Hax; discriminate].
  exists ax, v'.
  assert (fst (NXdata_init scatter_group) = Ok scatter_view) as Hinit
    by (vm_compute; reflexivity).
  assert (exists sig, signal scatter_view = Ok sig /\ length (shape sig) = 1%nat) as (sig & Hsig & Hnd)
    by (eexists; split; vm_compute; reflexivity).
  split; [exact Hinit|]. split; [reflexivity|].
  destruct (view_axes_length scatter_group scatter_view v' sig ax Hinit Hsig Hax)
    as (_ & H & _).
  destruct (attrs scatter_group !! "axes") as [a|] eqn:Ha; [|vm_compute in Ha; discriminate].
  destruct (H a eq_refl) as (names & Hn & Hl).
  assert (as_names a = Ok [Some "x"; Some "y"]) as Hn'.
  { vm_compute in Ha. injection Ha as <-. reflexivity. }
  rewrite Hn in Hn'. injection Hn' as ->. rewrite Hl, Hnd. reflexivity.
Defined.

(** ** The names of the axes of a view *)

Lemma append_names_value (names : list (option string)) :
  forall v v' : NXdata,
    for_each names append_name v = (Ok tt, v') ->
    exists l, axes_names v' = axes_names v ++ l /\ Forall2 (shown_as (group v)) names l.
Proof.
  induction names as [|dsname names IH]; intros v v'.
  - simpl. unfold ret. intros [= <-]. exists []. rewrite app_nil_r. split; [reflexivity | constructor].
  - simpl. unfold bind at 1.
    assert (exists r v1, append_name dsname v = (r, v1) /\ group v1 = group v
              /\ (r = Ok tt ->
                  exists x, axes_names v1 = axes_names v ++ [x] /\ shown_as (group v) dsname x))
      as (r1 & v1 & Hrun & Hg & Hx).
    { unfold append_name. destruct dsname as [name|].
      - unfold bind, get, lift, modify, getitem.
        destruct (lookup_child (children (group v)) name) as [n|] eqn:Hn.
        + destruct (node_attrs n !! "long_name") as [ln|] eqn:Hln;
            eexists _, _; (split; [reflexivity|]); (split; [reflexivity|]); intros _;
            eexists; (split; [reflexivity|]); exists n; rewrite Hln; done.
        + eexists _, _. split; [reflexivity|]. split; [reflexivity | discriminate].
      - unfold modify. eexists _, _. split; [reflexivity|]. split; [reflexivity|].
        intros _. exists None. done. }
    rewrite Hrun. destruct r1 as [[]|e]; [|discriminate].
    intros Hrest. destruct (Hx eq_refl) as (x & Hnames & Hshown).
    destruct (IH v1 v' Hrest) as (l & Hl & Hall).
    exists (x :: l). split.
    + rewrite Hl, Hnames, <- app_assoc. reflexivity.
    + constructor; [exact Hshown|]. rewrite <- Hg. exact Hall.
Qed.

(** The write of the names changes no [@interpretation]. *)
Lemma interpretation_value_written (o : owner) (a : attr) (v : NXdata) :
  interpretation_value (after_write o a v) = interpretation_value v.
Proof.
  destruct o; [apply interpretation_value_after_write | | destruct a; reflexivity].
  destruct a as [s|z|l]; try reflexivity.
  unfold after_write. destruct (by_reference (group v)); [|reflexivity].
  unfold interpretation_value, signal. cbn [group signal_name set_group set_child_attr children].
  rewrite lookup_update_child, String.eqb_refl.
  destruct (lookup_child (children (group v)) (signal_name v)) as [[d|at_ m]|]; try reflexivity.
  cbn [fmap option_fmap option_map set_node_attr rbind]. unfold signal_or_group_attr.
  cbn [dattrs attrs]. rewrite lookup_insert_ne by done. reflexivity.
Qed.

(** After the write, the attribute is found where it was, as written. *)
Lemma after_write_source (o : owner) (a : attr) (v : NXdata) (sig : h5dataset) :
  signal v = Ok sig ->
  axes_attr_source (group v) sig = Some (a, o) ->
  exists sig',
    signal (after_write o a v) = Ok sig'
    /\ shape sig' = shape sig
    /\ axes_attr_source (group (after_write o a v)) sig' = Some (written (group v) a, o).
Proof.
  intros Hsig Hsrc.
  destruct (by_reference (group v)) eqn:Href.
  2:{ rewrite after_write_by_value by exact Href. exists sig.
      unfold written. rewrite Href. destruct a; done. }
  destruct a as [s|z|l]; try (exists sig; done).
  unfold axes_attr_source in Hsrc.
  destruct (attrs (group v) !! "axes") as [a0|] eqn:Hg.
  - injection Hsrc as -> <-. exists sig. unfold after_write, written. rewrite Href.
    split; [exact Hsig|]. split; [reflexivity|].
    unfold axes_attr_source. cbn [group set_group set_group_attr attrs].
    rewrite lookup_insert_eq. reflexivity.
  - destruct (dattrs sig !! "axes") as [a0|] eqn:Hd; [|discriminate].
    injection Hsrc as -> <-. unfold after_write, written. rewrite Href.
    unfold signal in *. cbn [group signal_name set_group set_child_attr children attrs].
    rewrite lookup_update_child, String.eqb_refl.
    destruct (lookup_child (children (group v)) (signal_name v)) as [[d|at_ m]|];
      try discriminate.
    injection Hsig as ->. cbn [fmap option_fmap option_map set_node_attr].
    eexists. split; [reflexivity|]. split; [reflexivity|].
    unfold axes_attr_source, set_child_attr. cbn [attrs dattrs].
    rewrite Hg, lookup_insert_eq. reflexivity.
Qed.

(** A second padding of the same names, once the scatter test is cached. *)
Lemma pad_names_again (ndims : nat) (names nm : list (option string))
    (vA v1 vB : NXdata) :
  pad_names ndims names vA = (Ok nm, v1) ->
  _is_scatter vB = _is_scatter v1 ->
  interpretation_value vB = interpretation_value vA ->
  fst (pad_names ndims names vB) = Ok nm.
Proof.
  intros Hrun Hsc Hint.
  destruct (decide (length names = ndims)) as [Hlen|Hlen].
  - rewrite pad_names_same in * by exact Hlen. injection Hrun as <- _. reflexivity.
  - rewrite pad_names_other in * by exact Hlen.
    destruct (is_scatter vA) as [[sc|e] vs] eqn:Hs; [|discriminate].
    pose proof (is_scatter_caches _ _ _ Hs) as Hcached.
    destruct (is_scatter_frame vA) as (r & vs' & Hs' & Hg & Hn & _).
    rewrite Hs in Hs'. injection Hs' as <- <-.
    assert (v1 = vs) as ->.
    { destruct (sc && Nat.eqb ndims 1); [congruence|].
      destruct (interpretation_value vs) as [interp|e]; [|congruence].
      destruct (interpdim_of interp) as [n|e]; [|congruence].
      destruct (negb (Nat.eqb (length names) n)); congruence. }
    rewrite (is_scatter_cached vB sc) by congruence.
    rewrite Hint, <- (interpretation_value_ext vA vs Hg Hn).
    destruct (sc && Nat.eqb ndims 1); [cbn [fst]; congruence|].
    destruct (interpretation_value vs) as [interp|e]; [|discriminate].
    destruct (interpdim_of interp) as [n|e]; [|discriminate].
    destruct (negb (Nat.eqb (length names) n)); cbn [fst]; congruence.
Qed.

(** What the constructor read is what the view answers. *)
Lemma view_names_stable (g : h5group) (v : NXdata) :
  fst (NXdata_init g) = Ok v ->
  exists names v1,
    init_rest names v1 = (Ok tt, v)
    /\ group v1 = group v
    /\ axes_names v1 = []
    /\ fst (axes_dataset_names v) = Ok names.
Proof.
  intros Hinit.
  destruct (init_run g v Hinit) as (name & sig0 & names & v1 & _ & _ & Hc & Hadn & Hrest).
  exists names, v1. split; [exact Hrest|].
  pose proof (keeps_init_rest group ltac:(done) ltac:(done) ltac:(done) names v1) as Hg.
  pose proof (keeps_init_rest signal_name ltac:(done) ltac:(done) ltac:(done) names v1) as Hn.
  pose proof (keeps_init_rest _is_scatter ltac:(done) ltac:(done) ltac:(done) names v1) as Hs.
  rewrite Hrest in Hg, Hn, Hs. cbn [snd] in Hg, Hn, Hs.
  pose proof (keeps_axes_dataset_names axes_names ltac:(done) ltac:(done) ltac:(done)
                (new_instance g name sig0)) as Han.
  pose proof (keeps_axes_dataset_names signal_name ltac:(done) ltac:(done) ltac:(done)
                (new_instance g name sig0)) as Hn0.
  rewrite Hadn in Han, Hn0. cbn [snd] in Han, Hn0.
  split; [symmetry; exact Hg|]. split; [exact Han|].
  assert (signal (new_instance g name sig0) = Ok sig0) as Hsig0.
  { unfold signal, new_instance. cbn [group signal_name]. rewrite Hc. reflexivity. }
  rewrite (axes_dataset_names_run _ sig0 Hsig0) in Hadn.
  destruct (axes_attr_source (group (new_instance g name sig0)) sig0) as [[a o]|] eqn:Hsrc.
  - destruct (as_names a) as [nm0|e] eqn:Hnm0; [|discriminate].
    destruct (after_write_source o a _ sig0 Hsig0 Hsrc) as (sigA & HsigA & Hshape & HsrcA).
    set (vA := after_write o a (new_instance g name sig0)) in *.
    pose proof (keeps_pad_names group ltac:(done) ltac:(done)
                  (length (shape sig0)) (map dot_to_None nm0) vA) as HgA.
    pose proof (keeps_pad_names signal_name ltac:(done) ltac:(done)
                  (length (shape sig0)) (map dot_to_None nm0) vA) as HnA.
    rewrite Hadn in HgA, HnA. cbn [snd] in HgA, HnA.
    assert (group v = group vA) as HgvA by congruence.
    assert (signal_name v = signal_name vA) as HnvA by congruence.
    assert (signal v = Ok sigA) as Hsigv by (rewrite (signal_ext vA v HgvA HnvA); exact HsigA).
    rewrite (axes_dataset_names_run v sigA Hsigv), HgvA, HsrcA.
    destruct (as_names_written (group (new_instance g name sig0)) a nm0 Hnm0)
      as (cur & Hcur & _ & Hmap & _).
    rewrite Hcur, Hmap, Hshape.
    apply (pad_names_again _ _ _ vA v1); [exact Hadn | |].
    + destruct (after_write_signal o (written (group (new_instance g name sig0)) a) v sigA Hsigv)
        as (_ & _ & _ & _ & Hsc & _).
      congruence.
    + rewrite interpretation_value_written. apply interpretation_value_ext; assumption.
  - injection Hadn as <- <-.
    assert (signal v = Ok sig0) as Hsigv.
    { rewrite (signal_ext (new_instance g name sig0) v) by congruence. exact Hsig0. }
    rewrite (axes_dataset_names_run v sig0 Hsigv), Hg, Hsrc. reflexivity.
Qed.

(** X14: on a constructed view, [axes_dataset_names] returns, and
    [axes_names] is that list with each dataset shown by its [@long_name]
    when it has one and by its name otherwise (and [None] kept); in
    particular every name in [axes_dataset_names] is a member of the
    group, and both lists have the same length. *)
Theorem view_axes_names (g : h5group) (v : NXdata) :
  fst (NXdata_init g) = Ok v ->
  exists names,
    fst (axes_dataset_names v) = Ok names
    /\ Forall2 (shown_as (group v)) names (axes_names v)
    /\ length (axes_names v) = length names.
Proof.
  intros Hinit.
  destruct (view_names_stable g v Hinit) as (names & v1 & Hrest & Hg & Hnil & Hstable).
  exists names. split; [exact Hstable|].
  assert (Forall2 (shown_as (group v)) names (axes_names v)) as Hall.
  { unfold init_rest, bind at 1 in Hrest.
    destruct (for_each names append_name v1) as [[[]|e] v2] eqn:Hloop; [|discriminate].
    destruct (append_names_value names v1 v2 Hloop) as (l & Hl & Hall).
    rewrite Hnil in Hl. cbn [app] in Hl.
    assert (axes_names v = axes_names v2) as ->.
    { revert Hrest. unfold bind at 1, get. destruct (signal_is_1D v2).
      - unfold bind. destruct (axes v2) as [[ax|e] v3] eqn:Hax; [|discriminate].
        pose proof (keeps_axes axes_names ltac:(done) v2) as Hk. rewrite Hax in Hk.
        unfold modify. intros [= <-]. exact Hk.
      - unfold modify. intros [= <-]. reflexivity. }
    rewrite Hl, <- Hg. exact Hall. }
  split; [exact Hall|]. symmetry. exact (Forall2_length _ _ _ Hall).
Qed.

Lemma view_axes_names_witness :
  exists names,
    fst (NXdata_init long_name_group) = Ok long_name_view
    /\ fst (axes_dataset_names long_name_view) = Ok names
    /\ Forall2 (shown_as (group long_name_view)) names (axes_names long_name_view).
Proof.
  assert (fst (NXdata_init long_name_group) = Ok long_name_view) as Hinit
    by (vm_compute; reflexivity).
  destruct (view_axes_names long_name_group long_name_view Hinit) as (names & Hn & Hall & _).
  exists names. done.
Defined.

(** ** What the constructor leaves in the store *)

Lemma axes_dataset_names_store (v : NXdata) (sig : h5dataset) :
  signal v = Ok sig ->
  group (snd (axes_dataset_names v)) = group v
  \/ exists a o, axes_attr_source (group v) sig = Some (a, o)
                 /\ group (snd (axes_dataset_names v)) = group (after_write o a v).
Proof.
  intros Hsig. rewrite (axes_dataset_names_run v sig Hsig).
  destruct (axes_attr_source (group v) sig) as [[a o]|]; [|left; reflexivity].
  destruct (as_names a) as [names|e]; [|left; reflexivity].
  right. exists a, o. split; [reflexivity|].
  apply (keeps_pad_names group); done.
Qed.

Lemma init_body_store (v0 : NXdata) :
  group (snd (init_body v0)) = group (snd (axes_dataset_names v0)).
Proof.
  change init_body with (bind axes_dataset_names init_rest). unfold bind.
  destruct (axes_dataset_names v0) as [[names|e] v1]; [|reflexivity].
  apply (keeps_init_rest group); done.
Qed.

(** X15: whatever the constructor answers, the store is afterwards as it
    was, or differs by one attribute: [@axes] of the group, or [@axes] of
    the signal when the group has none, which was a list handed out by
    reference and now holds [None] where it held ["."].  Nothing else of
    the store is ever written, and a store that hands out copies is left
    as it was. *)
Theorem constructor_store (g : h5group) :
  (snd (NXdata_init g) = g
   \/ (exists l,
         attrs g !! "axes" = Some (AList l)
         /\ snd (NXdata_init g) = set_group_attr "axes" (AList (map dot_to_None l)) g)
   \/ (exists name sig l,
         attrs g !! "axes" = None
         /\ attrs g !! "signal" = Some (AStr name)
         /\ lookup_child (children g) name = Some (Dset sig)
         /\ dattrs sig !! "axes" = Some (AList l)
         /\ snd (NXdata_init g)
            = set_child_attr name "axes" (AList (map dot_to_None l)) g))
  /\ (by_reference g = false -> snd (NXdata_init g) = g).
Proof.
  assert (snd (NXdata_init g) = g
          \/ exists name sig a o,
               attrs g !! "signal" = Some (AStr name)
               /\ lookup_child (children g) name = Some (Dset sig)
               /\ axes_attr_source g sig = Some (a, o)
               /\ snd (NXdata_init g) = group (after_write o a (new_instance g name sig)))
    as [Hsame|(name & sig & a & o & Hs & Hc & Hsrc & Hstore)].
  { unfold NXdata_init. destruct (is_valid_NXdata g) as [[|]|e]; try (left; reflexivity).
    destruct (attrs g !! "signal") as [[name|z|l]|] eqn:Hs; try (left; reflexivity).
    destruct (lookup_child (children g) name) as [[sig|at_ m]|] eqn:Hc; try (left; reflexivity).
    fold (new_instance g name sig).
    assert (signal (new_instance g name sig) = Ok sig) as Hsig.
    { unfold signal, new_instance. cbn [group signal_name]. rewrite Hc. reflexivity. }
    pose proof (init_body_store (new_instance g name sig)) as Hbody.
    destruct (init_body (new_instance g name sig)) as [r v]. cbn [snd] in Hbody.
    destruct (axes_dataset_names_store _ sig Hsig) as [Hg|(a & o & Hsrc & Hg)].
    - left. destruct r; cbn [snd]; rewrite Hbody, Hg; reflexivity.
    - right. exists name, sig, a, o. split; [reflexivity|]. split; [exact Hc|].
      split; [exact Hsrc|]. destruct r; cbn [snd]; rewrite Hbody, Hg; reflexivity. }
  - split; [left; exact Hsame | intros _; exact Hsame].
  - assert (by_reference g = false -> snd (NXdata_init g) = g) as Hvalue.
    { intros Href. rewrite Hstore. rewrite after_write_by_value by exact Href. reflexivity. }
    split; [|exact Hvalue].
    destruct (by_reference g) eqn:Href; [|left; apply Hvalue; reflexivity].
    unfold axes_attr_source in Hsrc.
    destruct a as [s|z|l].
    + left. exact Hstore.
    + left. exact Hstore.
    + destruct (attrs g !! "axes") as [a0|] eqn:Ha.
      * injection Hsrc as -> <-. right. left. exists l. split; [reflexivity|].
        rewrite Hstore. unfold after_write. cbn [group new_instance]. rewrite Href.
        reflexivity.
      * destruct (dattrs sig !! "axes") as [a0|] eqn:Hd; [|discriminate].
        injection Hsrc as -> <-. right. right. exists name, sig, l.
        split_and!; try done.
        rewrite Hstore. unfold after_write. cbn [group new_instance]. rewrite Href.
        reflexivity.
Qed.

(** ** A second view over an in-memory group *)

Lemma check_axis_children (g g' : h5group) (sig : h5dataset)
    (unc : option (list (option string))) (st : loop_state) (i : nat)
    (axis_name : option string) :
  children g' = children g -> by_reference g' = by_reference g ->
  check_axis g' sig unc st i axis_name = check_axis g sig unc st i axis_name.
Proof.
  intros Hch Href.
  unfold check_axis, check_axis_errors, axis_length, numpy_int, getitem, contains.
  rewrite Hch, Href. reflexivity.
Qed.

(** Once ["."] has become [None], the loop over the axes stops at it. *)
Lemma check_axes_dotted (g g' : h5group) (sig : h5dataset)
    (unc : option (list (option string))) (l : list (option string)) :
  children g' = children g -> by_reference g' = by_reference g ->
  forall st i,
    check_axes g sig unc st i l = Ok None ->
    In (Some ".") l ->
    exists w, check_axes g' sig unc st i (map dot_to_None l) = Ok (Some w).
Proof.
  intros Hch Href. induction l as [|x l IH]; intros st i Hrun Hin; [destruct Hin|].
  cbn [map check_axes] in *. unfold dot_to_None at 1.
  destruct (is_dot x) eqn:Hdot.
  - exists (AxisNotFound None). reflexivity.
  - rewrite (check_axis_children g g' sig unc st i x Hch Href).
    destruct Hin as [->|Hin]; [discriminate|].
    destruct (check_axis g sig unc st i x) as [[st'|w]|e]; cbn [rbind] in *;
      try discriminate.
    apply IH; assumption.
Qed.

Lemma check_axes_attr_dotted (g : h5group) (sig : h5dataset) (l : list (option string)) :
  check_axes_attr g sig (AList l) = Ok None ->
  In (Some ".") l ->
  exists w,
    check_axes_attr (set_group_attr "axes" (AList (map dot_to_None l)) g) sig
      (AList (map dot_to_None l)) = Ok (Some w).
Proof.
  intros Hrun Hin. unfold check_axes_attr in *. cbn [as_names rbind] in *.
  rewrite length_map. unfold uncertainties_of, rbind in *.
  assert (forall n, check_interpretation
                      (set_group_attr "axes" (AList (map dot_to_None l)) g) sig n
                    = check_interpretation g sig n) as Hint.
  { intros n. unfold check_interpretation, signal_or_group_attr, set_group_attr.
    cbn [attrs]. rewrite lookup_insert_ne by done. reflexivity. }
  assert (group_or_signal_attr (set_group_attr "axes" (AList (map dot_to_None l)) g)
            sig "uncertainties"
          = group_or_signal_attr g sig "uncertainties") as Hunc.
  { unfold group_or_signal_attr, set_group_attr. cbn [attrs].
    rewrite lookup_insert_ne by done. reflexivity. }
  rewrite Hint, Hunc.
  destruct (Nat.ltb 1 (length (shape sig)) && Nat.ltb (length (shape sig)) (length l));
    [discriminate|].
  destruct (if Nat.ltb (length l) (length (shape sig))
            then check_interpretation g sig (length l) else Ok None) as [[w|]|e];
    try discriminate.
  destruct (group_or_signal_attr g sig "uncertainties") as [u|].
  - destruct (as_names u) as [unc|e]; [|discriminate].
    destruct (negb (Nat.eqb (length unc) (length l))); [discriminate|].
    apply (check_axes_dotted g); [reflexivity | reflexivity | exact Hrun | exact Hin].
  - apply (check_axes_dotted g); [reflexivity | reflexivity | exact Hrun | exact Hin].
Qed.

(** The store that the constructor leaves is the one that
    [axes_dataset_names] leaves. *)
Lemma init_store_is (g : h5group) (name : string) (sig : h5dataset) :
  is_valid_NXdata g = Ok true ->
  attrs g !! "signal" = Some (AStr name) ->
  lookup_child (children g) name = Some (Dset sig) ->
  snd (NXdata_init g) = group (snd (axes_dataset_names (new_instance g name sig))).
Proof.
  intros Hvalid Hs Hc. unfold NXdata_init. rewrite Hvalid, Hs, Hc.
  fold (new_instance g name sig).
  pose proof (init_body_store (new_instance g name sig)) as Hbody.
  destruct (init_body (new_instance g name sig)) as [[u|e] v]; exact Hbody.
Qed.

(** X16: building a view over a valid in-memory group whose [@axes] is a
    list with a ["."] leaves a group that is no longer accepted: the
    validator does not answer True on it any more, and a second
    construction on the same group raises TypeError. *)
Theorem second_view_refused (g : h5group) (l : list (option string)) :
  is_valid_NXdata g = Ok true ->
  by_reference g = true ->
  attrs g !! "axes" = Some (AList l) ->
  In (Some ".") l ->
  snd (NXdata_init g) = set_group_attr "axes" (AList (map dot_to_None l)) g
  /\ is_valid_NXdata (snd (NXdata_init g)) <> Ok true
  /\ fst (NXdata_init (snd (NXdata_init g))) = Raise TypeError.
Proof.
  intros Hvalid Href Ha Hin.
  destruct (validate_Valid_inv g (is_valid_true g Hvalid))
    as (name & sig & Hnx & Hs & Hc & Herr & Haxes).
  assert (snd (NXdata_init g) = set_group_attr "axes" (AList (map dot_to_None l)) g) as Hstore.
  { rewrite (init_store_is g name sig Hvalid Hs Hc).
    assert (signal (new_instance g name sig) = Ok sig) as Hsig.
    { unfold signal, new_instance. cbn [group signal_name]. rewrite Hc. reflexivity. }
    rewrite (axes_dataset_names_run _ sig Hsig).
    unfold axes_attr_source. cbn [group new_instance]. rewrite Ha. cbn [as_names].
    rewrite (keeps_pad_names group) by done.
    unfold after_write. cbn [group new_instance]. rewrite Href. reflexivity. }
  destruct (check_axes_attr_dotted g sig l (Haxes _ Ha) Hin) as (w & Hw).
  assert (is_valid_NXdata (snd (NXdata_init g)) = Ok false) as Hrefused.
  { rewrite Hstore. unfold is_valid_NXdata, validate, set_group_attr at 1 2 3 4.
    cbn [attrs children].
    rewrite (lookup_insert_ne _ "axes" "NX_class") by done.
    rewrite (lookup_insert_ne _ "axes" "signal") by done.
    rewrite lookup_insert_eq, Hnx, Hs, Hc.
    cbn [is_NXdata_class negb]. rewrite String.eqb_refl. cbn [negb].
    rewrite Hw. reflexivity. }
  split; [exact Hstore|]. split; [rewrite Hrefused; discriminate|].
  unfold NXdata_init at 1. rewrite Hrefused. reflexivity.
Qed.

Lemma second_view_refused_witness :
  exists v,
    fst (NXdata_init dot_axes_group) = Ok v
    /\ fst (NXdata_init (snd (NXdata_init dot_axes_group))) = Raise TypeError.
Proof.
  eexists. split; [vm_compute; reflexivity|].
  destruct (second_view_refused dot_axes_group [Some "."; Some "x"]) as (_ & _ & H).
  - vm_compute; reflexivity.
  - reflexivity.
  - vm_compute; reflexivity.
  - left; reflexivity.
  - exact H.
Defined.

Lemma constructor_store_witness :
  snd (NXdata_init (from_file dot_axes_group)) = from_file dot_axes_group.
Proof.
  apply (proj2 (constructor_store (from_file dot_axes_group))). reflexivity.
Defined.

(** ** The functions of the module on a group read from a file *)

Lemma init_store_by_value (g : h5group) :
  by_reference g = false -> snd (NXdata_init g) = g.
Proof.
  intros Href. destruct (is_valid_NXdata g) as [[|]|e] eqn:Hvalid;
    try (unfold NXdata_init; rewrite Hvalid; reflexivity).
  destruct (validate_Valid_inv g (is_valid_true g Hvalid)) as (name & sig & _ & Hs & Hc & _).
  rewrite (init_store_is g name sig Hvalid Hs Hc).
  assert (signal (new_instance g name sig) = Ok sig) as Hsig.
  { unfold signal, new_instance. cbn [group signal_name]. rewrite Hc. reflexivity. }
  destruct (axes_dataset_names_store _ sig Hsig) as [Hg|(a & o & _ & Hg)]; rewrite Hg.
  - reflexivity.
  - rewrite after_write_by_value by exact Href. reflexivity.
Qed.

Lemma axes_dataset_names_by_value (v : NXdata) :
  by_reference (group v) = false -> group (snd (axes_dataset_names v)) = group v.
Proof.
  intros Href. destruct (signal v) as [sig|e] eqn:Hsig.
  - destruct (axes_dataset_names_store v sig Hsig) as [Hg|(a & o & _ & Hg)]; rewrite Hg.
    + reflexivity.
    + rewrite after_write_by_value by exact Href. reflexivity.
  - unfold axes_dataset_names, bind, get, lift. rewrite Hsig. reflexivity.
Qed.

Lemma on_new_view_by_value {A} (g : h5group) (m : M A) :
  by_reference g = false ->
  (forall v, group v = g -> group (snd (m v)) = g) ->
  snd (on_new_view g m) = g.
Proof.
  intros Href Hm. pose proof (init_store_by_value g Href) as Hstore.
  pose proof (init_store g) as Hview. unfold on_new_view.
  destruct (NXdata_init g) as [[v|e] g']; cbn [fst snd] in *; [|exact Hstore].
  specialize (Hview v eq_refl). specialize (Hm v ltac:(congruence)).
  destruct (m v) as [r v']. exact Hm.
Qed.

(** X17: a group read from a file is never written: each of the fourteen
    functions of the module, whether it returns or raises, leaves the
    store exactly as it was. *)
Theorem functions_keep_file_store (g : h5group) (axis_name : string) :
  by_reference g = false ->
  snd (nxdata.get_signal g) = g
  /\ snd (nxdata.get_interpretation g) = g
  /\ snd (nxdata.get_axes g) = g
  /\ snd (nxdata.get_axes_dataset_names g) = g
  /\ snd (nxdata.get_axes_names g) = g
  /\ snd (nxdata.get_axis_errors g axis_name) = g
  /\ snd (nxdata.get_signal_errors g) = g
  /\ snd (nxdata.signal_is_0D g) = g
  /\ snd (nxdata.signal_is_1D g) = g
  /\ snd (nxdata.signal_is_2D g) = g
  /\ snd (nxdata.signal_is_3D g) = g
  /\ snd (nxdata.is_scatter g) = g
  /\ snd (nxdata.is_x_y_value_scatter g) = g
  /\ snd (nxdata.is_unsupported_scatter g) = g.
Proof.
  intros Href.
  split_and!; apply on_new_view_by_value; try exact Href; intros v Hg.
  - unfold lift. exact Hg.
  - rewrite interpretation_run. exact Hg.
  - rewrite (keeps_axes group) by done. exact Hg.
  - rewrite axes_dataset_names_by_value by congruence. exact Hg.
  - exact Hg.
  - unfold lift. exact Hg.
  - exact Hg.
  - exact Hg.
  - exact Hg.
  - exact Hg.
  - exact Hg.
  - rewrite (keeps_is_scatter group) by done. exact Hg.
  - destruct (scatter_kind_frame (fun n => Nat.eqb n 2) v) as (r & v' & Hrun & Hsame & _).
    unfold is_x_y_value_scatter. rewrite Hrun. cbn [snd]. congruence.
  - destruct (scatter_kind_frame (fun n => Nat.ltb 2 n) v) as (r & v' & Hrun & Hsame & _).
    unfold is_unsupported_scatter. rewrite Hrun. cbn [snd]. congruence.
Qed.

Lemma functions_keep_file_store_witness :
  nxdata.get_axes_dataset_names (from_file dot_axes_group)
  = (Ok [None; Some "x"], from_file dot_axes_group).
Proof.
  destruct (functions_keep_file_store (from_file dot_axes_group) "x" eq_refl)
    as (_ & _ & _ & H & _).
  destruct (nxdata.get_axes_dataset_names (from_file dot_axes_group)) as [r g'] eqn:Hrun.
  cbn [snd] in H. subst g'.
  assert (r = fst (nxdata.get_axes_dataset_names (from_file dot_axes_group))) as ->
    by (rewrite Hrun; reflexivity).
  vm_compute. reflexivity.
Defined.

(** ** The length of a trimmed axis *)

Lemma getslice_in_range (d : h5dataset) (n f l : Z) :
  shape d = [n] ->
  (0 <= f)%Z -> (f <= l + 1)%Z -> (l < n)%Z ->
  getslice d f (l + 1)
  = Ok (AxArray [l + 1 - f]
          (take (Z.to_nat (l + 1 - f)) (drop (Z.to_nat f) (values d)))).
Proof.
  intros Hshape H0 Hfl Hln. unfold getslice, slice_index. rewrite Hshape.
  assert (Z.ltb f 0 = false) as -> by (apply Z.ltb_ge; lia).
  assert (Z.ltb (l + 1) 0 = false) as -> by (apply Z.ltb_ge; lia).
  rewrite (Z.min_l f n), (Z.min_l (l + 1) n), (Z.max_r 0 (l + 1 - f)) by lia.
  change (prod_shape []) with 1%Z. rewrite !Z.mul_1_r. reflexivity.
Qed.

Lemma wrap_int64_small (z : Z) :
  (- 2 ^ 63 <= z < 2 ^ 63)%Z -> wrap_int64 z = z.
Proof. intros Hz. unfold wrap_int64. rewrite Z.mod_small; lia. Qed.

Lemma int_add_small (np : bool) (a b : Z) :
  (- 2 ^ 63 <= a + b < 2 ^ 63)%Z -> int_add np a b = a + b.
Proof. intros H. unfold int_add. destruct np; [apply wrap_int64_small; exact H | reflexivity]. Qed.

Lemma int_sub_small (np : bool) (a b : Z) :
  (- 2 ^ 63 <= a - b < 2 ^ 63)%Z -> int_sub np a b = a - b.
Proof. intros H. unfold int_sub. destruct np; [apply wrap_int64_small; exact H | reflexivity]. Qed.

(** X18: for a 1-D axis of a length below 2^63 whose good range
    [first_good .. last_good] lies within the dataset, with [last_good]
    not 0, the validator takes [last_good + 1 - first_good] for the length
    of the axis, and the entry that [axes] builds for it has that many
    elements: it is the array of the values from [first_good] to
    [last_good] when one of the two attributes is present, and the
    dataset itself when none is. *)
Theorem trimmed_axis_length (g : h5group) (name : string) (d : h5dataset) (n f l : Z) :
  lookup_child (children g) name = Some (Dset d) ->
  shape d = [n] -> (n < 2 ^ 63)%Z ->
  get_int (dattrs d) "first_good" 0 = Ok f ->
  get_int (dattrs d) "last_good" (n - 1) = Ok l ->
  dattrs d !! "last_good" <> Some (AInt 0) ->
  (0 <= f)%Z -> (f <= l + 1)%Z -> (l < n)%Z ->
  axis_length g d = Ok (l + 1 - f)
  /\ exists x,
       trim_axis g (Some (AxNode name)) = Ok (Some x)
       /\ axis_shape g x = Ok [l + 1 - f]
       /\ (has_key (dattrs d) "first_good" || has_key (dattrs d) "last_good" = true ->
           x = AxArray [l + 1 - f]
                 (take (Z.to_nat (l + 1 - f)) (drop (Z.to_nat f) (values d))))
       /\ (has_key (dattrs d) "first_good" || has_key (dattrs d) "last_good" = false ->
           x = AxNode name).
Proof.
  intros Hd Hshape Hn Hfg Hlg Hzero H0 Hfl Hln.
  assert (node_len (Dset d) = Ok n) as Hlen by (unfold node_len; rewrite Hshape; reflexivity).
  split.
  - unfold axis_length. rewrite Hshape. cbn [length Nat.eqb negb].
    rewrite Hlen. cbn [rbind]. rewrite Hfg, Hlg. cbn [rbind].
    rewrite (int_add_small _ l 1) by lia. rewrite int_sub_small by lia. reflexivity.
  - destruct (has_key (dattrs d) "first_good" || has_key (dattrs d) "last_good") eqn:Hkey.
    + rewrite (trim_axis_good_range g name d n f l Hd Hkey Hlen Hfg Hlg Hzero).
      rewrite (int_add_small _ l 1) by lia.
      rewrite (getslice_in_range d n f l Hshape H0 Hfl Hln). cbn [rbind].
      eexists. split; [reflexivity|]. split; [reflexivity|].
      split; [intros _; reflexivity | discriminate].
    + apply orb_false_iff in Hkey. destruct Hkey as [Hk1 Hk2].
      unfold has_key in Hk1, Hk2. unfold get_int in Hfg, Hlg.
      destruct (dattrs d !! "first_good") eqn:H1; [discriminate|].
      destruct (dattrs d !! "last_good") eqn:H2; [discriminate|].
      injection Hfg as <-. injection Hlg as <-.
      exists (AxNode name). split.
      * unfold trim_axis, getitem. rewrite Hd. cbn [rbind node_attrs].
        unfold has_key. rewrite H1, H2. reflexivity.
      * split; [|split; [discriminate | reflexivity]].
        unfold axis_shape, getitem. rewrite Hd. cbn [rbind node_shape].
        rewrite Hshape. do 2 f_equal. lia.
Qed.

Lemma trimmed_axis_length_witness :
  exists d,
    lookup_child (children good_range_group) "x" = Some (Dset d)
    /\ axis_length good_range_group d = Ok 4%Z
    /\ trim_axis good_range_group (Some (AxNode "x"))
       = Ok (Some (AxArray [4%Z] [12; 13; 14; 15]%Z)).
Proof.
  eexists. split; [reflexivity|].
  match goal with
  | |- axis_length _ ?d = _ /\ _ =>
    destruct (trimmed_axis_length good_range_group "x" d 8 2 5)
      as (Hlen & x & Htrim & _ & Hx & _);
      [reflexivity | reflexivity | lia | reflexivity | reflexivity
       | vm_compute; discriminate | lia | lia | lia |]
  end.
  split; [exact Hlen|]. rewrite Htrim, Hx by reflexivity. reflexivity.
Defined.

(** ** Construction over a signal of two dimensions or more *)

Lemma append_names_ok (names : list (option string)) :
  forall v : NXdata,
    Forall (None_or_member (group v)) names ->
    exists v', for_each names append_name v = (Ok tt, v').
Proof.
  induction names as [|dsname names IH]; intros v Hall.
  - exists v. reflexivity.
  - inversion Hall as [|x l Hx Hrest]; subst. cbn [for_each]. unfold bind at 1.
    assert (exists v1, append_name dsname v = (Ok tt, v1) /\ group v1 = group v)
      as (v1 & Hrun & Hg).
    { unfold append_name. destruct dsname as [name|].
      - destruct Hx as (n & Hn). unfold bind, get, lift, modify, getitem. rewrite Hn.
        destruct (node_attrs n !! "long_name"); eexists; split; reflexivity.
      - unfold modify. eexists; split; reflexivity. }
    rewrite Hrun. apply IH. rewrite Hg. exact Hrest.
Qed.

Lemma dotted_names_members (g : h5group) (names : list (option string)) :
  Forall (names_dataset g) names ->
  Forall (None_or_member g) (map dot_to_None names).
Proof.
  intros Hall. apply Forall_map. eapply Forall_impl; [exact Hall|].
  intros x [Hdot|(s & d & -> & Hd)]; unfold dot_to_None.
  - rewrite Hdot. exact I.
  - destruct (is_dot (Some s)); [exact I|]. exists (Dset d). exact Hd.
Qed.

Lemma INTERPDIM_allowed (s : string) (n : nat) :
  INTERPDIM s = Some n -> allowed_interpretation (Some (AStr s)) = true.
Proof.
  unfold INTERPDIM, allowed_interpretation.
  destruct (String.eqb s "scalar"); [reflexivity|].
  destruct (String.eqb s "spectrum"); [reflexivity|].
  destruct (String.eqb s "image"); [reflexivity|].
  destruct (String.eqb s "vertex"); [reflexivity | discriminate].
Qed.

(** X19: a valid group with [@axes] whose signal has two dimensions or
    more always gives a view: the constructor does not raise;
    [axes_names] has one entry per dimension, the view is not 1-D and
    not a scatter. *)
Theorem image_group_constructs (g : h5group) (name : string) (sig : h5dataset) (a : attr) :
  is_valid_NXdata g = Ok true ->
  attrs g !! "signal" = Some (AStr name) ->
  lookup_child (children g) name = Some (Dset sig) ->
  (2 <= length (shape sig))%nat ->
  attrs g !! "axes" = Some a ->
  exists v,
    fst (NXdata_init g) = Ok v
    /\ length (axes_names v) = length (shape sig)
    /\ signal_is_1D v = false
    /\ fst (is_scatter v) = Ok false.
Proof.
  intros Hvalid Hs Hc Hnd Ha.
  destruct (validate_Valid_inv g (is_valid_true g Hvalid))
    as (name' & sig' & _ & Hs' & Hc' & _ & Haxes).
  rewrite Hs in Hs'. injection Hs' as <-. rewrite Hc in Hc'. injection Hc' as <-.
  destruct (check_axes_attr_None_inv g sig a (Haxes a Ha))
    as (names & unc & Hnames & Hmore & Hint & _ & _ & Hchk).
  pose proof (check_axes_names_dataset _ _ _ _ _ _ Hchk) as Hmembers.
  assert (Nat.ltb 1 (length (shape sig)) = true) as H1 by (apply Nat.ltb_lt; lia).
  rewrite H1 in Hmore. cbn [andb] in Hmore. apply Nat.ltb_ge in Hmore.
  set (v0 := new_instance g name sig).
  assert (signal v0 = Ok sig) as Hsig0.
  { unfold signal, v0, new_instance. cbn [group signal_name]. rewrite Hc. reflexivity. }
  assert (signal_is_1D v0 = false) as H1D.
  { unfold v0, new_instance. cbn [signal_is_1D]. apply Nat.eqb_neq. lia. }
  (* the names *)
  assert (exists nm v1,
            axes_dataset_names v0 = (Ok nm, v1)
            /\ length nm = length (shape sig)
            /\ Forall (None_or_member (group v1)) nm
            /\ signal_is_1D v1 = false
            /\ (_is_scatter v1 = None \/ _is_scatter v1 = Some false))
    as (nm & v1 & Hadn & Hlen & Hnm & H1D1 & Hsc1).
  { rewrite (axes_dataset_names_run v0 sig Hsig0).
    unfold axes_attr_source. change (group v0) with g. rewrite Ha, Hnames.
    set (vA := after_write OnGroup a v0).
    destruct (after_write_signal OnGroup a v0 sig Hsig0)
      as (sigA & HsigA & _ & HnA & HscA & _ & H1DA).
    destruct (after_write_group a v0 Ha) as [HchA _].
    fold vA in HsigA, HnA, HscA, H1DA, HchA. change (group v0) with g in HchA.
    assert (Forall (None_or_member (group vA)) (map dot_to_None names)) as HmA.
    { eapply Forall_impl; [exact (dotted_names_members g names Hmembers)|].
      intros [x|]; [|done]. unfold None_or_member. rewrite HchA. done. }
    destruct (decide (length (map dot_to_None names) = length (shape sig))) as [Heq|Hne].
    - rewrite (pad_names_same _ _ vA Heq). exists (map dot_to_None names), vA.
      split_and!; try done.
      + congruence.
      + left. rewrite HscA. reflexivity.
    - rewrite (pad_names_other _ _ vA Hne).
      rewrite (is_scatter_not_1D vA) by (rewrite ?HscA, ?H1DA; done).
      cbn [andb].
      assert (Nat.ltb (length names) (length (shape sig)) = true) as Hlt.
      { rewrite length_map in Hne. apply Nat.ltb_lt. lia. }
      specialize (Hint Hlt). unfold check_interpretation in Hint.
      assert (interpretation_value (set_is_scatter false vA)
              = (if negb (allowed_interpretation (signal_or_group_attr g sig "interpretation"))
                 then Raise TypeError
                 else Ok (signal_or_group_attr g sig "interpretation"))) as ->.
      { rewrite (interpretation_value_ext vA (set_is_scatter false vA)) by reflexivity.
        unfold vA. rewrite interpretation_value_written.
        unfold interpretation_value. rewrite Hsig0. reflexivity. }
      destruct (signal_or_group_attr g sig "interpretation") as [[s|z|l]|]; try discriminate.
      destruct (INTERPDIM s) as [n|] eqn:Hdim; [|discriminate].
      destruct (Nat.eqb (length names) n) eqn:Hn; [|discriminate].
      apply Nat.eqb_eq in Hn.
      rewrite (INTERPDIM_allowed s n Hdim). cbn [negb interpdim_of]. rewrite Hdim.
      rewrite length_map, Hn, Nat.eqb_refl. cbn [negb].
      eexists _, _. split; [reflexivity|]. split_and!.
      + rewrite length_app, length_replicate, length_map. apply Nat.ltb_lt in Hlt. lia.
      + apply Forall_app. split; [|exact HmA].
        apply Forall_forall. intros x Hx. apply elem_of_replicate in Hx as [-> _]. exact I.
      + cbn [signal_is_1D set_is_scatter]. congruence.
      + right. reflexivity. }
  (* the end of the constructor *)
  destruct (append_names_ok nm v1 Hnm) as (v2 & Hloop).
  destruct (append_names_run nm v1) as (r & v2' & Hloop' & _ & _ & Hsc2 & _ & H1D2).
  rewrite Hloop in Hloop'. injection Hloop' as <- <-.
  destruct (append_names_value nm v1 v2 Hloop) as (l & Hl & Hall).
  pose proof (keeps_axes_dataset_names axes_names ltac:(done) ltac:(done) ltac:(done) v0)
    as Hnil.
  rewrite Hadn in Hnil. cbn [snd] in Hnil. change (axes_names v0) with (@nil (option attr)) in Hnil.
  exists (set_signal_is_1D false v2).
  assert (init_body v0 = (Ok tt, set_signal_is_1D false v2)) as Hbody.
  { change init_body with (bind axes_dataset_names init_rest). unfold bind at 1.
    rewrite Hadn. unfold init_rest, bind at 1. rewrite Hloop.
    unfold bind at 1, get. rewrite H1D2, H1D1. reflexivity. }
  split_and!.
  - unfold NXdata_init. rewrite Hvalid, Hs, Hc. fold (new_instance g name sig). fold v0.
    rewrite Hbody. reflexivity.
  - cbn [axes_names set_signal_is_1D]. rewrite Hl, Hnil. cbn [app].
    rewrite <- (Forall2_length _ _ _ Hall). exact Hlen.
  - reflexivity.
  - destruct Hsc1 as [Hnone|Hfalse].
    + rewrite is_scatter_not_1D; [reflexivity | | reflexivity].
      cbn [_is_scatter set_signal_is_1D]. congruence.
    + rewrite (is_scatter_cached _ false); [reflexivity|].
      cbn [_is_scatter set_signal_is_1D]. congruence.
Qed.

Lemma image_group_constructs_witness :
  exists v,
    fst (NXdata_init dot_axes_group) = Ok v
    /\ length (axes_names v) = 2%nat
    /\ signal_is_1D v = false.
Proof.
  destruct (image_group_constructs dot_axes_group "s" (mkDataset [2; 3] (list_to_map []) [])
              (AList [Some "."; Some "x"])) as (v & Hinit & Hlen & H1D & _).
  - vm_compute; reflexivity.
  - reflexivity.
  - reflexivity.
  - cbn [shape length]. lia.
  - reflexivity.
  - exists v. done.
Defined.


(** ** The resolution order of get_axis_errors *)




(** ** The position in [@axes] on a group read from a file *)

(** X21: on a group read from a file whose [@axes] is an array, when
    [@uncertainties] is given and the member [name] has no dataset
    [<name>_errors], [get_axis_errors] raises ValueError for a name that
    the array lists once: the test of membership has consumed the
    iterator over the names up to that name, and the name is not found
    in what is left. *)
Theorem file_axes_listed_once (v : NXdata) (name : string) (axis : node) (len_axis : Z)
    (sig : h5dataset) (unc : attr) (l : list (option string)) (i : nat) :
  by_reference (group v) = false ->
  lookup_child (children (group v)) name = Some axis ->
  node_len axis = Ok len_axis ->
  (forall e, lookup_child (children (group v)) (String.append name "_errors")
             <> Some (Dset e)) ->
  signal v = Ok sig ->
  group_or_signal_attr (group v) sig "uncertainties" = Some unc ->
  group_or_signal_attr (group v) sig "axes" = Some (AList l) ->
  index_of (Some name) (map str_of l) = Some i ->
  index_of (Some name) (drop (S i) (map str_of l)) = None ->
  get_axis_errors v name = Raise ValueError.
Proof.
  intros Href Haxis Hlen Hno Hsig Hunc Haxes Hi Hrest.
  assert (resolve_axis_name (group v) name = name) as Hname.
  { unfold resolve_axis_name, contains. rewrite Haxis. reflexivity. }
  unfold get_axis_errors. rewrite Hname. unfold contains, getitem. rewrite Haxis.
  cbn [negb rbind]. rewrite Hlen. cbn [rbind]. rewrite Hsig. cbn [rbind].
  rewrite Hunc, Haxes. unfold axes_position. rewrite Href, Hi, Hrest. cbn [rbind].
  destruct (lookup_child (children (group v)) (String.append name "_errors"))
    as [[e|a m]|] eqn:He; [exfalso; exact (Hno e eq_refl) | reflexivity | reflexivity].
Qed.

Lemma file_axes_listed_once_witness :
  fst (NXdata_init file_uncertainties_group) = Ok file_uncertainties_view
  /\ get_axis_errors file_uncertainties_view "x" = Raise ValueError.
Proof.
  split; [vm_compute; reflexivity|].
  apply (file_axes_listed_once file_uncertainties_view "x"
           (Dset (mkDataset [2] (list_to_map []) [])) 2
           (mkDataset [2; 3] (list_to_map []) [])
           (AList [Some "ex"; Some "ey"]) [Some "x"; Some "y"] 0%nat);
    try (vm_compute; reflexivity).
  intros e. vm_compute. discriminate.
Defined.
